(** * Resumable chunk processing: chunk builder, pricing table, state store
      and processing engine.

    A shallow embedding of [llm_large_file_processor.py],
    [document_preprocessor.py] and [integrated_processor.py].

    Conventions.
    - A Python [str] is a [string]; one character of the embedding stands for
      one character of the source, and [String.length] is [len].
    - The content of a file is the [string] of its bytes.  Hashing reads the
      bytes; reading the file as text decodes them, which fails on a
      content that is not UTF-8.
    - Counters that the program only ever builds from [len], [range] and
      [+ 1] (chunk indices, positions, chunk counts) are [nat]; the
      configuration integers [chunk_size] and [overlap], the slice bounds
      computed from them and the token counts are [Z].
    - A Python [float] is a binary64 [float] of the kernel, so that prices
      and costs are computed with the rounding of the source.
    - Code that can raise returns a [result]; code with effects passes a
      [world] (the two directories, the files, the history of events). *)

From Stdlib Require Import ZArith String List Ascii Lia Bool.
From Stdlib Require Import PrimFloat Uint63.
From stdpp Require Import gmap strings list pretty.

Set Warnings "-inexact-float".
Local Open Scope string_scope.
Local Open Scope list_scope.
Local Open Scope Z_scope.

(* ===================================================================== *)
(** ** Python primitives                                                  *)
(* ===================================================================== *)

Module Py.

(** Exceptions of the source, by class. *)
Inductive exn : Type :=
| ValueError (msg : string)
| FileNotFoundError (path : string)
| UnicodeDecodeError
| TypeError (msg : string)
| IndexError
| ApiError (msg : string).

Inductive result (A : Type) : Type :=
| Ok (a : A)
| Raise (e : exn).
Arguments Ok {A} a.
Arguments Raise {A} e.

Definition len (s : string) : Z := Z.of_nat (String.length s).

(** Normalisation of one slice bound against a sequence of length [n]:
    a negative bound counts from the end, and both ends are clamped. *)
Definition slice_bound (n i : Z) : Z :=
  if i <? 0 then Z.max (i + n) 0 else Z.min i n.

(** [s[lo:hi]] *)
Definition slice (s : string) (lo hi : Z) : string :=
  let a := slice_bound (len s) lo in
  let b := slice_bound (len s) hi in
  substring (Z.to_nat a) (Z.to_nat (b - a)) s.

(** [s[lo:]] *)
Definition slice_from (s : string) (lo : Z) : string :=
  let a := slice_bound (len s) lo in
  substring (Z.to_nat a) (Z.to_nat (len s - a)) s.

(** [sep.join(parts)] *)
Fixpoint join (sep : string) (parts : list string) : string :=
  match parts with
  | [] => ""
  | [p] => p
  | p :: rest => p +:+ sep +:+ join sep rest
  end.

(** Truth value of a string and of an optional value. *)
Definition truthy_str (o : option string) : bool :=
  match o with
  | Some s => negb (String.eqb s "")
  | None => false
  end.

Definition truthy_list {A} (l : list A) : bool :=
  match l with [] => false | _ => true end.

(** [float(n)] for an [int].  Exact for [|n| <= 2^53], rounded to nearest
    up to [2^63]; token counts stay far below. *)
Definition float_of_int (n : Z) : float :=
  if n <? 0 then PrimFloat.opp (PrimFloat.of_uint63 (Uint63.of_Z (- n)))
  else PrimFloat.of_uint63 (Uint63.of_Z n).

(** [n / 1_000_000] (true division of an [int] by an [int]). *)
Definition div_million (n : Z) : float :=
  PrimFloat.div (float_of_int n) 1000000%float.

End Py.
Import Py.

(* ===================================================================== *)
(** ** Records                                                            *)
(* ===================================================================== *)

(** One entry of [state.results]. *)
Record ResultEntry : Type := {
  chunk_index : nat;
  response : string;
  input_tokens : Z;
  output_tokens : Z;
  cost : float
}.

Record ProcessingState : Type := {
  file_path : string;
  file_hash : string;
  total_chunks : nat;
  processed_chunks : nat;
  current_model : string;
  total_cost : float;
  results : list ResultEntry;
  created_at : string;
  updated_at : string
}.

Inductive chunk_type : Type := TText | TImage | TMixed.

(** An entry of [image_data]: [{'position', 'data', 'format'}]. *)
Record ImageRef : Type := {
  img_position : nat;
  img_data : string;
  img_format : string
}.

Record ChunkInfo : Type := {
  index : nat;
  content_type : chunk_type;
  text_content : option string;
  image_data : option (list ImageRef);
  token_estimate : Z;
  original_position : Z
}.

(** [ExtractedContent] of the preprocessor; [content_type] is ['text'] or
    ['image']. *)
Inductive content_kind : Type := KText | KImage.

Record ExtractedContent : Type := {
  position : nat;
  kind : content_kind;
  data : string
}.

(* ===================================================================== *)
(** ** ModelPricing                                                       *)
(* ===================================================================== *)

Module ModelPricing.

Record pricing : Type := { input : float; output : float }.

(** The table, in the order of the source (a [dict] keeps it). *)
Definition MODELS : list (string * pricing) :=
  [ ("claude-sonnet-4-5", {| input := 3.00; output := 15.00 |});
    ("claude-sonnet-4",   {| input := 3.00; output := 15.00 |});
    ("claude-opus-4",     {| input := 15.00; output := 75.00 |});
    ("claude-haiku-4",    {| input := 0.80; output := 4.00 |});
    ("gpt-4o",            {| input := 2.50; output := 10.00 |});
    ("gpt-4o-mini",       {| input := 0.15; output := 0.60 |}) ]%float.

Fixpoint lookup (table : list (string * pricing)) (model : string)
  : option pricing :=
  match table with
  | [] => None
  | (m, p) :: rest => if String.eqb m model then Some p else lookup rest model
  end.

Definition keys : list string := map fst MODELS.

Definition unsupported (model : string) : exn :=
  ValueError ("지원하지 않는 모델: " +:+ model).

Definition cost_formula (p : pricing) (input_tokens output_tokens : Z)
  : float :=
  (div_million input_tokens * input p
   + div_million output_tokens * output p)%float.

Definition estimate_cost (model : string) (input_tokens output_tokens : Z)
  : result float :=
  match lookup MODELS model with
  | None => Raise (unsupported model)
  | Some p => Ok (cost_formula p input_tokens output_tokens)
  end.

(** The comprehension over [cls.MODELS.keys()]; the first failing call
    would abort it. *)
Fixpoint compare_over (ms : list string) (input_tokens output_tokens : Z)
  : result (list (string * float)) :=
  match ms with
  | [] => Ok []
  | m :: rest =>
      match estimate_cost m input_tokens output_tokens with
      | Raise e => Raise e
      | Ok c =>
          match compare_over rest input_tokens output_tokens with
          | Raise e => Raise e
          | Ok cs => Ok ((m, c) :: cs)
          end
      end
  end.

Definition compare_models (input_tokens output_tokens : Z)
  : result (list (string * float)) :=
  compare_over keys input_tokens output_tokens.

End ModelPricing.

(* ===================================================================== *)
(** ** The world the program runs in                                      *)
(* ===================================================================== *)

(** What a run does that an observer can see, in order.  The length of the
    history is the time at which the next action happens. *)
Inductive event : Type :=
| EvPauseCheck (i : nat) (flag : bool)  (* [self.pause_requested] read before chunk [i] *)
| EvCall (i : nat) (chunk : ChunkInfo)  (* [_call_llm_api] entered for chunk [i] *)
| EvReturn (i : nat)                    (* ... and it returned *)
| EvRaise (i : nat) (e : exn)           (* ... or it raised *)
| EvSave (st : ProcessingState)         (* a state file was written *)
| EvInput (answer : string).            (* [input()] was answered *)

Record world : Type := {
  files : gmap string string;                (* path -> content *)
  state_dir : gmap string ProcessingState;   (* hash -> [<hash>.json] *)
  chunk_dir : gmap string (list ChunkInfo);  (* hash -> [<hash>_chunks.json] *)
  clock : nat;                               (* readings of [datetime.now()] so far *)
  history : list event
}.

Definition time (w : world) : nat := length (history w).

Definition log (ev : event) (w : world) : world :=
  {| files := files w; state_dir := state_dir w; chunk_dir := chunk_dir w;
     clock := clock w; history := history w ++ [ev] |}.

(** The events between an earlier world and a later one. *)
Definition since (w w' : world) : list event := drop (time w) (history w').

(** What the provider answers: [response.content[0].text] and
    [response.usage]. *)
Record llm_response : Type := {
  resp_text : string;
  resp_input_tokens : Z;
  resp_output_tokens : Z
}.

Record request : Type := {
  req_model : string;
  req_max_tokens : Z;
  req_system : string;
  req_text : string;
  req_images : list string
}.

(** [self.api_client]: absent (demo mode), an object with [messages], an
    object with [chat], or anything else.  A backend answers a request made
    at a given time or raises. *)
Inductive client : Type :=
| NoClient
| Anthropic (create : nat -> request -> result llm_response)
| OpenAI (create : nat -> request -> result llm_response)
| OtherClient.

Inductive extension : Type :=
| Docx | Pdf | Pptx | Xlsx | Txt | Unsupported (ext : string).

(** Readings of a history. *)
Module Trace.

(** The submissions to the LLM, in order. *)
Fixpoint calls (evs : list event) : list (nat * ChunkInfo) :=
  match evs with
  | [] => []
  | EvCall i chunk :: rest => (i, chunk) :: calls rest
  | _ :: rest => calls rest
  end.

(** The values of the pause flag that were read, in order. *)
Fixpoint pause_checks (evs : list event) : list (nat * bool) :=
  match evs with
  | [] => []
  | EvPauseCheck i flag :: rest => (i, flag) :: pause_checks rest
  | _ :: rest => pause_checks rest
  end.

(** One pass over a history with the call in flight, if any: a call
    starts only when none is in flight and ends with its own return or
    raise; the flag is read, a state saved and a question asked only
    when none is in flight.  [None]: the history breaks this. *)
Fixpoint scan (in_flight : option nat) (evs : list event)
  : option (option nat) :=
  match evs with
  | [] => Some in_flight
  | ev :: rest =>
      match ev, in_flight with
      | EvCall i _, None => scan (Some i) rest
      | EvReturn i, Some j => if Nat.eqb i j then scan None rest else None
      | EvRaise i _, Some j => if Nat.eqb i j then scan None rest else None
      | EvPauseCheck _ _, None => scan None rest
      | EvSave _, None => scan None rest
      | EvInput _, None => scan None rest
      | _, _ => None
      end
  end.

End Trace.

(** Everything outside the program. *)
Record env : Type := {
  md5 : string -> string;            (* [hexdigest] of a content *)
  decode_utf8 : string -> option string;
                                     (* the text of a content; [None]: not UTF-8 *)
  now : nat -> string;               (* the [n]-th reading of the clock *)
  pause_flag : nat -> bool;          (* [pause_requested] at a time; others set it *)
  user_input : nat -> string;        (* the answer to [input()] at a time *)
  api_client : client;
  format_template : string -> string -> result string;  (* [str.format(chunk_text=..)] *)
  file_extension : string -> extension;                 (* [Path(p).suffix.lower()] *)
  extract_document : extension -> string -> result (list ExtractedContent)
}.

(** Field updates of the mutable [ProcessingState]. *)
Definition set_updated_at (st : ProcessingState) (t : string) : ProcessingState :=
  {| file_path := file_path st; file_hash := file_hash st;
     total_chunks := total_chunks st; processed_chunks := processed_chunks st;
     current_model := current_model st; total_cost := total_cost st;
     results := results st; created_at := created_at st; updated_at := t |}.

Definition set_current_model (st : ProcessingState) (m : string) : ProcessingState :=
  {| file_path := file_path st; file_hash := file_hash st;
     total_chunks := total_chunks st; processed_chunks := processed_chunks st;
     current_model := m; total_cost := total_cost st;
     results := results st; created_at := created_at st;
     updated_at := updated_at st |}.

(** The three assignments after a successful call:
    [results.append(entry)], [processed_chunks = i + 1],
    [total_cost += entry['cost']]. *)
Definition record_result (st : ProcessingState) (i : nat) (entry : ResultEntry)
  : ProcessingState :=
  {| file_path := file_path st; file_hash := file_hash st;
     total_chunks := total_chunks st; processed_chunks := S i;
     current_model := current_model st;
     total_cost := (total_cost st + cost entry)%float;
     results := results st ++ [entry]; created_at := created_at st;
     updated_at := updated_at st |}.

(** ASCII part of [str.lower()]. *)
Definition lower_char (c : ascii) : ascii :=
  let n := nat_of_ascii c in
  if ((65 <=? n) && (n <=? 90))%nat then ascii_of_nat (n + 32) else c.

Fixpoint lower (s : string) : string :=
  match s with
  | EmptyString => EmptyString
  | String c s' => String (lower_char c) (lower s')
  end.

(** [open(file_path, 'r', encoding='utf-8').read()] *)
Definition read_text (E : env) (w : world) (file_path : string)
  : result string :=
  match files w !! file_path with
  | None => Raise (FileNotFoundError file_path)
  | Some content =>
      match decode_utf8 E content with
      | None => Raise UnicodeDecodeError
      | Some text => Ok text
      end
  end.

(* ===================================================================== *)
(** ** LargeFileProcessor                                                 *)
(* ===================================================================== *)

Module LargeFileProcessor.

(** Opening a missing file raises before anything is hashed. *)
Definition calculate_file_hash (E : env) (w : world) (file_path : string)
  : result string :=
  match files w !! file_path with
  | None => Raise (FileNotFoundError file_path)
  | Some content => Ok (md5 E content)
  end.

Definition estimate_tokens (text : string) (images : Z) : Z :=
  len text / 2 + images * 1500.

(** The [while start < len(content)] loop.  It does not end when
    [chunk_size <= overlap] on a non-empty content, hence the fuel;
    [None] is a loop that is still running. *)
Fixpoint create_chunks_loop (fuel : nat) (content : string)
    (chunk_size overlap : Z) (start : Z) (index : nat)
  : option (list ChunkInfo) :=
  if start <? len content then
    match fuel with
    | O => None
    | S fuel' =>
        let end_ := start + chunk_size in
        let chunk_text := slice content start end_ in
        let chunk :=
          {| index := index; content_type := TText;
             text_content := Some chunk_text; image_data := None;
             token_estimate := estimate_tokens chunk_text 0;
             original_position := start |} in
        match create_chunks_loop fuel' content chunk_size overlap
                (end_ - overlap) (S index) with
        | Some rest => Some (chunk :: rest)
        | None => None
        end
    end
  else Some [].

(** [create_chunks] on the text of a file. *)
Definition create_chunks_text (content : string) (chunk_size overlap : Z)
  : option (list ChunkInfo) :=
  create_chunks_loop (S (String.length content)) content chunk_size overlap 0 0.

Definition create_chunks (E : env) (w : world) (file_path : string)
    (chunk_size overlap : Z) : option (result (list ChunkInfo)) :=
  match read_text E w file_path with
  | Raise e => Some (Raise e)
  | Ok content =>
      match create_chunks_text content chunk_size overlap with
      | Some chunks => Some (Ok chunks)
      | None => None
      end
  end.

Definition default_chunk_size : Z := 100000.
Definition default_overlap : Z := 5000.

(** Sets [updated_at], writes [<file_hash>.json]; the caller's object is
    the one that was stamped. *)
Definition save_state (E : env) (state : ProcessingState) (w : world)
  : ProcessingState * world :=
  let state' := set_updated_at state (now E (clock w)) in
  (state',
   {| files := files w;
      state_dir := <[file_hash state' := state']> (state_dir w);
      chunk_dir := chunk_dir w;
      clock := S (clock w);
      history := history w ++ [EvSave state'] |}).

Definition load_state (E : env) (w : world) (file_path : string)
  : result (option ProcessingState) :=
  match calculate_file_hash E w file_path with
  | Raise e => Raise e
  | Ok file_hash => Ok (state_dir w !! file_hash)
  end.

(** [None]: the chunking loop does not return. *)
Definition initialize_processing (E : env) (file_path model : string)
    (w : world) : option (result ProcessingState * world) :=
  match calculate_file_hash E w file_path with
  | Raise e => Some (Raise e, w)
  | Ok file_hash =>
      match load_state E w file_path with
      | Raise e => Some (Raise e, w)
      | Ok existing_state =>
          let fresh (w : world) :=
            match create_chunks E w file_path default_chunk_size
                    default_overlap with
            | None => None
            | Some (Raise e) => Some (Raise e, w)
            | Some (Ok chunks) =>
                let state :=
                  {| file_path := file_path; file_hash := file_hash;
                     total_chunks := length chunks; processed_chunks := 0;
                     current_model := model; total_cost := 0%float;
                     results := [];
                     created_at := now E (clock w);
                     updated_at := now E (S (clock w)) |} in
                let w1 :=
                  {| files := files w; state_dir := state_dir w;
                     chunk_dir := chunk_dir w; clock := S (S (clock w));
                     history := history w |} in
                let (state', w2) := save_state E state w1 in
                Some (Ok state', w2)
            end in
          match existing_state with
          | Some st =>
              let answer := user_input E (time w) in
              let w1 := log (EvInput answer) w in
              if String.eqb (lower answer) "y" then Some (Ok st, w1)
              else fresh w1
          | None => fresh w
          end
      end
  end.

(** The dictionary that [estimate_remaining_cost] returns. *)
Record cost_info : Type := {
  remaining_chunks : nat;
  cost_input_tokens : Z;
  cost_output_tokens : Z;
  estimated_cost : float;
  model_comparison : list (string * float)
}.

(** [chunks[start_index:]] for [start_index >= 0]. *)
Definition estimate_remaining_cost (chunks : list ChunkInfo)
    (start_index : nat) (model : string) (output_tokens_per_chunk : Z)
  : result cost_info :=
  let remaining := drop start_index chunks in
  let total_input_tokens := fold_left Z.add (map token_estimate remaining) 0 in
  let total_output_tokens := Z.of_nat (length remaining) * output_tokens_per_chunk in
  match ModelPricing.estimate_cost model total_input_tokens total_output_tokens with
  | Raise e => Raise e
  | Ok cost =>
      match ModelPricing.compare_models total_input_tokens total_output_tokens with
      | Raise e => Raise e
      | Ok comparison =>
          Ok {| remaining_chunks := length remaining;
                cost_input_tokens := total_input_tokens;
                cost_output_tokens := total_output_tokens;
                estimated_cost := cost;
                model_comparison := comparison |}
      end
  end.

(** [change_model] on the state that [initialize_processing] returned
    (the same object as [self.current_state]). *)
Definition change_model (E : env) (state : ProcessingState)
    (new_model : string) (w : world) : ProcessingState * world :=
  save_state E (set_current_model state new_model) w.

End LargeFileProcessor.

(* ===================================================================== *)
(** ** DocumentPreprocessor                                               *)
(* ===================================================================== *)

Module DocumentPreprocessor.

Definition _extract_from_text (E : env) (w : world) (file_path : string)
  : result (list ExtractedContent) :=
  match read_text E w file_path with
  | Raise e => Raise e
  | Ok text => Ok [ {| position := 0; kind := KText; data := text |} ]
  end.

(** The dispatch on the extension; the four document formats are parsed
    by third-party libraries. *)
Definition extract_content (E : env) (w : world) (file_path : string)
  : result (list ExtractedContent) :=
  match file_extension E file_path with
  | Unsupported ext => Raise (ValueError ("지원하지 않는 파일 형식: " +:+ ext))
  | Txt => _extract_from_text E w file_path
  | ext => extract_document E ext file_path
  end.

End DocumentPreprocessor.

(* ===================================================================== *)
(** ** IntegratedProcessor: the chunk builder                             *)
(* ===================================================================== *)

Module ChunkBuilder.

(** ['\n\n'] *)
Definition blank_line : string := String "010" (String "010" EmptyString).

Definition _finalize_chunk (index : nat) (texts : list string)
    (images : list ImageRef) (start_position : nat) : ChunkInfo :=
  let text_content :=
    if truthy_list texts then Some (join blank_line texts) else None in
  let image_data := if truthy_list images then Some images else None in
  let has_images := truthy_list images in
  let content_type :=
    if truthy_str text_content && has_images then TMixed
    else if has_images then TImage
    else TText in
  let text_tokens :=
    match text_content with
    | Some t => if truthy_str text_content then len t / 2 else 0
    | None => 0
    end in
  let image_tokens :=
    if has_images then Z.of_nat (length images) * 1500 else 0 in
  {| index := index; content_type := content_type;
     text_content := text_content; image_data := image_data;
     token_estimate := 0 + text_tokens + image_tokens;
     original_position := Z.of_nat start_position |}.

(** The local variables of [_create_smart_chunks]. *)
Record builder : Type := {
  chunks : list ChunkInfo;
  current_text : list string;
  current_images : list ImageRef;
  current_size : Z;
  chunk_index : nat;
  start_position : nat
}.

Definition init : builder :=
  {| chunks := []; current_text := []; current_images := [];
     current_size := 0; chunk_index := 0; start_position := 0 |}.

Section Build.
Variables (chunk_size overlap : Z).

(** [current_size + text_size > chunk_size and current_text] *)
Definition must_split (b : builder) (content : ExtractedContent) : bool :=
  (current_size b + len (data content) >? chunk_size)
  && truthy_list (current_text b).

(** [current_text[-1][-overlap:]] *)
Definition overlap_text (last_text : string) : string :=
  slice_from last_text (- overlap).

(** The body of the [if]: close the chunk, seed the next one. *)
Definition close_chunk (b : builder) (content : ExtractedContent) : builder :=
  let closed :=
    _finalize_chunk (chunk_index b) (current_text b) (current_images b)
      (start_position b) in
  let seeded :=
    match last (current_text b) with
    | Some t => ([overlap_text t], len (overlap_text t))
    | None => ([], 0)
    end in
  {| chunks := chunks b ++ [closed];
     current_text := fst seeded;
     current_images := [];
     current_size := snd seeded;
     chunk_index := S (chunk_index b);
     start_position := position content |}.

Definition add_text (b : builder) (content : ExtractedContent) : builder :=
  {| chunks := chunks b;
     current_text := current_text b ++ [data content];
     current_images := current_images b;
     current_size := current_size b + len (data content);
     chunk_index := chunk_index b;
     start_position := start_position b |}.

Definition add_image (b : builder) (content : ExtractedContent) : builder :=
  {| chunks := chunks b;
     current_text := current_text b;
     current_images :=
       current_images b
       ++ [ {| img_position := position content; img_data := data content;
               img_format := "png" |} ];
     current_size := current_size b + 3000;
     chunk_index := chunk_index b;
     start_position := start_position b |}.

(** One turn of the [for] loop. *)
Definition step (b : builder) (content : ExtractedContent) : builder :=
  match kind content with
  | KText =>
      add_text (if must_split b content then close_chunk b content else b)
        content
  | KImage => add_image b content
  end.

(** The last chunk, if anything is pending. *)
Definition flush (b : builder) : list ChunkInfo :=
  if truthy_list (current_text b) || truthy_list (current_images b) then
    chunks b
    ++ [ _finalize_chunk (chunk_index b) (current_text b) (current_images b)
           (start_position b) ]
  else chunks b.

Definition _create_smart_chunks (contents : list ExtractedContent)
  : list ChunkInfo :=
  flush (fold_left step contents init).

(** The text seeded into each chunk, in chunk order: nothing for the
    first chunk, [overlap_text] of the last pending text at each split.
    It follows the loop above turn by turn and reads the same tests. *)
Definition seed_step (acc : builder * list string)
    (content : ExtractedContent) : builder * list string :=
  let (b, seeds) := acc in
  (step b content,
   match kind content with
   | KText =>
       if must_split b content then
         seeds ++ [ match last (current_text b) with
                    | Some t => overlap_text t
                    | None => ""
                    end ]
       else seeds
   | KImage => seeds
   end).

Definition carried_overlaps (contents : list ExtractedContent)
  : list string :=
  snd (fold_left seed_step contents (init, [""])).

End Build.

(** Removal of the carried text in front of a chunk text. *)
Definition strip_overlap (seed text : string) : string :=
  slice_from text (len seed).

Definition chunk_text (c : ChunkInfo) : string :=
  match text_content c with Some t => t | None => "" end.

Fixpoint concat_all (parts : list string) : string :=
  match parts with
  | [] => ""
  | p :: rest => p +:+ concat_all rest
  end.

(** The chunk texts in index order, each without its carried text. *)
Definition reassemble (seeds : list string) (chs : list ChunkInfo) : string :=
  concat_all (zip_with strip_overlap seeds (map chunk_text chs)).

(** The last [n] characters of [s] (all of [s] when it is shorter). *)
Definition trailing (n : Z) (s : string) : string :=
  substring (Z.to_nat (len s - n)) (Z.to_nat n) s.

(** The builder after the text units [us], seen from the round trip:
    [front] holds the seeds of the closed chunks, [seed] is the seed of
    the pending one. *)
Record built (us : list ExtractedContent) (b : builder)
    (front : list string) (seed : string) : Prop := {
  built_images : current_images b = [];
  built_front : length front = length (chunks b);
  built_prefix :
    Forall2 (fun s c => exists rest, text_content c = Some (s +:+ rest))
      front (chunks b);
  built_text :
    reassemble front (chunks b)
      +:+ strip_overlap seed (join blank_line (current_text b))
    = join blank_line (map data us);
  built_pending :
    (seed = "" /\ chunks b = [] /\ front = [] /\ current_text b = map data us)
    \/ (exists pend, current_text b = seed :: pend /\ pend <> [] /\ us <> [])
}.

End ChunkBuilder.

(* ===================================================================== *)
(** ** IntegratedProcessor: preprocessing, LLM calls and the engine       *)
(* ===================================================================== *)

Module IntegratedProcessor.

Import LargeFileProcessor.

Definition default_chunk_size : Z := 80000.
Definition default_overlap : Z := 4000.

(** A chunk file for the hash short-circuits extraction and chunking. *)
Definition preprocess_and_chunk (E : env) (file_path : string)
    (chunk_size overlap : Z) (w : world) : result (list ChunkInfo) * world :=
  match calculate_file_hash E w file_path with
  | Raise e => (Raise e, w)
  | Ok file_hash =>
      match chunk_dir w !! file_hash with
      | Some chunks => (Ok chunks, w)
      | None =>
          match DocumentPreprocessor.extract_content E w file_path with
          | Raise e => (Raise e, w)
          | Ok extracted =>
              let chunks :=
                ChunkBuilder._create_smart_chunks chunk_size overlap extracted in
              (Ok chunks,
               {| files := files w; state_dir := state_dir w;
                  chunk_dir := <[file_hash := chunks]> (chunk_dir w);
                  clock := clock w; history := history w |})
          end
      end
  end.

(** The dictionary a call returns. *)
Record api_result : Type := {
  r_response : string;
  r_input_tokens : Z;
  r_output_tokens : Z;
  r_cost : float
}.

Definition priced (model : string) (text : string) (inp out : Z)
  : result (option api_result) :=
  match ModelPricing.estimate_cost model inp out with
  | Raise e => Raise e
  | Ok c => Ok (Some {| r_response := text; r_input_tokens := inp;
                        r_output_tokens := out; r_cost := c |})
  end.

(** [_call_llm_api] at time [t].  With a client that has neither
    [messages] nor [chat] the function falls off its end and returns
    [None]. *)
Definition _call_llm_api (E : env) (t : nat) (chunk : ChunkInfo)
    (system_prompt user_prompt_template model : string)
    (max_output_tokens : Z) : result (option api_result) :=
  match api_client E with
  | NoClient =>
      priced model ("[Demo] Processed chunk " +:+ pretty (index chunk))
        (token_estimate chunk) 500
  | cl =>
      let content :=
        match text_content chunk with
        | Some text =>
            if truthy_str (Some text)
            then format_template E user_prompt_template text
            else Ok "이미지를 분석해주세요."
        | None => Ok "이미지를 분석해주세요."
        end in
      match content with
      | Raise e => Raise e
      | Ok content =>
          let images :=
            match image_data chunk with
            | Some imgs => map img_data imgs
            | None => []
            end in
          let req :=
            {| req_model := model; req_max_tokens := max_output_tokens;
               req_system := system_prompt; req_text := content;
               req_images := images |} in
          match cl with
          | Anthropic create | OpenAI create =>
              match create t req with
              | Raise e => Raise e
              | Ok r =>
                  priced model (resp_text r) (resp_input_tokens r)
                    (resp_output_tokens r)
              end
          | _ => Ok None
          end
      end
  end.

(** How the [for] loop was left. *)
Inductive loop_exit : Type :=
| LoopDone
| LoopBreak
| LoopRaise (e : exn).

Section Engine.
Variables (E : env) (chunks : list ChunkInfo).
Variables (system_prompt user_prompt_template model : string).
Variable (output_tokens : Z).

(** The call and the subscripts [result['response']] ... of the
    [try] block. *)
Definition attempt (t : nat) (chunk : ChunkInfo) : result api_result :=
  match _call_llm_api E t chunk system_prompt user_prompt_template model
          output_tokens with
  | Raise e => Raise e
  | Ok None => Raise (TypeError "'NoneType' object is not subscriptable")
  | Ok (Some r) => Ok r
  end.

Definition entry_of (i : nat) (r : api_result) : ResultEntry :=
  Build_ResultEntry i (r_response r) (r_input_tokens r) (r_output_tokens r)
    (r_cost r).

(** The periodic save, every tenth chunk. *)
Definition checkpoint (i : nat) (state : ProcessingState) (w : world)
  : ProcessingState * world :=
  if ((i + 1) mod 10 =? 0)%nat then save_state E state w else (state, w).

(** [for i in range(i, i + count)] *)
Fixpoint process_loop (count i : nat) (state : ProcessingState) (w : world)
  : loop_exit * ProcessingState * world :=
  match count with
  | O => (LoopDone, state, w)
  | S count' =>
      let flag := pause_flag E (time w) in
      let w0 := log (EvPauseCheck i flag) w in
      if flag then
        let (state', w') := save_state E state w0 in
        (LoopBreak, state', w')
      else
        match chunks !! i with
        | None => (LoopRaise IndexError, state, w0)
        | Some chunk =>
            let w1 := log (EvCall i chunk) w0 in
            match attempt (time w1) chunk with
            | Ok r =>
                let w2 := log (EvReturn i) w1 in
                let state1 := record_result state i (entry_of i r) in
                let (state2, w3) := checkpoint i state1 w2 in
                process_loop count' (S i) state2 w3
            | Raise e =>
                let w2 := log (EvRaise i e) w1 in
                let (state', w3) := save_state E state w2 in
                (LoopRaise e, state', w3)
            end
        end
  end.

(** What follows the loop: an exception leaves at once, every other
    exit reaches the final save. *)
Definition finish (r : loop_exit * ProcessingState * world)
  : result unit * ProcessingState * world :=
  match r with
  | (LoopRaise e, state, w) => (Raise e, state, w)
  | (_, state, w) =>
      let (state', w') := save_state E state w in (Ok tt, state', w')
  end.

Definition _process_chunks (state : ProcessingState) (w : world)
  : result unit * ProcessingState * world :=
  let start_index := processed_chunks state in
  finish (process_loop (length chunks - start_index) start_index state w).

(** The world after the flag was read unset before chunk [i], the call
    was made and it returned. *)
Definition answered (i : nat) (chunk : ChunkInfo) (w : world) : world :=
  log (EvReturn i) (log (EvCall i chunk) (log (EvPauseCheck i false) w)).

Definition is_save (ev : event) : Prop :=
  match ev with EvSave _ => True | _ => False end.

(** Flag readings that all found the flag unset. *)
Definition unset (l : list nat) : list (nat * bool) :=
  map (fun j => (j, false)) l.

(** What the loop over [count] chunks from [i] has done when it is
    left, with [m] the number of chunks it recorded. *)
Definition shape (count i : nat) (st : ProcessingState) (w : world)
    (out : loop_exit * ProcessingState * world) : Prop :=
  exists (m : nat) (new : list ResultEntry) (evs : list event),
    (m <= count)%nat /\
    results out.1.2 = results st ++ new /\
    map chunk_index new = seq i m /\
    processed_chunks out.1.2
      = match m with O => processed_chunks st | _ => (i + m)%nat end /\
    file_hash out.1.2 = file_hash st /\
    total_chunks out.1.2 = total_chunks st /\
    history out.2 = history w ++ evs /\
    Trace.scan None evs = Some None /\
    match out.1.1 with
    | LoopDone =>
        m = count /\
        map fst (Trace.calls evs) = seq i m /\
        map snd (Trace.calls evs) = take m (drop i chunks) /\
        Trace.pause_checks evs = unset (seq i m)
    | LoopBreak =>
        (m < count)%nat /\
        map fst (Trace.calls evs) = seq i m /\
        map snd (Trace.calls evs) = take m (drop i chunks) /\
        Trace.pause_checks evs = unset (seq i m) ++ [((i + m)%nat, true)] /\
        state_dir out.2 !! file_hash st = Some out.1.2
    | LoopRaise e =>
        (m < count)%nat /\
        map fst (Trace.calls evs) = seq i (S m) /\
        map snd (Trace.calls evs) = take (S m) (drop i chunks) /\
        Trace.pause_checks evs = unset (seq i (S m)) /\
        In (EvRaise (i + m) e) evs /\
        state_dir out.2 !! file_hash st = Some out.1.2
    end.

(** The same for one call of [_process_chunks]. *)
Definition run_shape (st : ProcessingState) (w : world)
    (out : result unit * ProcessingState * world) : Prop :=
  let k := processed_chunks st in
  let n := length chunks in
  exists (m : nat) (new : list ResultEntry) (evs : list event),
    (m <= n - k)%nat /\
    results out.1.2 = results st ++ new /\
    map chunk_index new = seq k m /\
    processed_chunks out.1.2 = (k + m)%nat /\
    total_chunks out.1.2 = total_chunks st /\
    since w out.2 = evs /\
    Trace.scan None evs = Some None /\
    state_dir out.2 !! file_hash st = Some out.1.2 /\
    match out.1.1 with
    | Ok _ =>
        map fst (Trace.calls evs) = seq k m /\
        map snd (Trace.calls evs) = take m (drop k chunks) /\
        (((process_loop (n - k) k st w).1.1 = LoopDone /\
          m = (n - k)%nat /\ Trace.pause_checks evs = unset (seq k m))
         \/ ((process_loop (n - k) k st w).1.1 = LoopBreak /\
             (m < n - k)%nat /\
             Trace.pause_checks evs
             = unset (seq k m) ++ [((k + m)%nat, true)]))
    | Raise e =>
        (m < n - k)%nat /\
        map fst (Trace.calls evs) = seq k (S m) /\
        map snd (Trace.calls evs) = take (S m) (drop k chunks) /\
        Trace.pause_checks evs = unset (seq k (S m)) /\
        In (EvRaise (k + m) e) evs
    end.

End Engine.

(** [str.isspace()] of a character below 256: tab to carriage return,
    the four separators 0x1c to 0x1f, the space, 0x85 and the no-break
    space 0xa0.  [str.strip()] removes these at both ends. *)
Definition is_space (c : ascii) : bool :=
  let n := nat_of_ascii c in
  ((n =? 32) || ((9 <=? n) && (n <=? 13)) || ((28 <=? n) && (n <=? 31))
   || (n =? 133) || (n =? 160))%nat.

Fixpoint lstrip (s : list ascii) : list ascii :=
  match s with
  | c :: s' => if is_space c then lstrip s' else s
  | [] => []
  end.

Definition strip (s : string) : string :=
  string_of_list_ascii
    (rev (lstrip (rev (lstrip (list_ascii_of_string s))))).

(** [process_file].  [None]: the chunking loop of [initialize_processing]
    does not return. *)
Definition process_file (E : env) (file_path system_prompt
    user_prompt_template model : string) (output_tokens : Z)
    (auto_confirm : bool) (w : world)
  : option (result ProcessingState * world) :=
  match preprocess_and_chunk E file_path default_chunk_size default_overlap w with
  | (Raise e, w1) => Some (Raise e, w1)
  | (Ok chunks, w1) =>
      match initialize_processing E file_path model w1 with
      | None => None
      | Some (Raise e, w2) => Some (Raise e, w2)
      | Some (Ok state, w2) =>
          match estimate_remaining_cost chunks (processed_chunks state) model
                  output_tokens with
          | Raise e => Some (Raise e, w2)
          | Ok _ =>
              let run (model : string) (state : ProcessingState) (w : world) :=
                match _process_chunks E chunks system_prompt
                        user_prompt_template model output_tokens state w with
                | (Raise e, _, w') => Some (Raise e, w')
                | (Ok _, state', w') => Some (Ok state', w')
                end in
              if auto_confirm then run model state w2
              else
                let response := strip (user_input E (time w2)) in
                let w3 := log (EvInput response) w2 in
                if String.eqb (lower response) "n" then Some (Ok state, w3)
                else if String.eqb (lower response) "y" then run model state w3
                else
                  match ModelPricing.lookup ModelPricing.MODELS response with
                  | Some _ =>
                      let (state', w4) := change_model E state response w3 in
                      run response state' w4
                  | None => run model state w3
                  end
          end
      end
  end.

End IntegratedProcessor.

(* ===================================================================== *)
(** ** Vocabulary of the statements                                        *)
(* ===================================================================== *)

Section Vocabulary.
Import ChunkBuilder.

(** Something waits in the builder for the next chunk. *)
Definition pending (b : builder) : bool :=
  truthy_list (current_text b) || truthy_list (current_images b).

(** A chunk as [_finalize_chunk] makes it from something. *)
Definition finalized (c : ChunkInfo) : Prop :=
  exists i texts images pos,
    c = _finalize_chunk i texts images pos /\ (texts <> [] \/ images <> []).

Record counted (n : nat) (b : builder) : Prop := {
  counted_index : chunk_index b = length (chunks b);
  counted_dense : map index (chunks b) = seq 0 (length (chunks b));
  counted_bound :
    (length (chunks b) + (if pending b then 1 else 0) <= n)%nat;
  counted_pending : (0 < n)%nat -> pending b = true;
  counted_finalized : Forall finalized (chunks b)
}.

(** The record that [_create_smart_chunks] keeps of an image unit. *)
Definition image_ref (c : ExtractedContent) : ImageRef :=
  {| img_position := position c; img_data := data c; img_format := "png" |}.

End Vocabulary.

(** The chunk texts of [create_chunks] put together again: the first one
    whole, each later one without its first [overlap] characters. *)
Definition rejoin (overlap : Z) (chunks : list ChunkInfo) : string :=
  match chunks with
  | [] => ""
  | c :: rest =>
      ChunkBuilder.chunk_text c
      +:+ ChunkBuilder.concat_all
            (map (fun c' => slice_from (ChunkBuilder.chunk_text c') overlap) rest)
  end.

(* ===================================================================== *)
(** ** The object state of LargeFileProcessor and the command line        *)
(* ===================================================================== *)

Module ProcessorObject.

(** [change_model] as the method it is: [self.current_state] is [None]
    until [initialize_processing] has run on this object. *)
Definition change_model (E : env) (current_state : option ProcessingState)
    (new_model : string) (w : world) : result ProcessingState * world :=
  match current_state with
  | None => (Raise (ValueError "처리 상태가 초기화되지 않았습니다."), w)
  | Some state =>
      let (state', w') := LargeFileProcessor.change_model E state new_model w in
      (Ok state', w')
  end.

End ProcessorObject.

(* ===================================================================== *)
(** ** CLIProcessor                                                       *)
(* ===================================================================== *)

Module CLIProcessor.

(** How a command ends: it returns, an exception leaves it, or it leaves
    through [sys.exit].  [ZeroDivisionError] is the one exception class
    that only the command line raises. *)
Inductive outcome : Type :=
| Returned
| Raised (e : exn)
| ZeroDivisionError
| Exited (code : Z).

(** What the command line sees of the machine it runs on. *)
Record host : Type := {
  importable : string -> bool;        (* the package can be imported *)
  getenv : string -> option string;   (* [os.getenv] *)
  make_anthropic : string -> client;  (* [Anthropic(api_key=...)] *)
  make_openai : string -> client;     (* [OpenAI(api_key=...)] *)
  export_json : ProcessingState -> string
                                      (* [json.dump] of the exported dictionary *)
}.

Inductive setup : Type :=
| Client (cl : client)
| SysExit (code : Z).

(** [_setup_api_client]: an explicit key, or else the environment
    variable; no key that counts as true, or an unknown provider, gives
    demo mode. *)
Definition _setup_api_client (H : host) (api_type : string)
    (api_key : option string) : setup :=
  let provider (package variable : string) (make : string -> client) :=
    if importable H package then
      let api_key :=
        match api_key with
        | None => getenv H variable
        | Some k => Some k
        end in
      match api_key with
      | Some k => if truthy_str (Some k) then Client (make k) else Client NoClient
      | None => Client NoClient
      end
    else SysExit 1 in
  if String.eqb api_type "anthropic" then
    provider "anthropic" "ANTHROPIC_API_KEY" (make_anthropic H)
  else if String.eqb api_type "openai" then
    provider "openai" "OPENAI_API_KEY" (make_openai H)
  else Client NoClient.

(** [self.processor.api_client = api_client] *)
Definition with_client (E : env) (cl : client) : env :=
  {| md5 := md5 E; decode_utf8 := decode_utf8 E; now := now E;
     pause_flag := pause_flag E;
     user_input := user_input E; api_client := cl;
     format_template := format_template E;
     file_extension := file_extension E;
     extract_document := extract_document E |}.

(** [IntegratedProcessor.export_results] *)
Definition export_results (H : host) (state : ProcessingState)
    (output_path : string) (w : world) : world :=
  {| files := <[output_path := export_json H state]> (files w);
     state_dir := state_dir w; chunk_dir := chunk_dir w; clock := clock w;
     history := history w |}.

(** [x or default] on an optional string. *)
Definition or_else (x : option string) (default : string) : string :=
  match x with
  | Some s => if truthy_str x then s else default
  | None => default
  end.

Definition default_system_prompt : string := "당신은 문서 분석 전문가입니다.".

Definition default_prompt : string :=
  "다음 내용을 분석해주세요:" +:+ ChunkBuilder.blank_line +:+ "{chunk_text}".

(** The arguments of [resume]. *)
Record resume_args : Type := {
  arg_file : string;
  arg_model : option string;
  arg_prompt : option string;
  arg_system_prompt : option string;
  arg_max_output : Z;
  arg_api : string;
  arg_api_key : option string;
  arg_output : option string
}.

(** [resume].  The processor object was built by [main] for this command
    and [load_state] does not set its [current_state], which is what
    [change_model] works on. *)
Definition resume (H : host) (E : env) (args : resume_args) (w : world)
  : outcome * world :=
  match LargeFileProcessor.load_state E w (arg_file args) with
  | Raise e => (Raised e, w)
  | Ok None => (Returned, w)
  | Ok (Some state) =>
      let changed :=
        match arg_model args with
        | Some m =>
            if truthy_str (Some m) && negb (String.eqb m (current_model state))
            then ProcessorObject.change_model E None m w
            else (Ok state, w)
        | None => (Ok state, w)
        end in
      match changed with
      | (Raise e, w0) => (Raised e, w0)
      | (Ok _, w0) =>
          match _setup_api_client H (arg_api args) (arg_api_key args) with
          | SysExit code => (Exited code, w0)
          | Client cl =>
              let E' := with_client E cl in
              match IntegratedProcessor.preprocess_and_chunk E' (arg_file args)
                      IntegratedProcessor.default_chunk_size
                      IntegratedProcessor.default_overlap w0 with
              | (Raise e, w1) => (Raised e, w1)
              | (Ok chunks, w1) =>
                  match IntegratedProcessor._process_chunks E' chunks
                          (or_else (arg_system_prompt args) default_system_prompt)
                          (or_else (arg_prompt args) default_prompt)
                          (current_model state) (arg_max_output args)
                          state w1 with
                  | (Raise e, _, w2) => (Raised e, w2)
                  | (Ok _, state', w2) =>
                      match arg_output args with
                      | Some path =>
                          if truthy_str (Some path)
                          then (Returned, export_results H state' path w2)
                          else (Returned, w2)
                      | None => (Returned, w2)
                      end
                  end
              end
          end
      end
  end.

(** [processed_chunks / total_chunks * 100] *)
Definition progress (state : ProcessingState) : option float :=
  if (total_chunks state =? 0)%nat then None
  else Some (PrimFloat.mul
               (PrimFloat.div (float_of_int (Z.of_nat (processed_chunks state)))
                  (float_of_int (Z.of_nat (total_chunks state))))
               100%float).

(** The loop of [status] over the state files, in the order the
    directory lists them. *)
Fixpoint status_loop (states : list ProcessingState) : outcome :=
  match states with
  | [] => Returned
  | state :: rest =>
      match progress state with
      | None => ZeroDivisionError
      | Some _ => status_loop rest
      end
  end.

Definition status (w : world) : outcome :=
  status_loop (map snd (map_to_list (state_dir w))).

End CLIProcessor.

(* ===================================================================== *)
(** ** Closed inputs                                                      *)
(* ===================================================================== *)

Module Demo.

(** A content of ASCII bytes is its own text.  The demo has no other
    text; its contents with another byte (a lone 0xff, which no UTF-8
    text holds) do not decode. *)
Definition ascii_text (content : string) : option string :=
  if forallb (fun c => (nat_of_ascii c <? 128)%nat)
       (list_ascii_of_string content)
  then Some content else None.

(** Text files only, a clock that counts, one fixed answer to every
    question. *)
Definition demo_env (flag : nat -> bool) (answer : string) (cl : client)
  : env :=
  {| md5 := fun content => "md5:" +:+ content;
     decode_utf8 := ascii_text;
     now := fun n => "t" +:+ pretty n;
     pause_flag := flag;
     user_input := fun _ => answer;
     api_client := cl;
     format_template := fun _ text => Ok text;
     file_extension := fun _ => Txt;
     extract_document := fun _ _ => Ok [] |}.

(** One byte, 0xff: the content of a file that is not text. *)
Definition not_utf8 : string := String "255" EmptyString.

Definition never : nat -> bool := fun _ => false.
Definition always : nat -> bool := fun _ => true.

Definition disk (fs : list (string * string)) : world :=
  {| files := list_to_map fs; state_dir := ∅; chunk_dir := ∅; clock := 0;
     history := [] |}.

Definition unit_at (p : nat) (text : string) : ExtractedContent :=
  {| position := p; kind := KText; data := text |}.

Definition three_units : list ExtractedContent :=
  [unit_at 0 "abc"; unit_at 1 "d"; unit_at 2 "efgh"].

(** Two chunks: [abc\n\nd] and [d\n\nefgh]. *)
Definition two_chunks : list ChunkInfo :=
  ChunkBuilder._create_smart_chunks 4 2 three_units.

Definition started (processed : nat) (res : list ResultEntry)
  : ProcessingState :=
  {| file_path := "doc.txt"; file_hash := "md5:abc"; total_chunks := 2;
     processed_chunks := processed; current_model := "claude-haiku-4";
     total_cost := 0%float; results := res; created_at := "t0";
     updated_at := "t0" |}.

Definition first_entry : ResultEntry :=
  {| chunk_index := 0; response := "[Demo] Processed chunk 0";
     input_tokens := 3; output_tokens := 500; cost := 0%float |}.

(** A machine on which every file is a PDF of one page of text. *)
Definition pdf_env : env :=
  {| md5 := fun content => "md5:" +:+ content;
     decode_utf8 := ascii_text;
     now := fun n => "t" +:+ pretty n;
     pause_flag := never;
     user_input := fun _ => "y";
     api_client := NoClient;
     format_template := fun _ text => Ok text;
     file_extension := fun _ => Pdf;
     extract_document := fun _ _ => Ok [unit_at 0 "page one"] |}.

(** [doc.txt] with a state file left by an earlier run. *)
Definition resumable : world :=
  {| files := {[ "doc.txt" := "abc" ]};
     state_dir := {[ "md5:abc" := started 1 [first_entry] ]};
     chunk_dir := ∅; clock := 0; history := [] |}.

End Demo.

(** A machine with both packages and no key, and [doc.txt] as an
    interrupted run left it: one chunk of two processed, the chunks
    cached. *)
Module DemoCLI.

Definition laptop : CLIProcessor.host :=
  {| CLIProcessor.importable := fun _ => true;
     CLIProcessor.getenv := fun _ => None;
     CLIProcessor.make_anthropic := fun _ => OtherClient;
     CLIProcessor.make_openai := fun _ => OtherClient;
     CLIProcessor.export_json := fun state => "results of " +:+ file_path state |}.

Definition interrupted : world :=
  {| files := {[ "doc.txt" := "abc" ]};
     state_dir := {[ "md5:abc" := Demo.started 1 [Demo.first_entry] ]};
     chunk_dir := {[ "md5:abc" := Demo.two_chunks ]};
     clock := 0; history := [] |}.

Definition resume_doc (model output : option string)
  : CLIProcessor.resume_args :=
  {| CLIProcessor.arg_file := "doc.txt"; CLIProcessor.arg_model := model;
     CLIProcessor.arg_prompt := None; CLIProcessor.arg_system_prompt := None;
     CLIProcessor.arg_max_output := 1000; CLIProcessor.arg_api := "anthropic";
     CLIProcessor.arg_api_key := None; CLIProcessor.arg_output := output |}.

End DemoCLI.

(* ===================================================================== *)
(** ** Theorems                                                           *)
(* ===================================================================== *)

(* --------------------------------------------------------------------- *)
(** *** Strings, slices and [join] *)
(* --------------------------------------------------------------------- *)

Section StringFacts.

Lemma str_app_cons (c : ascii) (a b : string) :
  String c a +:+ b = String c (a +:+ b).
Proof. reflexivity. Qed.

Lemma str_app_nil_r (s : string) : s +:+ "" = s.
Proof. induction s as [|c s IH]; [reflexivity | now rewrite str_app_cons, IH]. Qed.

Lemma str_app_assoc (a b c : string) : (a +:+ b) +:+ c = a +:+ (b +:+ c).
Proof. induction a as [|x a IH]; [reflexivity | now rewrite !str_app_cons, IH]. Qed.

Lemma str_length_app (a b : string) :
  String.length (a +:+ b) = (String.length a + String.length b)%nat.
Proof.
  induction a as [|x a IH]; [reflexivity|].
  rewrite str_app_cons. simpl. now rewrite IH.
Qed.

Lemma substring_0_all (s : string) (m : nat) :
  (String.length s <= m)%nat -> substring 0 m s = s.
Proof.
  revert m. induction s as [|c s IH]; intros [|m] H; simpl in *;
    try reflexivity; try lia.
  f_equal. apply IH. lia.
Qed.

Lemma substring_app_skip (p s : string) (k m : nat) :
  substring (String.length p + k) m (p +:+ s) = substring k m s.
Proof. induction p as [|c p IH]; [reflexivity | now rewrite str_app_cons]. Qed.

Lemma len_nonneg (s : string) : 0 <= len s.
Proof. unfold len. lia. Qed.

Lemma len_app (a b : string) : len (a +:+ b) = len a + len b.
Proof. unfold len. rewrite str_length_app. lia. Qed.

Lemma slice_from_0 (s : string) : slice_from s 0 = s.
Proof.
  unfold slice_from, slice_bound. simpl.
  pose proof (len_nonneg s). rewrite Z.min_l by lia.
  rewrite Z.sub_0_r. unfold len. rewrite Nat2Z.id. simpl.
  now apply substring_0_all.
Qed.

Lemma slice_from_app (a b : string) : slice_from (a +:+ b) (len a) = b.
Proof.
  unfold slice_from, slice_bound.
  pose proof (len_nonneg a). pose proof (len_nonneg b).
  destruct (Z.ltb_spec (len a) 0); [lia|].
  rewrite len_app, Z.min_l by lia.
  replace (len a + len b - len a) with (len b) by lia.
  unfold len. rewrite !Nat2Z.id.
  rewrite <- (Nat.add_0_r (String.length a)), substring_app_skip.
  now apply substring_0_all.
Qed.

End StringFacts.

Section JoinFacts.
Variable sep : string.

Lemma join_cons (x : string) (l : list string) :
  l <> [] -> join sep (x :: l) = x +:+ sep +:+ join sep l.
Proof. destruct l; [congruence | reflexivity]. Qed.

Lemma join_snoc (l : list string) (d : string) :
  l <> [] -> join sep (l ++ [d]) = join sep l +:+ sep +:+ d.
Proof.
  induction l as [|x l IH]; [congruence|]. intros _.
  destruct l as [|y l].
  - reflexivity.
  - change ((x :: y :: l) ++ [d]) with (x :: ((y :: l) ++ [d])).
    rewrite join_cons by (now destruct l).
    rewrite IH by congruence.
    rewrite (join_cons x (y :: l)) by congruence.
    now rewrite !str_app_assoc.
Qed.

Lemma join_last (l : list string) (t : string) :
  last l = Some t -> exists p, join sep l = p +:+ t.
Proof.
  induction l as [|x l IH]; [discriminate|].
  destruct l as [|y l].
  - simpl. intros [= ->]. now exists "".
  - intros H. destruct (IH H) as [p Hp].
    exists (x +:+ sep +:+ p). rewrite join_cons by congruence.
    now rewrite Hp, !str_app_assoc.
Qed.
End JoinFacts.

(* --------------------------------------------------------------------- *)
(** *** The pricing table *)
(* --------------------------------------------------------------------- *)

Section PricingFacts.
Import ModelPricing.

Lemma lookup_None_iff (table : list (string * pricing)) (model : string) :
  lookup table model = None <-> ~ In model (map fst table).
Proof.
  induction table as [|[m p] rest IH]; simpl.
  - tauto.
  - destruct (String.eqb_spec m model) as [->|Hne].
    + split; [discriminate | intros H; exfalso; apply H; now left].
    + rewrite IH. tauto.
Qed.

Lemma estimate_cost_known (model : string) (p : pricing) (i o : Z) :
  In (model, p) MODELS -> estimate_cost model i o = Ok (cost_formula p i o).
Proof.
  unfold MODELS. simpl.
  intros H. repeat (destruct H as [H|H]; [inversion H; subst; reflexivity|]).
  destruct H.
Qed.

Lemma estimate_cost_zero (model : string) :
  In model keys -> estimate_cost model 0 0 = Ok 0%float.
Proof.
  unfold keys, MODELS. simpl.
  intros H. repeat (destruct H as [H|H]; [subst; reflexivity|]).
  destruct H.
Qed.
End PricingFacts.

(** C5: [estimate_cost] raises the unknown-model error exactly when the
    model is not a key of the pricing table; for a model of the table it
    returns [input_tokens / 1e6 * input price + output_tokens / 1e6 * output
    price]; and it returns [0.0] for no tokens, for every model of the
    table. *)
Theorem estimate_cost_spec (model : string) (i o : Z) :
  ((exists e, ModelPricing.estimate_cost model i o = Raise e)
     <-> ~ In model ModelPricing.keys)
  /\ (~ In model ModelPricing.keys ->
        ModelPricing.estimate_cost model i o
        = Raise (ValueError ("지원하지 않는 모델: " +:+ model)))
  /\ (forall p, In (model, p) ModelPricing.MODELS ->
        ModelPricing.estimate_cost model i o
        = Ok (div_million i * ModelPricing.input p
              + div_million o * ModelPricing.output p)%float)
  /\ (In model ModelPricing.keys <->
        exists p, In (model, p) ModelPricing.MODELS)
  /\ (In model ModelPricing.keys ->
        ModelPricing.estimate_cost model 0 0 = Ok 0%float).
Proof.
  assert (Habs : ~ In model ModelPricing.keys ->
                 ModelPricing.estimate_cost model i o
                 = Raise (ModelPricing.unsupported model)).
  { intros H. apply lookup_None_iff in H. unfold ModelPricing.estimate_cost.
    now rewrite H. }
  repeat split.
  - intros [e He] Hin. unfold ModelPricing.estimate_cost in He.
    destruct (ModelPricing.lookup ModelPricing.MODELS model) eqn:Hl; [discriminate|].
    apply lookup_None_iff in Hl. now apply Hl.
  - intros H. eexists. now apply Habs.
  - exact Habs.
  - intros p Hp. now apply estimate_cost_known.
  - unfold ModelPricing.keys. rewrite in_map_iff. intros [[m p] [Hm Hp]].
    simpl in Hm. subst. now exists p.
  - intros [p Hp]. unfold ModelPricing.keys. apply in_map_iff.
    now exists (model, p).
  - apply estimate_cost_zero.
Qed.

(** C5 at a model of the table. *)
Lemma estimate_cost_spec_witness :
  In "gpt-4o" ModelPricing.keys
  /\ ModelPricing.estimate_cost "gpt-4o" 0 0 = Ok 0%float.
Proof.
  assert (Hm : In "gpt-4o" ModelPricing.keys)
    by (do 4 right; left; reflexivity).
  split; [exact Hm|].
  exact (proj2 (proj2 (proj2 (proj2 (estimate_cost_spec "gpt-4o" 0 0)))) Hm).
Defined.

(* --------------------------------------------------------------------- *)
(** *** [create_chunks] and [initialize_processing] *)
(* --------------------------------------------------------------------- *)

Section CreateChunksFacts.
Import LargeFileProcessor.

(** With [overlap < chunk_size] the loop returns, with the fuel of
    [create_chunks_text] and with any larger one. *)
Lemma create_chunks_loop_returns (fuel : nat) (content : string)
    (chunk_size overlap start : Z) (index : nat) :
  overlap < chunk_size ->
  len content - start < Z.of_nat fuel ->
  exists chunks,
    create_chunks_loop fuel content chunk_size overlap start index
    = Some chunks.
Proof.
  intros Hstep. revert start index.
  induction fuel as [|fuel IH]; intros start index Hfuel; simpl.
  - destruct (Z.ltb_spec start (len content)); [lia|]. now exists [].
  - destruct (Z.ltb_spec start (len content)); [|now exists []].
    destruct (IH (start + chunk_size - overlap) (S index)) as [rest ->]; [lia|].
    eauto.
Qed.

Lemma create_chunks_text_returns (content : string) (chunk_size overlap : Z) :
  overlap < chunk_size ->
  exists chunks, create_chunks_text content chunk_size overlap = Some chunks.
Proof.
  intros H. apply create_chunks_loop_returns; [assumption|].
  unfold len. lia.
Qed.

(** With [chunk_size <= overlap] it never leaves a content it has
    entered: no fuel is enough. *)
Lemma create_chunks_loop_runs_on (fuel : nat) (content : string)
    (chunk_size overlap start : Z) (index : nat) :
  chunk_size <= overlap ->
  start < len content ->
  create_chunks_loop fuel content chunk_size overlap start index = None.
Proof.
  intros Hstep. revert start index.
  induction fuel as [|fuel IH]; intros start index Hstart; simpl;
    destruct (Z.ltb_spec start (len content)); try lia; [reflexivity|].
  rewrite IH by lia. reflexivity.
Qed.
End CreateChunksFacts.

Lemma create_chunks_loop_unfold (fuel : nat) (content : string)
    (chunk_size overlap start : Z) (index : nat) :
  LargeFileProcessor.create_chunks_loop (S fuel) content chunk_size overlap
    start index
  = if start <? len content then
      match LargeFileProcessor.create_chunks_loop fuel content chunk_size
              overlap (start + chunk_size - overlap) (S index) with
      | Some rest =>
          Some ({| index := index; content_type := TText;
                   text_content := Some (slice content start (start + chunk_size));
                   image_data := None;
                   token_estimate :=
                     LargeFileProcessor.estimate_tokens
                       (slice content start (start + chunk_size)) 0;
                   original_position := start |} :: rest)
      | None => None
      end
    else Some [].
Proof. reflexivity. Qed.

Lemma create_chunks_loop_past_end (fuel : nat) (content : string)
    (chunk_size overlap start : Z) (index : nat) :
  len content <= start ->
  LargeFileProcessor.create_chunks_loop fuel content chunk_size overlap
    start index = Some [].
Proof.
  intros H. destruct fuel; simpl;
    destruct (Z.ltb_spec start (len content)); auto; lia.
Qed.

(** A content of exactly [chunk_size] characters and a positive overlap:
    two chunks, the second at [chunk_size - overlap]. *)
Lemma create_chunks_text_overlap_tail (content : string)
    (chunk_size overlap : Z) :
  len content = chunk_size ->
  0 < overlap ->
  2 * overlap <= chunk_size ->
  exists first second,
    LargeFileProcessor.create_chunks_text content chunk_size overlap
    = Some [first; second]
    /\ original_position first = 0
    /\ text_content first = Some (slice content 0 chunk_size)
    /\ original_position second = chunk_size - overlap.
Proof.
  intros Hlen Hov Hsize. unfold LargeFileProcessor.create_chunks_text.
  assert (Hfuel : exists f, String.length content = S f).
  { destruct (String.length content) eqn:Hl; [unfold len in Hlen; lia | eauto]. }
  destruct Hfuel as [f ->].
  rewrite !create_chunks_loop_unfold.
  destruct (Z.ltb_spec 0 (len content)) as [_|]; [|lia].
  destruct (Z.ltb_spec (0 + chunk_size - overlap) (len content)) as [_|]; [|lia].
  rewrite create_chunks_loop_past_end by lia.
  eexists _, _. split; [reflexivity|]. simpl. repeat split; try lia.
Qed.

Lemma read_text_decoded (E : env) (w : world) (file_path content text : string) :
  files w !! file_path = Some content ->
  decode_utf8 E content = Some text ->
  read_text E w file_path = Ok text.
Proof. intros Hf Hd. unfold read_text. now rewrite Hf, Hd. Qed.

Lemma read_text_undecodable (E : env) (w : world) (file_path content : string) :
  files w !! file_path = Some content ->
  decode_utf8 E content = None ->
  read_text E w file_path = Raise UnicodeDecodeError.
Proof. intros Hf Hd. unfold read_text. now rewrite Hf, Hd. Qed.

(** X10: without a state file for the content of the file.  When the
    content decodes as UTF-8: a fresh state, nothing processed, the chunk
    count of [create_chunks] on the decoded text, written to the state
    directory.  When it does not decode: [UnicodeDecodeError], and nothing
    is written. *)
Lemma initialize_without_prior_state (E : env) (file_path model content : string)
    (w : world) :
  files w !! file_path = Some content ->
  state_dir w !! md5 E content = None ->
  (forall text,
      decode_utf8 E content = Some text ->
      exists chunks fresh w',
        LargeFileProcessor.create_chunks_text text
          LargeFileProcessor.default_chunk_size
          LargeFileProcessor.default_overlap
        = Some chunks
        /\ LargeFileProcessor.initialize_processing E file_path model w
           = Some (Ok fresh, w')
        /\ total_chunks fresh = length chunks
        /\ processed_chunks fresh = 0%nat
        /\ results fresh = []
        /\ state_dir w' !! md5 E content = Some fresh)
  /\ (decode_utf8 E content = None ->
      LargeFileProcessor.initialize_processing E file_path model w
      = Some (Raise UnicodeDecodeError, w)).
Proof.
  intros Hf Hs.
  unfold LargeFileProcessor.initialize_processing,
    LargeFileProcessor.load_state, LargeFileProcessor.calculate_file_hash,
    LargeFileProcessor.create_chunks.
  rewrite Hf, Hs. split.
  - intros text Hd.
    destruct (create_chunks_text_returns text
                LargeFileProcessor.default_chunk_size
                LargeFileProcessor.default_overlap) as [chunks Hch];
      [reflexivity|].
    rewrite (read_text_decoded E w file_path content text Hf Hd), Hch. simpl.
    eexists chunks, _, _. repeat split. apply lookup_insert_eq.
  - intros Hd.
    now rewrite (read_text_undecodable E w file_path content Hf Hd).
Qed.

(** C8, amended: when a state file exists for the content hash of the file
    and the caller answers [y] (in either case) to the question that
    [initialize_processing] asks, that state is returned as it is and no
    state is written; on any other answer the file is read as UTF-8 text:
    when it decodes, a fresh state with no processed chunk is written
    over the prior one, and when it does not, [UnicodeDecodeError] is
    raised and the prior state stays; and when the file does not exist
    the call raises [FileNotFoundError] and leaves the world as it was. *)
Theorem initialize_resumes_on_yes (E : env) (file_path model : string)
    (w : world) :
  (forall content prior,
      files w !! file_path = Some content ->
      state_dir w !! md5 E content = Some prior ->
      lower (user_input E (time w)) = "y" ->
      LargeFileProcessor.initialize_processing E file_path model w
      = Some (Ok prior, log (EvInput (user_input E (time w))) w))
  /\ (forall content prior text,
      files w !! file_path = Some content ->
      state_dir w !! md5 E content = Some prior ->
      lower (user_input E (time w)) <> "y" ->
      decode_utf8 E content = Some text ->
      exists fresh w',
        LargeFileProcessor.initialize_processing E file_path model w
        = Some (Ok fresh, w')
        /\ processed_chunks fresh = 0%nat /\ results fresh = []
        /\ file_hash fresh = md5 E content
        /\ state_dir w' = <[md5 E content := fresh]> (state_dir w))
  /\ (forall content prior,
      files w !! file_path = Some content ->
      state_dir w !! md5 E content = Some prior ->
      lower (user_input E (time w)) <> "y" ->
      decode_utf8 E content = None ->
      LargeFileProcessor.initialize_processing E file_path model w
      = Some (Raise UnicodeDecodeError,
              log (EvInput (user_input E (time w))) w))
  /\ (files w !! file_path = None ->
      LargeFileProcessor.initialize_processing E file_path model w
      = Some (Raise (FileNotFoundError file_path), w)).
Proof.
  unfold LargeFileProcessor.initialize_processing,
    LargeFileProcessor.load_state, LargeFileProcessor.calculate_file_hash.
  repeat split.
  - intros content prior Hf Hs Hy. rewrite Hf, Hs, Hy. reflexivity.
  - intros content prior text Hf Hs Hn Hd. rewrite Hf, Hs.
    destruct (String.eqb_spec (lower (user_input E (time w))) "y");
      [contradiction|].
    unfold LargeFileProcessor.create_chunks.
    rewrite (read_text_decoded E (log _ w) file_path content text Hf Hd).
    destruct (create_chunks_text_returns text
                LargeFileProcessor.default_chunk_size
                LargeFileProcessor.default_overlap) as [chunks ->];
      [reflexivity|].
    simpl. eexists _, _. repeat split.
  - intros content prior Hf Hs Hn Hd. rewrite Hf, Hs.
    destruct (String.eqb_spec (lower (user_input E (time w))) "y");
      [contradiction|].
    unfold LargeFileProcessor.create_chunks.
    now rewrite (read_text_undecodable E (log _ w) file_path content Hf Hd).
  - intros Hf. rewrite Hf. reflexivity.
Qed.

(** C8 as stated fails when the caller declines to resume: the prior state
    is replaced by a fresh one. *)
Lemma initialize_restarts_on_no :
  let E := Demo.demo_env Demo.never "n" NoClient in
  let prior := Demo.started 1 [Demo.first_entry] in
  files Demo.resumable !! "doc.txt" = Some "abc"
  /\ state_dir Demo.resumable !! md5 E "abc" = Some prior
  /\ match LargeFileProcessor.initialize_processing E "doc.txt"
             "claude-haiku-4" Demo.resumable with
     | Some (Ok state, w') =>
         state <> prior
         /\ processed_chunks state = 0%nat
         /\ results state = []
         /\ state_dir w' !! md5 E "abc" = Some state
         /\ state_dir w' <> state_dir Demo.resumable
     | _ => False
     end.
Proof.
  vm_compute. repeat split; try discriminate.
Qed.

(** C8 at a file with a state file, the caller answering [Y]. *)
Lemma initialize_resumes_on_yes_witness :
  let E := Demo.demo_env Demo.never "Y" NoClient in
  let prior := Demo.started 1 [Demo.first_entry] in
  files Demo.resumable !! "doc.txt" = Some "abc"
  /\ state_dir Demo.resumable !! md5 E "abc" = Some prior
  /\ lower (user_input E (time Demo.resumable)) = "y"
  /\ LargeFileProcessor.initialize_processing E "doc.txt" "claude-haiku-4"
       Demo.resumable
     = Some (Ok prior, log (EvInput "Y") Demo.resumable).
Proof.
  intros E prior.
  assert (Hf : files Demo.resumable !! "doc.txt" = Some "abc") by reflexivity.
  assert (Hs : state_dir Demo.resumable !! md5 E "abc" = Some prior)
    by reflexivity.
  assert (Hy : lower (user_input E (time Demo.resumable)) = "y") by reflexivity.
  split; [exact Hf|]. split; [exact Hs|]. split; [exact Hy|].
  exact (proj1 (initialize_resumes_on_yes E "doc.txt" "claude-haiku-4"
                  Demo.resumable) "abc" prior Hf Hs Hy).
Defined.

(* --------------------------------------------------------------------- *)
(** *** The chunk builder *)
(* --------------------------------------------------------------------- *)

Section BuilderFacts.
Import ChunkBuilder.
Variables (chunk_size overlap : Z).

Abbreviation sep := blank_line.
Local Arguments join : simpl never.

Lemma finalize_text (i : nat) (texts : list string) (imgs : list ImageRef)
    (pos : nat) :
  texts <> [] ->
  text_content (_finalize_chunk i texts imgs pos) = Some (join sep texts).
Proof. destruct texts; [congruence | reflexivity]. Qed.

Lemma concat_all_snoc (l : list string) (x : string) :
  concat_all (l ++ [x]) = concat_all l +:+ x.
Proof.
  induction l as [|y l IH]; simpl.
  - now rewrite str_app_nil_r.
  - now rewrite IH, str_app_assoc.
Qed.

Lemma reassemble_snoc (seeds : list string) (chs : list ChunkInfo)
    (seed : string) (c : ChunkInfo) :
  length seeds = length chs ->
  reassemble (seeds ++ [seed]) (chs ++ [c])
  = reassemble seeds chs +:+ strip_overlap seed (chunk_text c).
Proof.
  intros H. unfold reassemble. rewrite map_app. simpl.
  rewrite zip_with_app by (now rewrite length_map).
  simpl. apply concat_all_snoc.
Qed.

Lemma strip_nil (t : string) : strip_overlap "" t = t.
Proof. apply slice_from_0. Qed.

Lemma strip_app (seed rest : string) : strip_overlap seed (seed +:+ rest) = rest.
Proof. apply slice_from_app. Qed.

Lemma built_init : built [] init [] "".
Proof. split; simpl; auto. Qed.

Lemma pending_prefix us b front seed :
  built us b front seed ->
  exists rest, join sep (current_text b) = seed +:+ rest.
Proof.
  intros [_ _ _ _ [(-> & _)|(pend & -> & Hp & _)]].
  - now exists (join sep (current_text b)).
  - exists (sep +:+ join sep pend). now rewrite join_cons.
Qed.

Lemma built_step us b front seed (c : ExtractedContent) :
  kind c = KText ->
  built us b front seed ->
  let acc := seed_step chunk_size overlap (b, front ++ [seed]) c in
  exists front' seed',
    acc.2 = front' ++ [seed'] /\ built (us ++ [c]) acc.1 front' seed'.
Proof.
  intros Hk Hb. unfold seed_step, step. rewrite Hk.
  destruct (must_split chunk_size b c) eqn:Hsplit.
  - (* a chunk is closed *)
    unfold must_split in Hsplit. apply andb_true_iff in Hsplit as [_ Hne].
    assert (Hcur : current_text b <> []).
    { destruct (current_text b); [discriminate | congruence]. }
    assert (Hus : us <> []).
    { destruct Hb as [_ _ _ _ [(_ & _ & _ & Hc)|(pend & _ & _ & Hu)]]; auto.
      intros ->. now rewrite Hc in Hcur. }
    destruct (last (current_text b)) as [t|] eqn:Hlast.
    2:{ apply last_None in Hlast. contradiction. }
    exists (front ++ [seed]), (overlap_text overlap t). split; [reflexivity|].
    destruct (pending_prefix _ _ _ _ Hb) as [rest Hrest].
    destruct Hb as [Himg Hfront Hpre Htext Hpend].
    unfold close_chunk, add_text. rewrite Hlast.
    split; simpl.
    + reflexivity.
    + rewrite !length_app. simpl. now rewrite Hfront.
    + apply Forall2_app; [assumption|].
      repeat constructor. exists rest.
      now rewrite finalize_text, Hrest.
    + rewrite reassemble_snoc by assumption.
      unfold chunk_text. rewrite finalize_text by assumption.
      rewrite Htext.
      change (join sep [overlap_text overlap t; data c])
        with (overlap_text overlap t +:+ sep +:+ data c).
      rewrite strip_app, map_app. simpl.
      rewrite join_snoc by (now destruct us). reflexivity.
    + right. exists [data c]. repeat split; auto. now destruct us.
  - (* the unit joins the pending chunk *)
    exists front, seed. split; [reflexivity|].
    destruct Hb as [Himg Hfront Hpre Htext Hpend].
    unfold add_text.
    split; simpl; auto.
    + destruct Hpend as [(-> & Hch & -> & Hc)|(pend & Hc & Hp & Hu)].
      * rewrite Hch, Hc, strip_nil, map_app. reflexivity.
      * rewrite Hc in *. rewrite map_app. simpl.
        rewrite join_snoc by (now destruct us). rewrite <- Htext.
        change ((seed :: pend) ++ [data c]) with (seed :: (pend ++ [data c])).
        rewrite !join_cons by (auto; now destruct pend).
        rewrite !strip_app, join_snoc by assumption.
        now rewrite !str_app_assoc.
    + destruct Hpend as [(-> & Hch & -> & Hc)|(pend & Hc & Hp & Hu)].
      * left. rewrite Hc, map_app. auto.
      * right. exists (pend ++ [data c]). rewrite Hc.
        repeat split; auto; now destruct pend, us.
Qed.

Lemma built_fold (rest us : list ExtractedContent) b front seed :
  Forall (fun c => kind c = KText) rest ->
  built us b front seed ->
  exists b' front' seed',
    fold_left (seed_step chunk_size overlap) rest (b, front ++ [seed])
    = (b', front' ++ [seed'])
    /\ built (us ++ rest) b' front' seed'.
Proof.
  revert us b front seed.
  induction rest as [|c rest IH]; intros us b front seed Hall Hb.
  - exists b, front, seed. now rewrite app_nil_r.
  - inversion Hall as [|? ? Hc Hrest]; subst.
    destruct (built_step us b front seed c Hc Hb) as (f1 & s1 & Hacc & Hb1).
    destruct (IH _ _ _ _ Hrest Hb1) as (b' & f' & s' & Hfold & Hb').
    exists b', f', s'.
    replace (fold_left (seed_step chunk_size overlap) (c :: rest)
               (b, front ++ [seed]))
      with (fold_left (seed_step chunk_size overlap) rest
              (seed_step chunk_size overlap (b, front ++ [seed]) c))
      by reflexivity.
    rewrite (surjective_pairing (seed_step _ _ _ _)), Hacc, Hfold.
    split; [reflexivity|]. now rewrite <- app_assoc in Hb'.
Qed.

(** [carried_overlaps] records, at each split, the text that
    [close_chunk] puts into the pending texts. *)
Lemma carried_is_seeded (b : builder) (seeds : list string)
    (c : ExtractedContent) :
  kind c = KText ->
  must_split chunk_size b c = true ->
  exists s,
    (seed_step chunk_size overlap (b, seeds) c).2 = seeds ++ [s]
    /\ current_text (close_chunk overlap b c) = [s].
Proof.
  intros Hk Hsplit. unfold seed_step, close_chunk. rewrite Hk, Hsplit.
  assert (Hne : current_text b <> []).
  { unfold must_split in Hsplit. apply andb_true_iff in Hsplit as [_ H].
    destruct (current_text b); [discriminate | congruence]. }
  destruct (last (current_text b)) as [t|] eqn:Hlast.
  - now exists (overlap_text overlap t).
  - apply last_None in Hlast. contradiction.
Qed.

Lemma seed_fold_head (contents : list ExtractedContent)
    (acc : builder * list string) (s : string) :
  head acc.2 = Some s ->
  head (fold_left (seed_step chunk_size overlap) contents acc).2 = Some s.
Proof.
  revert acc. induction contents as [|c cs IH]; intros [b ss] H; [exact H|].
  apply IH. simpl in *. destruct ss as [|x ss]; [discriminate|].
  destruct (kind c); [destruct (must_split _ _ _)|]; exact H.
Qed.

Lemma seed_fold_fst (contents : list ExtractedContent)
    (acc : builder * list string) :
  (fold_left (seed_step chunk_size overlap) contents acc).1
  = fold_left (step chunk_size overlap) contents acc.1.
Proof.
  revert acc. induction contents as [|c cs IH]; intros [b ss]; [reflexivity|].
  simpl fold_left. now rewrite IH.
Qed.
End BuilderFacts.

(** C3: for text units only, the chunk texts in index order, each without
    the text carried into it from the chunk before, concatenate to the
    unit payloads joined by blank lines; every chunk text starts with its
    carried text, and nothing is carried into the first chunk. *)
Theorem chunk_texts_round_trip (chunk_size overlap : Z)
    (contents : list ExtractedContent) :
  Forall (fun c => kind c = KText) contents ->
  let chs := ChunkBuilder._create_smart_chunks chunk_size overlap contents in
  let seeds := ChunkBuilder.carried_overlaps chunk_size overlap contents in
  head seeds = Some ""
  /\ Forall2 (fun seed c => exists rest, text_content c = Some (seed +:+ rest))
       (take (length chs) seeds) chs
  /\ ChunkBuilder.reassemble seeds chs
     = join ChunkBuilder.blank_line (map data contents).
Proof.
  intros Hall chs seeds.
  destruct (built_fold chunk_size overlap contents [] _ [] "" Hall
              (built_init))
    as (b & front & seed & Hfold & Hb).
  simpl in Hfold.
  assert (Hseeds : seeds = front ++ [seed]).
  { unfold seeds, ChunkBuilder.carried_overlaps. now rewrite Hfold. }
  assert (Hb' : fold_left (ChunkBuilder.step chunk_size overlap) contents
                  ChunkBuilder.init = b).
  { pose proof (seed_fold_fst chunk_size overlap contents
                  (ChunkBuilder.init, [""])) as H.
    rewrite Hfold in H. simpl in H. now rewrite H. }
  assert (Hchs : chs = ChunkBuilder.flush b).
  { unfold chs, ChunkBuilder._create_smart_chunks. now rewrite Hb'. }
  split.
  { apply (seed_fold_head chunk_size overlap contents (ChunkBuilder.init, [""])).
    reflexivity. }
  rewrite Hchs, Hseeds. clear Hchs Hseeds Hb' Hfold chs seeds.
  destruct (pending_prefix _ _ _ _ Hb) as [rest Hrest].
  destruct Hb as [Himg Hfront Hpre Htext Hpend].
  unfold ChunkBuilder.flush. rewrite Himg. simpl (truthy_list []).
  rewrite orb_false_r.
  destruct (ChunkBuilder.current_text b) as [|t ts] eqn:Hcur; simpl truthy_list;
    cbv iota.
  - destruct Hpend as [(-> & Hch & -> & Hus)|(pend & Hc & _)]; [|discriminate].
    rewrite Hch in *. split; [constructor|].
    simpl in Htext. now rewrite <- Htext.
  - rewrite length_app, <- Hfront. simpl length.
    rewrite take_ge by (rewrite length_app; simpl; lia).
    rewrite <- Hcur in *. split.
    + apply Forall2_app; [assumption|]. repeat constructor.
      exists rest. rewrite finalize_text by (rewrite Hcur; discriminate).
      now rewrite Hrest.
    + rewrite reassemble_snoc by assumption.
      unfold ChunkBuilder.chunk_text.
      rewrite finalize_text by (rewrite Hcur; discriminate).
      now rewrite app_nil_l in Htext.
Qed.

(** C3 at three text units that make two chunks. *)
Lemma chunk_texts_round_trip_witness :
  Forall (fun c => kind c = KText) Demo.three_units
  /\ ChunkBuilder.reassemble
       (ChunkBuilder.carried_overlaps 4 2 Demo.three_units)
       (ChunkBuilder._create_smart_chunks 4 2 Demo.three_units)
     = join ChunkBuilder.blank_line (map data Demo.three_units).
Proof.
  assert (H : Forall (fun c => kind c = KText) Demo.three_units)
    by (repeat constructor).
  split; [exact H|].
  exact (proj2 (proj2 (chunk_texts_round_trip 4 2 Demo.three_units H))).
Defined.

Section TrailingFacts.
Import ChunkBuilder.

Lemma slice_from_neg (t : string) (n : Z) :
  0 < n -> slice_from t (- n) = trailing n t.
Proof.
  intros Hn. unfold slice_from, trailing, slice_bound.
  pose proof (len_nonneg t) as Hlen.
  destruct (Z.ltb_spec (- n) 0); [|lia].
  destruct (Z.le_gt_cases n (len t)).
  - rewrite Z.max_l by lia. do 2 f_equal; lia.
  - rewrite Z.max_r by lia.
    replace (Z.to_nat (len t - n)) with 0%nat by lia.
    rewrite !substring_0_all; auto; unfold len in *; lia.
Qed.

Lemma trailing_app (p s : string) (n : Z) :
  0 <= n <= len s -> trailing n (p +:+ s) = trailing n s.
Proof.
  intros Hn. unfold trailing. rewrite len_app.
  replace (Z.to_nat (len p + len s - n))
    with (String.length p + Z.to_nat (len s - n))%nat
    by (unfold len in *; lia).
  apply substring_app_skip.
Qed.
End TrailingFacts.

(** C4, amended: when a text unit makes the builder close a chunk, the
    pending texts of the next chunk are seeded, for a positive [overlap],
    with the trailing [overlap] characters of the LAST TEXT of the closed
    chunk (all of it when it is shorter), which are the trailing [overlap]
    characters of the whole chunk text whenever that last text has at
    least [overlap] characters; the pending images are reset and the next
    chunk starts at the position of the unit that caused the split. *)
Theorem split_seeds_next_chunk (chunk_size overlap : Z)
    (b : ChunkBuilder.builder) (content : ExtractedContent) :
  kind content = KText ->
  ChunkBuilder.must_split chunk_size b content = true ->
  exists last_text closed,
    last (ChunkBuilder.current_text b) = Some last_text
    /\ text_content closed
       = Some (join ChunkBuilder.blank_line (ChunkBuilder.current_text b))
    /\ let b' := ChunkBuilder.close_chunk overlap b content in
       ChunkBuilder.step chunk_size overlap b content
       = ChunkBuilder.add_text b' content
       /\ ChunkBuilder.chunks b' = ChunkBuilder.chunks b ++ [closed]
       /\ (0 < overlap ->
           ChunkBuilder.current_text b'
           = [ChunkBuilder.trailing overlap last_text])
       /\ (0 < overlap <= len last_text ->
           ChunkBuilder.current_text b'
           = [ChunkBuilder.trailing overlap
                (join ChunkBuilder.blank_line (ChunkBuilder.current_text b))])
       /\ ChunkBuilder.current_images b' = []
       /\ ChunkBuilder.start_position b' = position content.
Proof.
  intros Hk Hsplit.
  assert (Hne : ChunkBuilder.current_text b <> []).
  { unfold ChunkBuilder.must_split in Hsplit.
    apply andb_true_iff in Hsplit as [_ H].
    destruct (ChunkBuilder.current_text b); [discriminate | congruence]. }
  destruct (last (ChunkBuilder.current_text b)) as [t|] eqn:Hlast.
  2:{ apply last_None in Hlast. contradiction. }
  exists t, (ChunkBuilder._finalize_chunk (ChunkBuilder.chunk_index b)
               (ChunkBuilder.current_text b) (ChunkBuilder.current_images b)
               (ChunkBuilder.start_position b)).
  split; [reflexivity|]. split; [now apply finalize_text|].
  unfold ChunkBuilder.step, ChunkBuilder.close_chunk.
  rewrite Hk, Hsplit, Hlast. simpl.
  split; [reflexivity|]. split; [reflexivity|]. split; [|split].
  - intros Ho. unfold ChunkBuilder.overlap_text. now rewrite slice_from_neg.
  - intros Ho. unfold ChunkBuilder.overlap_text.
    rewrite slice_from_neg by lia.
    destruct (join_last ChunkBuilder.blank_line _ _ Hlast) as [p ->].
    rewrite trailing_app by lia. reflexivity.
  - split; reflexivity.
Qed.

(** C4 as stated fails when the last text of the closed chunk is shorter
    than [overlap]: the chunk text ends with a line break and [d], the seed
    is [d] alone. *)
Lemma seed_is_not_tail_of_closed_chunk :
  let b := fold_left (ChunkBuilder.step 4 2)
             [Demo.unit_at 0 "abc"; Demo.unit_at 1 "d"] ChunkBuilder.init in
  let content := Demo.unit_at 2 "efgh" in
  let closed_text := join ChunkBuilder.blank_line (ChunkBuilder.current_text b) in
  kind content = KText
  /\ ChunkBuilder.must_split 4 b content = true
  /\ closed_text = "abc" +:+ ChunkBuilder.blank_line +:+ "d"
  /\ ChunkBuilder.current_text (ChunkBuilder.close_chunk 2 b content) = ["d"]
  /\ ChunkBuilder.trailing 2 closed_text = String "010" "d"
  /\ ChunkBuilder.current_text (ChunkBuilder.close_chunk 2 b content)
     <> [ChunkBuilder.trailing 2 closed_text].
Proof. vm_compute. repeat split. discriminate. Qed.

(** C4 at the split between the second and the third of three units. *)
Lemma split_seeds_next_chunk_witness :
  let b := fold_left (ChunkBuilder.step 4 2)
             [Demo.unit_at 0 "abc"; Demo.unit_at 1 "d"] ChunkBuilder.init in
  let content := Demo.unit_at 2 "efgh" in
  kind content = KText
  /\ ChunkBuilder.must_split 4 b content = true
  /\ exists last_text closed,
       last (ChunkBuilder.current_text b) = Some last_text
       /\ text_content closed
          = Some (join ChunkBuilder.blank_line (ChunkBuilder.current_text b))
       /\ ChunkBuilder.chunks (ChunkBuilder.close_chunk 2 b content)
          = ChunkBuilder.chunks b ++ [closed].
Proof.
  intros b content.
  assert (Hk : kind content = KText) by reflexivity.
  assert (Hs : ChunkBuilder.must_split 4 b content = true) by reflexivity.
  split; [exact Hk|]. split; [exact Hs|].
  destruct (split_seeds_next_chunk 4 2 b content Hk Hs)
    as (t & closed & Hlast & Htext & _ & Hchunks & _).
  exists t, closed. auto.
Defined.

(* --------------------------------------------------------------------- *)
(** *** The engine *)
(* --------------------------------------------------------------------- *)

Section TraceFacts.
Import Trace.

Lemma calls_app (a b : list event) : calls (a ++ b) = calls a ++ calls b.
Proof.
  induction a as [|ev a IH]; [reflexivity|].
  destruct ev; simpl; now rewrite ?IH.
Qed.

Lemma pause_checks_app (a b : list event) :
  pause_checks (a ++ b) = pause_checks a ++ pause_checks b.
Proof.
  induction a as [|ev a IH]; [reflexivity|].
  destruct ev; simpl; now rewrite ?IH.
Qed.

Lemma scan_app (a b : list event) (s s' : option nat) :
  scan s a = Some s' -> scan s (a ++ b) = scan s' b.
Proof.
  revert s. induction a as [|ev a IH]; intros s H.
  - simpl in H. now inversion H.
  - simpl in *. destruct ev, s; try discriminate; auto;
      destruct (Nat.eqb _ _); try discriminate; auto.
Qed.

Lemma time_log (ev : event) (w : world) : time (log ev w) = S (time w).
Proof. unfold time, log. simpl. rewrite length_app. simpl. lia. Qed.

Lemma since_app (w w' : world) (evs : list event) :
  history w' = history w ++ evs -> since w w' = evs.
Proof.
  intros H. unfold since, time. rewrite H. now rewrite drop_app_length.
Qed.
End TraceFacts.

Section EngineFacts.
Import Trace LargeFileProcessor IntegratedProcessor.
Variables (E : env) (chunks : list ChunkInfo).
Variables (system_prompt user_prompt_template model : string).
Variable (output_tokens : Z).

Abbreviation loop := (process_loop E chunks system_prompt user_prompt_template
                    model output_tokens).
Abbreviation try_call := (attempt E system_prompt user_prompt_template model
                        output_tokens).
Abbreviation run := (_process_chunks E chunks system_prompt user_prompt_template
                   model output_tokens).

Lemma loop_paused (count i : nat) (st : ProcessingState) (w : world) :
  pause_flag E (time w) = true ->
  loop (S count) i st w
  = (LoopBreak, (save_state E st (log (EvPauseCheck i true) w)).1,
     (save_state E st (log (EvPauseCheck i true) w)).2).
Proof. intros H. simpl. now rewrite H. Qed.

Lemma loop_raised (count i : nat) (st : ProcessingState) (w : world)
    (chunk : ChunkInfo) (e : exn) :
  pause_flag E (time w) = false ->
  chunks !! i = Some chunk ->
  try_call (S (S (time w))) chunk = Raise e ->
  loop (S count) i st w
  = (LoopRaise e,
     (save_state E st
        (log (EvRaise i e) (log (EvCall i chunk) (log (EvPauseCheck i false) w)))).1,
     (save_state E st
        (log (EvRaise i e) (log (EvCall i chunk) (log (EvPauseCheck i false) w)))).2).
Proof.
  intros Hf Hc Ha. simpl. rewrite Hf, Hc, !time_log, Ha. reflexivity.
Qed.

Lemma loop_next (count i : nat) (st : ProcessingState) (w : world)
    (chunk : ChunkInfo) (r : api_result) :
  pause_flag E (time w) = false ->
  chunks !! i = Some chunk ->
  try_call (S (S (time w))) chunk = Ok r ->
  loop (S count) i st w
  = loop count (S i)
      (checkpoint E i (record_result st i (entry_of i r)) (answered i chunk w)).1
      (checkpoint E i (record_result st i (entry_of i r)) (answered i chunk w)).2.
Proof.
  intros Hf Hc Ha. simpl. rewrite Hf, Hc, !time_log, Ha.
  unfold answered. now destruct (checkpoint _ _ _ _).
Qed.

(** Induction along the turns of the loop. *)
Lemma loop_ind
    (P : nat -> nat -> ProcessingState -> world
         -> loop_exit * ProcessingState * world -> Prop) :
  (forall i st w, P 0%nat i st w (LoopDone, st, w)) ->
  (forall count i st w,
      pause_flag E (time w) = true ->
      P (S count) i st w
        (LoopBreak, (save_state E st (log (EvPauseCheck i true) w)).1,
         (save_state E st (log (EvPauseCheck i true) w)).2)) ->
  (forall count i st w,
      pause_flag E (time w) = false ->
      chunks !! i = None ->
      P (S count) i st w (LoopRaise IndexError, st, log (EvPauseCheck i false) w)) ->
  (forall count i st w chunk e,
      pause_flag E (time w) = false ->
      chunks !! i = Some chunk ->
      try_call (S (S (time w))) chunk = Raise e ->
      P (S count) i st w
        (LoopRaise e,
         (save_state E st
            (log (EvRaise i e) (log (EvCall i chunk) (log (EvPauseCheck i false) w)))).1,
         (save_state E st
            (log (EvRaise i e) (log (EvCall i chunk) (log (EvPauseCheck i false) w)))).2)) ->
  (forall count i st w chunk r,
      pause_flag E (time w) = false ->
      chunks !! i = Some chunk ->
      try_call (S (S (time w))) chunk = Ok r ->
      let next := checkpoint E i (record_result st i (entry_of i r))
                    (answered i chunk w) in
      P count (S i) next.1 next.2 (loop count (S i) next.1 next.2) ->
      P (S count) i st w (loop count (S i) next.1 next.2)) ->
  forall count i st w, P count i st w (loop count i st w).
Proof.
  intros H0 Hp Hi Hr Hn. induction count as [|count IH]; intros i st w.
  - apply H0.
  - destruct (pause_flag E (time w)) eqn:Hf.
    + rewrite loop_paused by assumption. now apply Hp.
    + destruct (chunks !! i) as [chunk|] eqn:Hc.
      * destruct (try_call (S (S (time w))) chunk) as [r|e] eqn:Ha.
        -- rewrite (loop_next _ _ _ _ _ _ Hf Hc Ha). now apply Hn.
        -- rewrite (loop_raised _ _ _ _ _ _ Hf Hc Ha). now apply Hr.
      * simpl. rewrite Hf, Hc. now apply Hi.
Qed.

Lemma saves_quiet (evs : list event) :
  Forall is_save evs ->
  calls evs = [] /\ pause_checks evs = [] /\
  forall b, scan None (evs ++ b) = scan None b.
Proof.
  induction 1 as [|ev evs Hev _ IH]; [easy|].
  destruct ev; try contradiction. simpl. destruct IH as (-> & -> & IH).
  repeat split; auto.
Qed.

Lemma checkpoint_spec (i : nat) (st : ProcessingState) (w : world) :
  exists ck,
    history (checkpoint E i st w).2 = history w ++ ck /\ Forall is_save ck /\
    results (checkpoint E i st w).1 = results st /\
    processed_chunks (checkpoint E i st w).1 = processed_chunks st /\
    file_hash (checkpoint E i st w).1 = file_hash st /\
    total_chunks (checkpoint E i st w).1 = total_chunks st /\
    total_cost (checkpoint E i st w).1 = total_cost st.
Proof.
  unfold checkpoint. destruct (_ =? _)%nat.
  - exists [EvSave (save_state E st w).1]. repeat split; auto.
    repeat constructor.
  - exists []. simpl. rewrite app_nil_r. repeat split; auto.
Qed.

(** Every exit of the loop has the shape that [shape] describes. *)
Lemma loop_shape (count i : nat) (st : ProcessingState) (w : world) :
  (i + count <= length chunks)%nat ->
  shape chunks count i st w (loop count i st w).
Proof.
  apply (loop_ind
           (fun count i st w out =>
              (i + count <= length chunks)%nat -> shape chunks count i st w out));
    clear count i st w.
  - intros i st w _. exists 0%nat, [], []. simpl.
    rewrite !app_nil_r, take_0. repeat split; auto.
  - intros count i st w Hf _.
    exists 0%nat, [], [EvPauseCheck i true;
                       EvSave (save_state E st (log (EvPauseCheck i true) w)).1].
    simpl. rewrite !app_nil_r, take_0, Nat.add_0_r, <- app_assoc.
    repeat split; auto; try lia. apply lookup_insert_eq.
  - intros count i st w Hf Hnone Hlen.
    apply lookup_ge_None in Hnone. lia.
  - intros count i st w chunk e Hf Hc Ha _.
    exists 0%nat, [],
      [EvPauseCheck i false; EvCall i chunk; EvRaise i e;
       EvSave (save_state E st
                 (log (EvRaise i e)
                    (log (EvCall i chunk) (log (EvPauseCheck i false) w)))).1].
    simpl. rewrite !app_nil_r, Nat.add_0_r, Nat.eqb_refl, <- !app_assoc.
    rewrite (drop_S _ _ _ Hc). simpl. rewrite take_0.
    repeat split; auto; try lia. apply lookup_insert_eq.
  - intros count i st w chunk r Hf Hc Ha next IH Hlen.
    destruct (checkpoint_spec i (record_result st i (entry_of i r))
                (answered i chunk w))
      as (ck & Hck & Hsave & Hres & Hproc & Hhash & Htot & _).
    fold next in Hck, Hres, Hproc, Hhash, Htot.
    destruct (saves_quiet ck Hsave) as (Hcalls & Hchecks & Hscan).
    destruct IH as (m & new & evs & Hm & Hr & Hidx & Hp & Hh & Ht & Hhist
                    & Hsc & Hexit); [lia|].
    exists (S m), (entry_of i r :: new),
      ([EvPauseCheck i false; EvCall i chunk; EvReturn i] ++ ck ++ evs).
    assert (Hcalls' :
              calls ([EvPauseCheck i false; EvCall i chunk; EvReturn i]
                       ++ ck ++ evs) = (i, chunk) :: calls evs).
    { simpl. now rewrite calls_app, Hcalls. }
    assert (Hchecks' :
              pause_checks ([EvPauseCheck i false; EvCall i chunk; EvReturn i]
                              ++ ck ++ evs) = (i, false) :: pause_checks evs).
    { simpl. now rewrite pause_checks_app, Hchecks. }
    rewrite Hcalls', Hchecks'. clear Hcalls' Hchecks'.
    split; [lia|]. split.
    { rewrite Hr, Hres. simpl. now rewrite <- app_assoc. }
    split; [simpl; now rewrite Hidx|]. split.
    { rewrite Hp. destruct m; [rewrite Hproc; simpl; lia | lia]. }
    split; [now rewrite Hh, Hhash|]. split; [now rewrite Ht, Htot|]. split.
    { rewrite Hhist, Hck. unfold answered, log. simpl.
      now rewrite <- !app_assoc. }
    split.
    { simpl. rewrite Nat.eqb_refl. now rewrite Hscan. }
    rewrite (drop_S _ _ _ Hc).
    replace (i + S m)%nat with (S i + m)%nat by lia.
    destruct (loop count (S i) next.1 next.2) as [[ex st'] w']. simpl in *.
    rewrite Hhash in Hexit. simpl in Hexit.
    destruct ex; simpl.
    + destruct Hexit as (-> & Hc1 & Hc2 & Hc3).
      now rewrite Hc1, Hc2, Hc3.
    + destruct Hexit as (Hlt & Hc1 & Hc2 & Hc3 & Hst).
      rewrite Hc1, Hc2, Hc3. repeat split; auto. lia.
    + destruct Hexit as (Hlt & Hc1 & Hc2 & Hc3 & Hin & Hst).
      rewrite Hc1, Hc2, Hc3. repeat split; auto; [lia|].
      right. right. right. apply in_or_app. now right.
Qed.

(** No pause and no failing call: the loop runs to its end. *)
Lemma loop_completes (count i : nat) (st : ProcessingState) (w : world) :
  (forall t, pause_flag E t = false) ->
  (forall t chunk, In chunk chunks -> exists r, try_call t chunk = Ok r) ->
  (i + count <= length chunks)%nat ->
  (loop count i st w).1.1 = LoopDone.
Proof.
  intros Hflag Hok.
  apply (loop_ind
           (fun count i st w out =>
              (i + count <= length chunks)%nat -> out.1.1 = LoopDone));
    clear count i st w.
  - reflexivity.
  - intros count i st w Hf. rewrite Hflag in Hf. discriminate.
  - intros count i st w _ Hnone Hlen. apply lookup_ge_None in Hnone. lia.
  - intros count i st w chunk e _ Hc Ha.
    destruct (Hok (S (S (time w))) chunk) as [r Hr].
    { apply list_elem_of_In. eapply list_elem_of_lookup_2. exact Hc. }
    rewrite Hr in Ha. discriminate.
  - intros count i st w chunk r _ _ _ next IH Hlen. apply IH. lia.
Qed.

Lemma run_has_shape (st : ProcessingState) (w : world) :
  (processed_chunks st <= length chunks)%nat ->
  run_shape E chunks system_prompt user_prompt_template model
    output_tokens st w (run st w).
Proof.
  intros Hk. unfold _process_chunks.
  destruct (loop_shape (length chunks - processed_chunks st)
              (processed_chunks st) st w)
    as (m & new & evs & Hm & Hr & Hidx & Hp & Hh & Ht & Hhist & Hsc & Hexit);
    [lia|].
  destruct (loop _ _ st w) as [[ex st'] w'] eqn:Hloop. simpl in *.
  assert (Hp' : processed_chunks st' = (processed_chunks st + m)%nat).
  { rewrite Hp. destruct m; lia. }
  destruct ex; simpl.
  - destruct Hexit as (-> & Hc1 & Hc2 & Hc3).
    exists (length chunks - processed_chunks st)%nat, new,
      (evs ++ [EvSave (set_updated_at st' (now E (clock w')))]).
    simpl. rewrite calls_app, pause_checks_app, app_nil_r, app_nil_r.
    rewrite (scan_app _ _ _ _ Hsc). simpl.
    repeat split; auto.
    + erewrite since_app; [reflexivity|]. simpl. now rewrite Hhist, app_assoc.
    + rewrite <- Hh. apply lookup_insert_eq.
    + left. rewrite Hloop. auto.
  - destruct Hexit as (Hlt & Hc1 & Hc2 & Hc3 & Hst).
    exists m, new, (evs ++ [EvSave (set_updated_at st' (now E (clock w')))]).
    simpl. rewrite calls_app, pause_checks_app, app_nil_r, app_nil_r.
    rewrite (scan_app _ _ _ _ Hsc). simpl.
    repeat split; auto.
    + erewrite since_app; [reflexivity|]. simpl. now rewrite Hhist, app_assoc.
    + rewrite <- Hh. apply lookup_insert_eq.
    + right. rewrite Hloop. auto.
  - destruct Hexit as (Hlt & Hc1 & Hc2 & Hc3 & Hin & Hst).
    exists m, new, evs. repeat split; auto.
    now apply since_app.
Qed.
End EngineFacts.

(** X28: a run that raises: the state counts the chunks before the failing one,
    holds a result for each of them and none for it, is the one on disk,
    and the failing chunk is the last one submitted. *)
Lemma failed_run_stops_at_failing_chunk (E : env) (chunks : list ChunkInfo)
    (system_prompt user_prompt_template model : string) (output_tokens : Z)
    (st : ProcessingState) (w : world) (e : exn) :
  (processed_chunks st <= length chunks)%nat ->
  let out := IntegratedProcessor._process_chunks E chunks system_prompt
               user_prompt_template model output_tokens st w in
  out.1.1 = Raise e ->
  let k := processed_chunks st in
  let i := processed_chunks out.1.2 in
  (k <= i < length chunks)%nat
  /\ map chunk_index (drop (length (results st)) (results out.1.2))
     = seq k (i - k)
  /\ map fst (Trace.calls (since w out.2)) = seq k (S (i - k))
  /\ In (EvRaise i e) (since w out.2)
  /\ state_dir out.2 !! file_hash st = Some out.1.2.
Proof.
  intros Hk out Hres k i.
  destruct (run_has_shape E chunks system_prompt user_prompt_template model
              output_tokens st w Hk)
    as (m & new & evs & Hm & Hr & Hidx & Hp & Ht & Hev & Hsc & Hst & Hexit).
  fold out in Hr, Hp, Ht, Hev, Hst, Hexit. rewrite Hres in Hexit.
  destruct Hexit as (Hlt & Hc1 & Hc2 & Hc3 & Hin).
  unfold i, k. rewrite Hev, Hr, drop_app_length, Hp.
  replace (processed_chunks st + m - processed_chunks st)%nat with m by lia.
  repeat split; auto; lia.
Qed.






(** C7: the pause flag is read before a chunk is submitted and at no other
    moment.  Read set, the engine saves the state and returns normally
    without submitting the chunk; read unset, the chunk is submitted and,
    when its call returns, recorded before the flag is read again; in the
    history of a run no flag is read and no state saved while a call is in
    flight, every submitted chunk of a run that returns normally is
    recorded, and such a run stops before the last chunk only when it read
    the flag set. *)
Theorem pause_observed_between_chunks (E : env) (chunks : list ChunkInfo)
    (system_prompt user_prompt_template model : string) (output_tokens : Z) :
  let loop := IntegratedProcessor.process_loop E chunks system_prompt
                user_prompt_template model output_tokens in
  let try_call := IntegratedProcessor.attempt E system_prompt
                    user_prompt_template model output_tokens in
  (forall count i st w,
      pause_flag E (time w) = true ->
      let out := IntegratedProcessor.finish E (loop (S count) i st w) in
      out.1.1 = Ok tt
      /\ Trace.calls (since w out.2) = []
      /\ Trace.pause_checks (since w out.2) = [(i, true)]
      /\ processed_chunks out.1.2 = processed_chunks st
      /\ results out.1.2 = results st
      /\ total_cost out.1.2 = total_cost st
      /\ state_dir out.2 !! file_hash st = Some out.1.2)
  /\ (forall count i st w chunk r,
      pause_flag E (time w) = false ->
      chunks !! i = Some chunk ->
      try_call (S (S (time w))) chunk = Ok r ->
      exists st1 w1 saves,
        loop (S count) i st w = loop count (S i) st1 w1
        /\ results st1 = results st ++ [IntegratedProcessor.entry_of i r]
        /\ processed_chunks st1 = S i
        /\ history w1
           = history w
             ++ [EvPauseCheck i false; EvCall i chunk; EvReturn i] ++ saves
        /\ Forall IntegratedProcessor.is_save saves)
  /\ (forall st w,
      (processed_chunks st <= length chunks)%nat ->
      let out := IntegratedProcessor._process_chunks E chunks system_prompt
                   user_prompt_template model output_tokens st w in
      let evs := since w out.2 in
      Trace.scan None evs = Some None
      /\ (out.1.1 = Ok tt ->
          map fst (Trace.calls evs)
          = map chunk_index (drop (length (results st)) (results out.1.2))
          /\ (processed_chunks out.1.2 = length chunks
              \/ last (Trace.pause_checks evs)
                 = Some (processed_chunks out.1.2, true))
          /\ state_dir out.2 !! file_hash st = Some out.1.2)).
Proof.
  intros loop try_call. split; [|split].
  - intros count i st w Hf out. unfold out, loop.
    rewrite loop_paused by assumption. simpl.
    erewrite since_app;
      [|simpl; rewrite <- !app_assoc; reflexivity].
    simpl. repeat split; auto. apply lookup_insert_eq.
  - intros count i st w chunk r Hf Hc Ha.
    destruct (checkpoint_spec E i
                (record_result st i (IntegratedProcessor.entry_of i r))
                (IntegratedProcessor.answered i chunk w))
      as (ck & Hck & Hsave & Hres & Hproc & _).
    eexists _, _, ck. split.
    { unfold loop. apply loop_next; [exact Hf | exact Hc | exact Ha]. }
    rewrite Hres, Hproc, Hck. unfold IntegratedProcessor.answered, log. simpl.
    rewrite <- !app_assoc. repeat split; auto.
  - intros st w Hk out evs.
    destruct (run_has_shape E chunks system_prompt user_prompt_template model
                output_tokens st w Hk)
      as (m & new & evs' & Hm & Hr & Hidx & Hp & Ht & Hev & Hsc & Hst & Hexit).
    fold out in Hr, Hp, Ht, Hev, Hst, Hexit. fold evs in Hev. subst evs'.
    split; [exact Hsc|]. intros Hok. rewrite Hok in Hexit.
    destruct Hexit as (Hc1 & Hc2 & Hstop).
    rewrite Hr, drop_app_length, Hidx, Hc1, Hp.
    repeat split; auto.
    destruct Hstop as [(_ & -> & _)|(_ & _ & ->)].
    + left. lia.
    + right. now rewrite last_snoc.
Qed.

(** C7 at a run that finds the flag set before its first chunk. *)
Lemma pause_observed_between_chunks_witness :
  let E := Demo.demo_env Demo.always "y" NoClient in
  let st := Demo.started 0 [] in
  let w := Demo.disk [("doc.txt", "abc")] in
  pause_flag E (time w) = true
  /\ (IntegratedProcessor._process_chunks E Demo.two_chunks "system"
        "{chunk_text}" "claude-haiku-4" 1000 st w).1.1 = Ok tt.
Proof.
  intros E st w.
  assert (Hf : pause_flag E (time w) = true) by reflexivity.
  split; [exact Hf|].
  exact (proj1 (proj1 (pause_observed_between_chunks E Demo.two_chunks
                         "system" "{chunk_text}" "claude-haiku-4" 1000)
                  1%nat 0%nat st w Hf)).
Defined.

(** X29: the two parts of the state invariant that the engine keeps:
    [results] has one entry per processed chunk, the [i]-th for chunk [i];
    and no more chunks are processed than the list it is given has. *)
Lemma results_invariant_kept (E : env) (chunks : list ChunkInfo)
    (system_prompt user_prompt_template model : string) (output_tokens : Z)
    (st : ProcessingState) (w : world) :
  (processed_chunks st <= length chunks)%nat ->
  map chunk_index (results st) = seq 0 (processed_chunks st) ->
  let out := IntegratedProcessor._process_chunks E chunks system_prompt
               user_prompt_template model output_tokens st w in
  map chunk_index (results out.1.2) = seq 0 (processed_chunks out.1.2)
  /\ length (results out.1.2) = processed_chunks out.1.2
  /\ (processed_chunks out.1.2 <= length chunks)%nat
  /\ total_chunks out.1.2 = total_chunks st.
Proof.
  intros Hk Hinv out.
  destruct (run_has_shape E chunks system_prompt user_prompt_template model
              output_tokens st w Hk)
    as (m & new & evs & Hm & Hr & Hidx & Hp & Ht & _).
  fold out in Hr, Hp, Ht.
  assert (H : map chunk_index (results out.1.2)
              = seq 0 (processed_chunks out.1.2)).
  { rewrite Hr, Hp, map_app, Hinv, Hidx. now rewrite seq_app. }
  repeat split; auto; [|lia].
  rewrite <- (length_map chunk_index), H. apply length_seq.
Qed.

(** One text unit, of any length, makes one chunk. *)
Lemma single_text_unit_single_chunk (chunk_size overlap : Z) (p : nat)
    (text : string) :
  ChunkBuilder._create_smart_chunks chunk_size overlap
    [ {| position := p; kind := KText; data := text |} ]
  = [ ChunkBuilder._finalize_chunk 0 [text] [] 0 ].
Proof.
  unfold ChunkBuilder._create_smart_chunks. simpl.
  unfold ChunkBuilder.step, ChunkBuilder.must_split. simpl.
  now rewrite andb_false_r.
Qed.

(** So does a text file through [preprocess_and_chunk], whatever its
    length and the sizes: one chunk, at position 0. *)
Lemma text_file_single_chunk (E : env) (file_path content text : string)
    (chunk_size overlap : Z) (w : world) :
  files w !! file_path = Some content ->
  decode_utf8 E content = Some text ->
  file_extension E file_path = Txt ->
  chunk_dir w !! md5 E content = None ->
  exists chunk,
    (IntegratedProcessor.preprocess_and_chunk E file_path chunk_size overlap w).1
    = Ok [chunk]
    /\ index chunk = 0%nat
    /\ text_content chunk = Some text
    /\ original_position chunk = 0.
Proof.
  intros Hf Hd Hext Hcache.
  unfold IntegratedProcessor.preprocess_and_chunk,
    LargeFileProcessor.calculate_file_hash,
    DocumentPreprocessor.extract_content,
    DocumentPreprocessor._extract_from_text.
  rewrite Hf, Hcache, Hext, (read_text_decoded E w file_path content text Hf Hd).
  cbn [fst]. rewrite single_text_unit_single_chunk.
  eexists. repeat split.
Qed.

(** C2: [process_file] on an empty text file.  [initialize_processing]
    counts the chunks of [create_chunks] (none), the engine iterates the
    chunks of [preprocess_and_chunk] (one): after the run one chunk is
    processed out of a total of zero. *)
Theorem processed_exceeds_total_on_empty_text_file :
  match IntegratedProcessor.process_file
          (Demo.demo_env (fun _ => false) "y" NoClient)
          "empty.txt" "system" "{chunk_text}" "claude-haiku-4" 1000 true
          (Demo.disk [("empty.txt", "")]) with
  | Some (Ok state, _) =>
      total_chunks state = 0%nat
      /\ processed_chunks state = 1%nat
      /\ map chunk_index (results state) = [0%nat]
      /\ ~ (processed_chunks state <= total_chunks state)%nat
  | _ => False
  end.
Proof. vm_compute. repeat split. lia. Qed.

(** C9: [create_chunks] with its default sizes on a text of exactly
    [chunk_size] characters returns two chunks, the second one holding the
    last [overlap] characters again. *)
Theorem create_chunks_exact_size_gives_two_chunks :
  let content := string_of_list_ascii (repeat "a"%char (Z.to_nat 100000)) in
  len content = LargeFileProcessor.default_chunk_size
  /\ option_map (map (fun c => (index c, original_position c,
                               len (ChunkBuilder.chunk_text c))))
       (LargeFileProcessor.create_chunks_text content
          LargeFileProcessor.default_chunk_size
          LargeFileProcessor.default_overlap)
     = Some [(0%nat, 0, 100000); (1%nat, 95000, 5000)].
Proof. vm_compute. split; reflexivity. Qed.

(** C10, amended: for a start index at or past the end of the chunk list
    and a model of the pricing table, [estimate_remaining_cost] returns no
    remaining chunk, no token, a cost of [0.0] and a comparison that gives
    [0.0] to every model of the table. *)
Theorem nothing_remaining_costs_nothing (chunks : list ChunkInfo)
    (start_index : nat) (model : string) (output_tokens_per_chunk : Z) :
  (length chunks <= start_index)%nat ->
  In model ModelPricing.keys ->
  LargeFileProcessor.estimate_remaining_cost chunks start_index model
    output_tokens_per_chunk
  = Ok {| LargeFileProcessor.remaining_chunks := 0;
          LargeFileProcessor.cost_input_tokens := 0;
          LargeFileProcessor.cost_output_tokens := 0;
          LargeFileProcessor.estimated_cost := 0%float;
          LargeFileProcessor.model_comparison :=
            map (fun m => (m, 0%float)) ModelPricing.keys |}.
Proof.
  intros Hlen Hin. unfold LargeFileProcessor.estimate_remaining_cost.
  rewrite drop_ge by assumption. simpl.
  now rewrite estimate_cost_zero.
Qed.

(** C10 as stated fails for a model that is not in the table: the call
    raises. *)
Lemma unknown_model_has_no_estimate :
  (length (@nil ChunkInfo) <= 0)%nat
  /\ ~ In "gpt-5" ModelPricing.keys
  /\ LargeFileProcessor.estimate_remaining_cost [] 0 "gpt-5" 1000
     = Raise (ValueError ("지원하지 않는 모델: " +:+ "gpt-5"))
  /\ forall info,
       LargeFileProcessor.estimate_remaining_cost [] 0 "gpt-5" 1000 <> Ok info.
Proof.
  split; [simpl; lia|]. split.
  { vm_compute. intuition discriminate. }
  split; [reflexivity|]. intros info. discriminate.
Qed.

(** C10 at the end of a list of two chunks. *)
Lemma nothing_remaining_costs_nothing_witness :
  (length Demo.two_chunks <= 2)%nat
  /\ In "gpt-4o" ModelPricing.keys
  /\ LargeFileProcessor.estimate_remaining_cost Demo.two_chunks 2 "gpt-4o" 1000
     = Ok {| LargeFileProcessor.remaining_chunks := 0;
             LargeFileProcessor.cost_input_tokens := 0;
             LargeFileProcessor.cost_output_tokens := 0;
             LargeFileProcessor.estimated_cost := 0%float;
             LargeFileProcessor.model_comparison :=
               map (fun m => (m, 0%float)) ModelPricing.keys |}.
Proof.
  assert (Hl : (length Demo.two_chunks <= 2)%nat) by (vm_compute; lia).
  assert (Hm : In "gpt-4o" ModelPricing.keys)
    by (do 4 right; left; reflexivity).
  split; [exact Hl|]. split; [exact Hm|].
  exact (nothing_remaining_costs_nothing Demo.two_chunks 2 "gpt-4o" 1000 Hl Hm).
Defined.

(* --------------------------------------------------------------------- *)
(** *** More on the chunk builder *)
(* --------------------------------------------------------------------- *)

Section BuilderShape.
Import ChunkBuilder.
Variables (chunk_size overlap : Z).

Lemma counted_init : counted 0 init.
Proof. split; simpl; auto. lia. Qed.

Lemma pending_add_text b c : pending (add_text b c) = true.
Proof. unfold pending, add_text. simpl. now destruct (current_text b). Qed.

Lemma pending_add_image b c : pending (add_image b c) = true.
Proof.
  unfold pending, add_image. simpl.
  destruct (current_images b); simpl; now rewrite orb_true_r.
Qed.

Lemma counted_step n b c :
  counted n b -> counted (S n) (step chunk_size overlap b c).
Proof.
  intros [Hi Hd Hb Hp Hf]. unfold step.
  destruct (kind c).
  - destruct (must_split chunk_size b c) eqn:Hs.
    + unfold must_split in Hs. apply andb_true_iff in Hs as [_ Hne].
      assert (Hpend : pending b = true) by (unfold pending; now rewrite Hne).
      rewrite Hpend in Hb.
      split; try rewrite pending_add_text; simpl; auto.
      * rewrite length_app. simpl. lia.
      * rewrite map_app, length_app, seq_app, Hd. simpl. now rewrite Hi.
      * rewrite length_app. simpl. lia.
      * apply Forall_app. split; [assumption|]. repeat constructor.
        eexists _, _, _, _. split; [reflexivity|]. left.
        destruct (current_text b); [discriminate | congruence].
    + split; try rewrite pending_add_text; simpl; auto.
      destruct (pending b); lia.
  - split; try rewrite pending_add_image; simpl; auto.
    destruct (pending b); lia.
Qed.

Lemma counted_fold (contents : list ExtractedContent) n b :
  counted n b ->
  counted (n + length contents)
    (fold_left (step chunk_size overlap) contents b).
Proof.
  revert n b. induction contents as [|c cs IH]; intros n b Hb; simpl.
  - now rewrite Nat.add_0_r.
  - replace (n + S (length cs))%nat with (S n + length cs)%nat by lia.
    apply IH. now apply counted_step.
Qed.

Lemma counted_built (contents : list ExtractedContent) :
  counted (length contents)
    (fold_left (step chunk_size overlap) contents init).
Proof. apply (counted_fold contents 0 init counted_init). Qed.

Lemma pending_nonempty b :
  pending b = true -> current_text b <> [] \/ current_images b <> [].
Proof.
  unfold pending. destruct (current_text b), (current_images b);
    simpl; intros H; try discriminate; auto; right; congruence.
Qed.

End BuilderShape.

(** X1: the chunks carry the indices 0, 1, 2, ... in order, for text and
    image units alike. *)
Theorem smart_chunk_indices_dense (chunk_size overlap : Z)
    (contents : list ExtractedContent) :
  map index (ChunkBuilder._create_smart_chunks chunk_size overlap contents)
  = seq 0 (length (ChunkBuilder._create_smart_chunks chunk_size overlap
                     contents)).
Proof.
  unfold ChunkBuilder._create_smart_chunks, ChunkBuilder.flush.
  destruct (counted_built chunk_size overlap contents) as [Hi Hd _ _ _].
  destruct (_ || _); [|exact Hd].
  rewrite map_app, length_app, seq_app, Hd. simpl. now rewrite Hi.
Qed.

(** X2: there is no chunk exactly when there is no unit, and never more
    chunks than units. *)
Theorem smart_chunk_count (chunk_size overlap : Z)
    (contents : list ExtractedContent) :
  (ChunkBuilder._create_smart_chunks chunk_size overlap contents = []
   <-> contents = [])
  /\ (length (ChunkBuilder._create_smart_chunks chunk_size overlap contents)
      <= length contents)%nat.
Proof.
  unfold ChunkBuilder._create_smart_chunks, ChunkBuilder.flush.
  destruct (counted_built chunk_size overlap contents) as [_ _ Hb Hp _].
  unfold pending in *. split; [split|].
  - intros H. destruct contents as [|c cs]; [reflexivity|].
    rewrite Hp in H by (simpl; lia). now destruct (ChunkBuilder.chunks _).
  - intros ->. reflexivity.
  - destruct (_ || _); [rewrite length_app; simpl|]; lia.
Qed.

(** X3: every chunk holds something and says what it holds: a text or a
    non-empty list of images; the type is [mixed] exactly with a non-empty
    text and images, [image] exactly with images and no non-empty text; the
    estimate is half the text length plus 1500 for each image. *)
Theorem smart_chunks_well_formed (chunk_size overlap : Z)
    (contents : list ExtractedContent) (c : ChunkInfo) :
  In c (ChunkBuilder._create_smart_chunks chunk_size overlap contents) ->
  let images := match image_data c with Some l => l | None => [] end in
  (is_Some (text_content c) \/ is_Some (image_data c))
  /\ image_data c <> Some []
  /\ (content_type c = TMixed
      <-> truthy_str (text_content c) = true /\ is_Some (image_data c))
  /\ (content_type c = TImage
      <-> truthy_str (text_content c) = false /\ is_Some (image_data c))
  /\ token_estimate c
     = len (ChunkBuilder.chunk_text c) / 2 + Z.of_nat (length images) * 1500
  /\ 0 <= token_estimate c.
Proof.
  intros Hin.
  assert (Hfin : finalized c).
  { unfold ChunkBuilder._create_smart_chunks, ChunkBuilder.flush in Hin.
    destruct (counted_built chunk_size overlap contents) as [_ _ _ _ Hf].
    fold (pending (fold_left (ChunkBuilder.step chunk_size overlap) contents
                     ChunkBuilder.init)) in Hin.
    destruct (pending _) eqn:Hp.
    - apply in_app_or in Hin as [Hin|[<-|[]]].
      + rewrite Forall_forall in Hf. apply Hf. now apply list_elem_of_In.
      + eexists _, _, _, _. split; [reflexivity|].
        now apply pending_nonempty.
    - rewrite Forall_forall in Hf. apply Hf. now apply list_elem_of_In. }
  destruct Hfin as (i & texts & images & pos & -> & Hne).
  unfold ChunkBuilder._finalize_chunk, ChunkBuilder.chunk_text.
  assert (Hnone : forall A, ~ is_Some (@None A)) by (intros A [x Hx]; discriminate).
  destruct texts as [|t ts], images as [|g gs];
    try (destruct Hne; congruence).
  - cbn. repeat split; eauto; try discriminate; try lia; intros [? ?];
      discriminate.
  - cbn -[join Z.div Z.mul Z.add].
    set (text := join ChunkBuilder.blank_line (t :: ts)). clearbody text.
    pose proof (len_nonneg text) as Hlen.
    assert (Hdiv : 0 <= len text / 2) by (apply Z.div_pos; lia).
    destruct (String.eqb_spec text "") as [He|He]; cbn -[Z.div Z.mul Z.add].
    + rewrite He. cbn. repeat split; eauto; try discriminate; try lia;
        intros [_ H]; now apply Hnone in H.
    + repeat split; eauto; try discriminate; try lia;
        intros [_ H]; now apply Hnone in H.
  - cbn -[join Z.div Z.mul Z.add length].
    set (text := join ChunkBuilder.blank_line (t :: ts)). clearbody text.
    pose proof (len_nonneg text) as Hlen.
    assert (Hdiv : 0 <= len text / 2) by (apply Z.div_pos; lia).
    destruct (String.eqb_spec text "") as [He|He];
      cbn -[Z.div Z.mul Z.add length].
    + rewrite He. cbn -[Z.mul length].
      repeat split; eauto; try discriminate; try lia; intros [H _];
        discriminate.
    + repeat split; eauto; try discriminate; try lia; intros [H _];
        discriminate.
Qed.

Section ImagesOnly.
Import ChunkBuilder.
Variables (chunk_size overlap : Z).

Lemma images_fold (contents : list ExtractedContent) (b : builder) :
  Forall (fun c => kind c = KImage) contents ->
  fold_left (step chunk_size overlap) contents b
  = {| chunks := chunks b;
       current_text := current_text b;
       current_images := current_images b ++ map image_ref contents;
       current_size := current_size b + 3000 * Z.of_nat (length contents);
       chunk_index := chunk_index b;
       start_position := start_position b |}.
Proof.
  revert b. induction contents as [|c cs IH]; intros b Hall.
  - simpl. rewrite app_nil_r, Z.add_0_r. now destruct b.
  - inversion Hall as [|? ? Hc Hcs]; subst. simpl fold_left.
    rewrite IH by assumption. unfold step. rewrite Hc. simpl.
    rewrite <- app_assoc. f_equal. unfold image_ref. simpl. lia.
Qed.
End ImagesOnly.

(** X4: images never close a chunk.  Units that are all images, however
    many and whatever the chunk size, make one chunk of type [image] that
    holds them in order, with 1500 tokens for each. *)
Theorem images_make_one_chunk (chunk_size overlap : Z)
    (contents : list ExtractedContent) :
  Forall (fun c => kind c = KImage) contents ->
  contents <> [] ->
  ChunkBuilder._create_smart_chunks chunk_size overlap contents
  = [ {| index := 0; content_type := TImage; text_content := None;
         image_data := Some (map image_ref contents);
         token_estimate := Z.of_nat (length contents) * 1500;
         original_position := 0 |} ].
Proof.
  intros Hall Hne. unfold ChunkBuilder._create_smart_chunks.
  rewrite images_fold by assumption.
  destruct contents as [|c cs]; [congruence|].
  unfold ChunkBuilder.flush, ChunkBuilder._finalize_chunk.
  cbn -[Z.mul Z.of_nat]. rewrite length_map. reflexivity.
Qed.

(** X4 at two images and a chunk size they exceed. *)
Lemma images_make_one_chunk_witness :
  let contents := [ {| position := 0; kind := KImage; data := "aGk=" |};
                    {| position := 1; kind := KImage; data := "eW8=" |} ] in
  Forall (fun c => kind c = KImage) contents
  /\ contents <> []
  /\ length (ChunkBuilder._create_smart_chunks 10 2 contents) = 1%nat.
Proof.
  intros contents.
  assert (Ha : Forall (fun c => kind c = KImage) contents)
    by (repeat constructor).
  assert (Hn : contents <> []) by discriminate.
  split; [exact Ha|]. split; [exact Hn|].
  now rewrite (images_make_one_chunk 10 2 contents Ha Hn).
Defined.

(** X3 at the first chunk of three text units. *)
Lemma smart_chunks_well_formed_witness :
  let c := ChunkBuilder._finalize_chunk 0 ["abc"; "d"] [] 0 in
  In c (ChunkBuilder._create_smart_chunks 4 2 Demo.three_units)
  /\ 0 <= token_estimate c.
Proof.
  intros c.
  assert (H : In c (ChunkBuilder._create_smart_chunks 4 2 Demo.three_units))
    by (left; reflexivity).
  split; [exact H|].
  exact (proj2 (proj2 (proj2 (proj2 (proj2
           (smart_chunks_well_formed 4 2 Demo.three_units c H)))))).
Defined.

(* --------------------------------------------------------------------- *)
(** *** More on [create_chunks] *)
(* --------------------------------------------------------------------- *)

Section SubstringFacts.

Abbreviation chars := list_ascii_of_string.

Lemma chars_app (a b : string) : chars (a +:+ b) = chars a ++ chars b.
Proof.
  induction a as [|c a IH]; [reflexivity|].
  rewrite str_app_cons. simpl. now rewrite IH.
Qed.

Lemma chars_length (s : string) : length (chars s) = String.length s.
Proof. induction s as [|c s IH]; simpl; congruence. Qed.

Lemma chars_substring (n m : nat) (s : string) :
  chars (substring n m s) = take m (drop n (chars s)).
Proof.
  revert n m. induction s as [|c s IH]; intros [|n] [|m]; simpl;
    try reflexivity; try apply IH.
  - now rewrite (IH 0%nat m), drop_0.
Qed.

Lemma chars_inj (a b : string) : chars a = chars b -> a = b.
Proof.
  intros H. rewrite <- (string_of_list_ascii_of_string a),
    <- (string_of_list_ascii_of_string b). now rewrite H.
Qed.

(** [s[a:b] + s[b:] = s[a:]] for [0 <= a <= b]. *)
Lemma slice_then_rest (s : string) (a b : Z) :
  0 <= a <= b -> slice s a b +:+ slice_from s b = slice_from s a.
Proof.
  intros Hab. apply chars_inj. rewrite chars_app.
  unfold slice, slice_from, slice_bound.
  destruct (Z.ltb_spec a 0); [lia|]. destruct (Z.ltb_spec b 0); [lia|].
  rewrite !chars_substring. unfold len. rewrite <- chars_length.
  set (l := chars s). clearbody l.
  set (A := Z.to_nat (Z.min a (Z.of_nat (length l)))).
  set (B := Z.to_nat (Z.min b (Z.of_nat (length l)))).
  replace (Z.to_nat (Z.min b (Z.of_nat (length l))
                     - Z.min a (Z.of_nat (length l)))) with (B - A)%nat by lia.
  replace (Z.to_nat (Z.of_nat (length l) - Z.min b (Z.of_nat (length l))))
    with (length l - B)%nat by lia.
  replace (Z.to_nat (Z.of_nat (length l) - Z.min a (Z.of_nat (length l))))
    with (length l - A)%nat by lia.
  rewrite (take_ge (drop B l)) by (rewrite length_drop; lia).
  rewrite (take_ge (drop A l) (length l - A)) by (rewrite length_drop; lia).
  replace B with (A + (B - A))%nat at 2 by lia.
  rewrite <- drop_drop. apply take_drop.
Qed.

(** [s[a:b][k:] = s[a+k:b]] for [0 <= a], [0 <= k], [0 <= b]. *)
Lemma slice_from_slice (s : string) (a b k : Z) :
  0 <= a -> 0 <= k -> 0 <= b ->
  slice_from (slice s a b) k = slice s (a + k) b.
Proof.
  intros Ha Hk Hb. apply chars_inj.
  unfold slice_from, slice, slice_bound.
  destruct (Z.ltb_spec a 0); [lia|]. destruct (Z.ltb_spec b 0); [lia|].
  destruct (Z.ltb_spec k 0); [lia|]. destruct (Z.ltb_spec (a + k) 0); [lia|].
  rewrite !chars_substring. unfold len.
  rewrite <- !chars_length, !chars_substring.
  generalize (chars s). intros l.
  rewrite length_take, length_drop.
  remember (length l) as L eqn:HL.
  remember (Z.to_nat (Z.min a (Z.of_nat L))) as A eqn:HA.
  remember (Z.to_nat (Z.min b (Z.of_nat L) - Z.min a (Z.of_nat L))) as D eqn:HD.
  remember (D `min` (L - A))%nat as M eqn:HM.
  remember (Z.to_nat (Z.min k (Z.of_nat M))) as K eqn:HK.
  remember (Z.to_nat (Z.of_nat M - Z.min k (Z.of_nat M))) as R eqn:HR.
  remember (Z.to_nat (Z.min (a + k) (Z.of_nat L))) as A' eqn:HA'.
  remember (Z.to_nat (Z.min b (Z.of_nat L) - Z.min (a + k) (Z.of_nat L)))
    as D' eqn:HD'.
  assert (HAL : (A <= L)%nat) by (clear - HA; lia).
  assert (HAD : (A + D <= L)%nat) by (clear - HA HD Ha Hb; lia).
  assert (HM' : M = D) by (clear - HM HAD; lia).
  assert (HK' : K = Nat.min (Z.to_nat k) D) by (clear - HK HM' Hk; lia).
  assert (HR' : R = (D - K)%nat) by (clear - HR HK HM' Hk; lia).
  assert (Hlen : length (drop K (take D (drop A l))) = R).
  { rewrite length_drop, length_take, length_drop. clear - HR' HAD HL. lia. }
  rewrite (take_ge _ R) by (rewrite Hlen; apply Nat.le_refl).
  rewrite skipn_firstn_comm, drop_drop.
  destruct (Z.le_gt_cases (a + k) (Z.min b (Z.of_nat L))) as [Hin|Hout].
  - assert (HAK : (A + K)%nat = A').
    { clear - HA HK' HA' HD Hin Ha Hk Hb. lia. }
    assert (HDK : (D - K)%nat = D').
    { clear - HA HK' HA' HD HD' Hin Ha Hk Hb. lia. }
    now rewrite HAK, HDK.
  - assert (HDK : (D - K)%nat = 0%nat).
    { clear - HA HK' HD Hout Ha Hk Hb. lia. }
    assert (HD0 : D' = 0%nat).
    { clear - HD' Hout Ha Hk Hb. lia. }
    now rewrite HDK, HD0, !take_0.
Qed.
End SubstringFacts.

Section SlidingWindow.
Import LargeFileProcessor.
Variables (content : string) (chunk_size overlap : Z).

Lemma create_chunks_loop_chunks (fuel : nat) (start : Z) (idx : nat)
    (chunks : list ChunkInfo) :
  create_chunks_loop fuel content chunk_size overlap start idx = Some chunks ->
  (forall j c, chunks !! j = Some c ->
     let pos := start + Z.of_nat j * (chunk_size - overlap) in
     index c = (idx + j)%nat
     /\ original_position c = pos
     /\ pos < len content
     /\ content_type c = TText
     /\ image_data c = None
     /\ text_content c = Some (slice content pos (pos + chunk_size))
     /\ token_estimate c = len (slice content pos (pos + chunk_size)) / 2)
  /\ len content <= start + Z.of_nat (length chunks) * (chunk_size - overlap).
Proof.
  revert start idx chunks.
  induction fuel as [|fuel IH]; intros start idx chunks; simpl;
    destruct (Z.ltb_spec start (len content)) as [Hlt|Hge];
    try discriminate.
  - intros [= <-]. split; [intros j c Hj; discriminate|]. simpl. lia.
  - destruct (create_chunks_loop fuel content chunk_size overlap
                (start + chunk_size - overlap) (S idx)) as [rest|] eqn:Hrest;
      [|discriminate].
    intros [= <-]. destruct (IH _ _ _ Hrest) as [Hall Hend]. split.
    + intros [|j] c Hj; simpl in Hj.
      * injection Hj as <-. simpl. unfold estimate_tokens.
        rewrite Z.add_0_r. repeat split; auto; lia.
      * destruct (Hall j c Hj) as (Hi & Hp & Hb & Ht & Him & Htx & Htok).
        replace (start + Z.of_nat (S j) * (chunk_size - overlap))
          with (start + chunk_size - overlap
                + Z.of_nat j * (chunk_size - overlap)) by lia.
        repeat split; auto. lia.
    + simpl length. lia.
  - intros [= <-]. split; [intros j c Hj; discriminate|]. simpl. lia.
Qed.

Lemma create_chunks_loop_rejoin (fuel : nat) (start : Z) (idx : nat)
    (chunks : list ChunkInfo) :
  0 <= overlap < chunk_size ->
  0 <= start ->
  create_chunks_loop fuel content chunk_size overlap start idx = Some chunks ->
  ChunkBuilder.concat_all
    (map (fun c => slice_from (ChunkBuilder.chunk_text c) overlap) chunks)
  = slice_from content (start + overlap).
Proof.
  intros Hov. revert start idx chunks.
  assert (Hpast : forall start, 0 <= start -> len content <= start ->
                  slice_from content (start + overlap) = "").
  { intros start H0 Hge. rewrite <- (str_app_nil_r (slice_from _ _)).
    rewrite <- (slice_then_rest content (start + overlap) (start + overlap))
      by lia.
    unfold slice, slice_from, slice_bound.
    destruct (Z.ltb_spec (start + overlap) 0); [lia|].
    rewrite Z.min_r by lia. rewrite Z.sub_diag. simpl.
    unfold len. rewrite Nat2Z.id.
    assert (Hs : forall s, substring (String.length s) 0 s = "").
    { induction s as [|c s IHs]; [reflexivity | exact IHs]. }
    now rewrite !Hs. }
  induction fuel as [|fuel IH]; intros start idx chunks Hstart; simpl;
    destruct (Z.ltb_spec start (len content)) as [Hlt|Hge];
    try discriminate.
  - intros [= <-]. simpl. symmetry. now apply Hpast.
  - destruct (create_chunks_loop fuel content chunk_size overlap
                (start + chunk_size - overlap) (S idx)) as [rest|] eqn:Hrest;
      [|discriminate].
    intros [= <-]. simpl.
    assert (Hnext : 0 <= start + chunk_size - overlap) by lia.
    rewrite (IH _ _ _ Hnext Hrest).
    unfold ChunkBuilder.chunk_text. simpl.
    rewrite slice_from_slice by lia.
    replace (start + chunk_size - overlap + overlap) with (start + chunk_size)
      by lia.
    apply slice_then_rest. lia.
  - intros [= <-]. simpl. symmetry. now apply Hpast.
Qed.
End SlidingWindow.

(** X5: [create_chunks] returns exactly when [overlap < chunk_size] or the
    file is empty; otherwise its loop never ends, whatever the fuel. *)
Theorem create_chunks_returns_iff (content : string) (chunk_size overlap : Z) :
  ((exists chunks,
       LargeFileProcessor.create_chunks_text content chunk_size overlap
       = Some chunks)
   <-> overlap < chunk_size \/ content = "")
  /\ (chunk_size <= overlap -> content <> "" ->
      forall fuel,
        LargeFileProcessor.create_chunks_loop fuel content chunk_size overlap
          0 0 = None).
Proof.
  assert (Hrun : chunk_size <= overlap -> content <> "" ->
                 forall fuel,
                   LargeFileProcessor.create_chunks_loop fuel content
                     chunk_size overlap 0 0 = None).
  { intros Hstep Hne fuel. apply create_chunks_loop_runs_on; [assumption|].
    destruct content; [congruence|]. unfold len. simpl. lia. }
  split; [split|exact Hrun].
  - intros [chunks Hc].
    destruct (Z.lt_ge_cases overlap chunk_size) as [|Hge]; [now left|].
    right. destruct content as [|c s] eqn:Hcontent; [reflexivity|].
    unfold LargeFileProcessor.create_chunks_text in Hc.
    rewrite Hrun in Hc; [discriminate | assumption | discriminate].
  - intros [Hlt| ->].
    + now apply create_chunks_text_returns.
    + now exists [].
Qed.

(** X6: with [overlap < chunk_size], chunk [j] of [create_chunks] has
    index [j], starts at [j * (chunk_size - overlap)], before the end of
    the content, and holds [content[pos : pos + chunk_size]]; and the
    windows reach the end of the content. *)
Theorem create_chunks_windows (content : string) (chunk_size overlap : Z)
    (chunks : list ChunkInfo) :
  LargeFileProcessor.create_chunks_text content chunk_size overlap
  = Some chunks ->
  (forall j c, chunks !! j = Some c ->
     let pos := Z.of_nat j * (chunk_size - overlap) in
     index c = j
     /\ original_position c = pos
     /\ pos < len content
     /\ text_content c = Some (slice content pos (pos + chunk_size))
     /\ token_estimate c = len (slice content pos (pos + chunk_size)) / 2)
  /\ len content <= Z.of_nat (length chunks) * (chunk_size - overlap).
Proof.
  intros H. apply create_chunks_loop_chunks in H as [Hall Hend].
  split; [|lia].
  intros j c Hj. destruct (Hall j c Hj) as (Hi & Hp & Hb & _ & _ & Ht & Htok).
  simpl in *. repeat split; auto.
Qed.

(** X7: for [0 <= overlap < chunk_size] no character is lost or doubled:
    the first chunk text followed by every later chunk text without its
    first [overlap] characters is the content. *)
Theorem create_chunks_round_trip (content : string) (chunk_size overlap : Z)
    (chunks : list ChunkInfo) :
  0 <= overlap < chunk_size ->
  LargeFileProcessor.create_chunks_text content chunk_size overlap
  = Some chunks ->
  rejoin overlap chunks = content.
Proof.
  intros Hov H. unfold LargeFileProcessor.create_chunks_text in H.
  rewrite create_chunks_loop_unfold in H.
  destruct (Z.ltb_spec 0 (len content)) as [Hlt|Hge].
  - destruct (LargeFileProcessor.create_chunks_loop _ content chunk_size
                overlap (0 + chunk_size - overlap) 1) as [rest|] eqn:Hrest;
      [|discriminate].
    injection H as <-. unfold rejoin.
    assert (Hnext : 0 <= 0 + chunk_size - overlap) by lia.
    rewrite (create_chunks_loop_rejoin content chunk_size overlap _ _ _ _
               Hov Hnext Hrest).
    unfold ChunkBuilder.chunk_text. simpl.
    replace (0 + chunk_size - overlap + overlap) with (0 + chunk_size) by lia.
    rewrite slice_then_rest by lia. apply slice_from_0.
  - injection H as <-. simpl.
    destruct content; [reflexivity|]. unfold len in Hge. simpl in Hge. lia.
Qed.

(** X6 at eight characters, windows of five, overlap two. *)
Lemma create_chunks_windows_witness :
  LargeFileProcessor.create_chunks_text "abcdefgh" 5 2
  = Some [ {| index := 0; content_type := TText;
              text_content := Some "abcde"; image_data := None;
              token_estimate := 2; original_position := 0 |};
           {| index := 1; content_type := TText;
              text_content := Some "defgh"; image_data := None;
              token_estimate := 2; original_position := 3 |};
           {| index := 2; content_type := TText;
              text_content := Some "gh"; image_data := None;
              token_estimate := 1; original_position := 6 |} ]
  /\ len "abcdefgh" <= 3 * (5 - 2).
Proof.
  assert (H : LargeFileProcessor.create_chunks_text "abcdefgh" 5 2
              = Some [ {| index := 0; content_type := TText;
                          text_content := Some "abcde"; image_data := None;
                          token_estimate := 2; original_position := 0 |};
                       {| index := 1; content_type := TText;
                          text_content := Some "defgh"; image_data := None;
                          token_estimate := 2; original_position := 3 |};
                       {| index := 2; content_type := TText;
                          text_content := Some "gh"; image_data := None;
                          token_estimate := 1; original_position := 6 |} ])
    by reflexivity.
  split; [exact H|].
  exact (proj2 (create_chunks_windows "abcdefgh" 5 2 _ H)).
Defined.

(** X7 at the same text. *)
Lemma create_chunks_round_trip_witness :
  0 <= 2 < 5
  /\ exists chunks,
       LargeFileProcessor.create_chunks_text "abcdefgh" 5 2 = Some chunks
       /\ rejoin 2 chunks = "abcdefgh".
Proof.
  assert (Hov : 0 <= 2 < 5) by lia.
  split; [exact Hov|].
  eexists. split; [reflexivity|].
  exact (create_chunks_round_trip "abcdefgh" 5 2 _ Hov eq_refl).
Defined.

(* --------------------------------------------------------------------- *)
(** *** More on pricing and on the estimate *)
(* --------------------------------------------------------------------- *)

Lemma compare_models_entries (i o : Z) :
  exists costs,
    ModelPricing.compare_models i o = Ok costs
    /\ map fst costs = ModelPricing.keys
    /\ forall m c, In (m, c) costs -> ModelPricing.estimate_cost m i o = Ok c.
Proof.
  eexists. split; [reflexivity|]. split; [reflexivity|].
  intros m c H. simpl in H.
  repeat (destruct H as [H|H]; [injection H as <- <-; reflexivity|]).
  destruct H.
Qed.

(** X8: [compare_models] never raises: it returns one entry for each model
    of the table, in the order of the table, and the entry of a model is
    what [estimate_cost] returns for it. *)
Theorem compare_models_covers_table (i o : Z) :
  exists costs,
    ModelPricing.compare_models i o = Ok costs
    /\ map fst costs = ModelPricing.keys
    /\ (forall m c, In (m, c) costs ->
                    ModelPricing.estimate_cost m i o = Ok c)
    /\ (forall m, In m ModelPricing.keys ->
                  exists c, In (m, c) costs
                            /\ ModelPricing.estimate_cost m i o = Ok c).
Proof.
  destruct (compare_models_entries i o) as (costs & Hc & Hk & Hall).
  exists costs. repeat split; auto.
  intros m Hm. rewrite <- Hk in Hm. apply in_map_iff in Hm as [[m' c] [<- Hin]].
  exists c. split; [exact Hin | now apply Hall].
Qed.

(** X9: [estimate_remaining_cost] raises exactly when the model has no
    price, whatever the chunks.  For a model of the table it counts the
    chunks from [start_index] on, multiplies their number by the output
    tokens per chunk, prices the two token counts with [estimate_cost], and
    lists the requested model in the comparison with that same cost. *)
Theorem estimate_remaining_cost_spec (chunks : list ChunkInfo)
    (start_index : nat) (model : string) (output_tokens_per_chunk : Z) :
  ((exists e,
       LargeFileProcessor.estimate_remaining_cost chunks start_index model
         output_tokens_per_chunk = Raise e)
   <-> ~ In model ModelPricing.keys)
  /\ (In model ModelPricing.keys ->
      exists info,
        LargeFileProcessor.estimate_remaining_cost chunks start_index model
          output_tokens_per_chunk = Ok info
        /\ LargeFileProcessor.remaining_chunks info
           = (length chunks - start_index)%nat
        /\ LargeFileProcessor.cost_output_tokens info
           = Z.of_nat (length chunks - start_index) * output_tokens_per_chunk
        /\ ModelPricing.estimate_cost model
             (LargeFileProcessor.cost_input_tokens info)
             (LargeFileProcessor.cost_output_tokens info)
           = Ok (LargeFileProcessor.estimated_cost info)
        /\ map fst (LargeFileProcessor.model_comparison info)
           = ModelPricing.keys
        /\ In (model, LargeFileProcessor.estimated_cost info)
             (LargeFileProcessor.model_comparison info)).
Proof.
  unfold LargeFileProcessor.estimate_remaining_cost.
  set (inp := fold_left Z.add (map token_estimate (drop start_index chunks)) 0).
  set (out := Z.of_nat (length (drop start_index chunks))
              * output_tokens_per_chunk).
  destruct (compare_models_entries inp out) as (costs & Hc & Hk & Hall).
  rewrite Hc. split; [split|].
  - intros [e He] Hin.
    destruct (ModelPricing.estimate_cost model inp out) as [c|e'] eqn:Hcost;
      [discriminate|].
    unfold ModelPricing.estimate_cost in Hcost.
    destruct (ModelPricing.lookup ModelPricing.MODELS model) eqn:Hl;
      [discriminate|].
    apply lookup_None_iff in Hl. now apply Hl.
  - intros Hnot. apply lookup_None_iff in Hnot.
    unfold ModelPricing.estimate_cost. rewrite Hnot. eauto.
  - intros Hin.
    assert (Hcost : exists c, In (model, c) costs
                              /\ ModelPricing.estimate_cost model inp out = Ok c).
    { rewrite <- Hk in Hin. apply in_map_iff in Hin as [[m' c] [<- Hin]].
      exists c. split; [exact Hin | now apply Hall]. }
    destruct Hcost as (c & Hmem & ->).
    eexists. split; [reflexivity|]. simpl.
    split; [apply length_drop|].
    split; [unfold out; now rewrite length_drop|].
    split; [now apply Hall|]. split; [exact Hk | exact Hmem].
Qed.

(** X9 at a model of the table. *)
Lemma estimate_remaining_cost_spec_witness :
  In "gpt-4o-mini" ModelPricing.keys
  /\ exists info,
       LargeFileProcessor.estimate_remaining_cost Demo.two_chunks 0
         "gpt-4o-mini" 1000 = Ok info
       /\ LargeFileProcessor.remaining_chunks info = 2%nat.
Proof.
  assert (Hm : In "gpt-4o-mini" ModelPricing.keys)
    by (do 5 right; left; reflexivity).
  split; [exact Hm|].
  destruct (proj2 (estimate_remaining_cost_spec Demo.two_chunks 0
                     "gpt-4o-mini" 1000) Hm) as (info & H & Hr & _).
  exists info. split; [exact H | exact Hr].
Defined.

(* --------------------------------------------------------------------- *)
(** *** The state store and the chunk cache *)
(* --------------------------------------------------------------------- *)

(** X11: what [save_state] writes, [load_state] reads back, under every
    name of the same content; the saved state is the given one with a new
    [updated_at]; states of other contents, the files and the chunk cache
    are left alone. *)
Theorem save_then_load (E : env) (st : ProcessingState) (w : world)
    (file_path content : string) :
  files w !! file_path = Some content ->
  md5 E content = file_hash st ->
  let saved := (LargeFileProcessor.save_state E st w).1 in
  let w' := (LargeFileProcessor.save_state E st w).2 in
  LargeFileProcessor.load_state E w' file_path = Ok (Some saved)
  /\ saved = set_updated_at st (now E (clock w))
  /\ (forall h, h <> file_hash st -> state_dir w' !! h = state_dir w !! h)
  /\ (forall p c, files w !! p = Some c -> md5 E c <> file_hash st ->
        LargeFileProcessor.load_state E w' p
        = LargeFileProcessor.load_state E w p)
  /\ files w' = files w
  /\ chunk_dir w' = chunk_dir w.
Proof.
  intros Hf Hh saved w'.
  unfold LargeFileProcessor.load_state, LargeFileProcessor.calculate_file_hash.
  simpl. rewrite Hf, Hh. repeat split.
  - now rewrite lookup_insert_eq.
  - intros h Hne. now apply lookup_insert_ne.
  - intros p c Hp Hne. rewrite Hp. f_equal. apply lookup_insert_ne. congruence.
Qed.

(** X11 at two names of one content. *)
Lemma save_then_load_witness :
  let E := Demo.demo_env Demo.never "y" NoClient in
  let st := Demo.started 0 [] in
  let w := Demo.disk [("doc.txt", "abc"); ("copy.txt", "abc")] in
  files w !! "copy.txt" = Some "abc"
  /\ md5 E "abc" = file_hash st
  /\ LargeFileProcessor.load_state E (LargeFileProcessor.save_state E st w).2
       "copy.txt"
     = Ok (Some (LargeFileProcessor.save_state E st w).1).
Proof.
  intros E st w.
  assert (Hf : files w !! "copy.txt" = Some "abc") by reflexivity.
  assert (Hh : md5 E "abc" = file_hash st) by reflexivity.
  split; [exact Hf|]. split; [exact Hh|].
  exact (proj1 (save_then_load E st w "copy.txt" "abc" Hf Hh)).
Defined.

(** X12: [change_model] on an object that has not initialised a state
    raises and writes nothing; on an initialised one it writes the state
    with the new model and leaves the results, the count of processed
    chunks and the cost recorded so far as they were. *)
Theorem change_model_keeps_results (E : env) (new_model : string) (w : world) :
  ProcessorObject.change_model E None new_model w
  = (Raise (ValueError "처리 상태가 초기화되지 않았습니다."), w)
  /\ forall st,
       exists st' w',
         ProcessorObject.change_model E (Some st) new_model w = (Ok st', w')
         /\ current_model st' = new_model
         /\ results st' = results st
         /\ processed_chunks st' = processed_chunks st
         /\ total_chunks st' = total_chunks st
         /\ total_cost st' = total_cost st
         /\ file_hash st' = file_hash st
         /\ state_dir w' !! file_hash st = Some st'
         /\ since w w' = [EvSave st'].
Proof.
  split; [reflexivity|]. intros st. eexists _, _. split; [reflexivity|].
  simpl. repeat split.
  - apply lookup_insert_eq.
  - apply since_app. reflexivity.
Qed.

(** X13: a call of [preprocess_and_chunk] that returns chunks leaves them
    in the cache: every later call for the same file returns the same
    chunks and changes nothing, whatever sizes it is given. *)
Theorem chunk_cache_wins (E : env) (file_path : string)
    (chunk_size overlap chunk_size' overlap' : Z) (w w1 : world)
    (chunks : list ChunkInfo) :
  IntegratedProcessor.preprocess_and_chunk E file_path chunk_size overlap w
  = (Ok chunks, w1) ->
  IntegratedProcessor.preprocess_and_chunk E file_path chunk_size' overlap' w1
  = (Ok chunks, w1).
Proof.
  unfold IntegratedProcessor.preprocess_and_chunk,
    LargeFileProcessor.calculate_file_hash.
  destruct (files w !! file_path) as [content|] eqn:Hf; [|discriminate].
  destruct (chunk_dir w !! md5 E content) as [cached|] eqn:Hc.
  - intros [= <- <-]. now rewrite Hf, Hc.
  - destruct (DocumentPreprocessor.extract_content E w file_path);
      [|discriminate].
    intros [= <- <-]. simpl. rewrite Hf. now rewrite lookup_insert_eq.
Qed.

(** X13 at a text file, asked again with other sizes. *)
Lemma chunk_cache_wins_witness :
  let E := Demo.demo_env Demo.never "y" NoClient in
  let w := Demo.disk [("doc.txt", "abcdefgh")] in
  let first := IntegratedProcessor.preprocess_and_chunk E "doc.txt" 80000 4000 w in
  first = (Ok [ChunkBuilder._finalize_chunk 0 ["abcdefgh"] [] 0], first.2)
  /\ IntegratedProcessor.preprocess_and_chunk E "doc.txt" 3 1 first.2
     = (Ok [ChunkBuilder._finalize_chunk 0 ["abcdefgh"] [] 0], first.2).
Proof.
  intros E w first.
  assert (H : first
              = (Ok [ChunkBuilder._finalize_chunk 0 ["abcdefgh"] [] 0], first.2))
    by reflexivity.
  split; [exact H|].
  exact (chunk_cache_wins E "doc.txt" 80000 4000 3 1 w first.2 _ H).
Defined.

(** X14: a call of [preprocess_and_chunk] that raises changes nothing: a
    missing file raises [FileNotFoundError]; a file that is not cached and
    has an extension without extractor raises [ValueError]; and in every
    failing case the world is the one before the call. *)
Theorem preprocess_failure_is_clean (E : env) (file_path : string)
    (chunk_size overlap : Z) (w : world) :
  (files w !! file_path = None ->
   IntegratedProcessor.preprocess_and_chunk E file_path chunk_size overlap w
   = (Raise (FileNotFoundError file_path), w))
  /\ (forall content ext,
        files w !! file_path = Some content ->
        chunk_dir w !! md5 E content = None ->
        file_extension E file_path = Unsupported ext ->
        IntegratedProcessor.preprocess_and_chunk E file_path chunk_size
          overlap w
        = (Raise (ValueError ("지원하지 않는 파일 형식: " +:+ ext)), w))
  /\ (forall e w1,
        IntegratedProcessor.preprocess_and_chunk E file_path chunk_size
          overlap w = (Raise e, w1) ->
        w1 = w).
Proof.
  unfold IntegratedProcessor.preprocess_and_chunk,
    LargeFileProcessor.calculate_file_hash,
    DocumentPreprocessor.extract_content.
  repeat split.
  - intros ->. reflexivity.
  - intros content ext -> -> ->. reflexivity.
  - intros e w1.
    destruct (files w !! file_path) as [content|]; [|now intros [= _ <-]].
    destruct (chunk_dir w !! md5 E content); [discriminate|].
    destruct (match file_extension E file_path with
              | Unsupported ext => _ | Txt => _ | _ => _ end);
      [discriminate | now intros [= _ <-]].
Qed.

(* --------------------------------------------------------------------- *)
(** *** More on the engine *)
(* --------------------------------------------------------------------- *)

Section EngineMore.
Import Trace LargeFileProcessor IntegratedProcessor.
Variables (E : env) (chunks : list ChunkInfo).
Variables (system_prompt user_prompt_template model : string).
Variable (output_tokens : Z).

Abbreviation loop := (process_loop E chunks system_prompt user_prompt_template
                    model output_tokens).
Abbreviation try_call := (attempt E system_prompt user_prompt_template model
                        output_tokens).
Abbreviation run := (_process_chunks E chunks system_prompt user_prompt_template
                   model output_tokens).

Lemma checkpoint_frame (i : nat) (st : ProcessingState) (w : world) :
  files (checkpoint E i st w).2 = files w
  /\ chunk_dir (checkpoint E i st w).2 = chunk_dir w
  /\ (forall h, h <> file_hash st ->
        state_dir (checkpoint E i st w).2 !! h = state_dir w !! h)
  /\ file_path (checkpoint E i st w).1 = file_path st
  /\ current_model (checkpoint E i st w).1 = current_model st
  /\ created_at (checkpoint E i st w).1 = created_at st.
Proof.
  unfold checkpoint. destruct (_ =? _)%nat; simpl; repeat split; auto.
  intros h Hne. now apply lookup_insert_ne.
Qed.

(** What the loop leaves alone. *)
Lemma loop_frame (count i : nat) (st : ProcessingState) (w : world) :
  files (loop count i st w).2 = files w
  /\ chunk_dir (loop count i st w).2 = chunk_dir w
  /\ (forall h, h <> file_hash st ->
        state_dir (loop count i st w).2 !! h = state_dir w !! h)
  /\ file_hash (loop count i st w).1.2 = file_hash st
  /\ file_path (loop count i st w).1.2 = file_path st
  /\ current_model (loop count i st w).1.2 = current_model st
  /\ created_at (loop count i st w).1.2 = created_at st.
Proof.
  apply (loop_ind E chunks system_prompt user_prompt_template model
           output_tokens
           (fun count i st w out =>
              files out.2 = files w
              /\ chunk_dir out.2 = chunk_dir w
              /\ (forall h, h <> file_hash st ->
                    state_dir out.2 !! h = state_dir w !! h)
              /\ file_hash out.1.2 = file_hash st
              /\ file_path out.1.2 = file_path st
              /\ current_model out.1.2 = current_model st
              /\ created_at out.1.2 = created_at st));
    clear count i st w.
  - intros i st w. repeat split; auto.
  - intros count i st w _. simpl. repeat split; auto.
    intros h Hne. now apply lookup_insert_ne.
  - intros count i st w _ _. simpl. repeat split; auto.
  - intros count i st w chunk e _ _ _. simpl. repeat split; auto.
    intros h Hne. now apply lookup_insert_ne.
  - intros count i st w chunk r _ _ _ next
      (Hf & Hc & Hs & Hh & Hp & Hm & Hcr).
    destruct (checkpoint_frame i (record_result st i (entry_of i r))
                (answered i chunk w))
      as (Hf' & Hc' & Hs' & Hp' & Hm' & Hcr').
    destruct (checkpoint_spec E i (record_result st i (entry_of i r))
                (answered i chunk w))
      as (ck & _ & _ & _ & _ & Hh' & _).
    fold next in Hf', Hc', Hs', Hp', Hm', Hcr', Hh'. simpl in *.
    rewrite Hf, Hc, Hh, Hp, Hm, Hcr, Hf', Hc', Hp', Hm', Hcr', Hh'.
    repeat split; auto.
    intros h Hne. rewrite Hs by (rewrite Hh'; exact Hne). now apply Hs'.
Qed.

Lemma run_frame (st : ProcessingState) (w : world) :
  files (run st w).2 = files w /\ chunk_dir (run st w).2 = chunk_dir w.
Proof.
  unfold _process_chunks.
  destruct (loop_frame (length chunks - processed_chunks st)
              (processed_chunks st) st w) as (Hf & Hc & _).
  destruct (loop _ _ st w) as [[ex st'] w']. simpl in *.
  destruct ex; simpl; auto.
Qed.

(** The total cost grows by the costs of the entries, added in order. *)
Lemma loop_cost (count i : nat) (st : ProcessingState) (w : world) :
  exists new,
    results (loop count i st w).1.2 = results st ++ new
    /\ total_cost (loop count i st w).1.2
       = fold_left PrimFloat.add (map cost new) (total_cost st).
Proof.
  apply (loop_ind E chunks system_prompt user_prompt_template model
           output_tokens
           (fun count i st w out =>
              exists new,
                results out.1.2 = results st ++ new
                /\ total_cost out.1.2
                   = fold_left PrimFloat.add (map cost new) (total_cost st)));
    clear count i st w.
  - intros i st w. exists []. simpl. now rewrite app_nil_r.
  - intros count i st w _. exists []. simpl. now rewrite app_nil_r.
  - intros count i st w _ _. exists []. simpl. now rewrite app_nil_r.
  - intros count i st w chunk e _ _ _. exists []. simpl.
    now rewrite app_nil_r.
  - intros count i st w chunk r _ _ _ next (new & Hr & Hc).
    destruct (checkpoint_spec E i (record_result st i (entry_of i r))
                (answered i chunk w))
      as (ck & _ & _ & Hres & _ & _ & _ & Hcost).
    fold next in Hres, Hcost.
    exists (entry_of i r :: new). rewrite Hr, Hc, Hres, Hcost. simpl.
    now rewrite <- app_assoc.
Qed.

(** No pause and no failing call: the run returns normally, having
    submitted and recorded every chunk that was left. *)
Lemma complete_run (st : ProcessingState) (w : world) :
  (processed_chunks st <= length chunks)%nat ->
  (forall t, pause_flag E t = false) ->
  (forall t chunk, In chunk chunks -> exists r, try_call t chunk = Ok r) ->
  let k := processed_chunks st in
  let n := length chunks in
  (run st w).1.1 = Ok tt
  /\ processed_chunks (run st w).1.2 = n
  /\ (exists new, results (run st w).1.2 = results st ++ new
                  /\ map chunk_index new = seq k (n - k))
  /\ map fst (calls (since w (run st w).2)) = seq k (n - k)
  /\ map snd (calls (since w (run st w).2)) = drop k chunks.
Proof.
  intros Hk Hflag Hok k n.
  destruct (run_has_shape E chunks system_prompt user_prompt_template model
              output_tokens st w Hk)
    as (m & new & evs & Hm & Hr & Hidx & Hp & Ht & Hev & Hsc & Hst & Hexit).
  fold k in Hm, Hidx, Hp, Hexit. fold n in Hm, Hexit.
  pose proof (loop_completes E chunks system_prompt user_prompt_template model
                output_tokens (n - k) k st w Hflag Hok) as Hdone.
  rewrite Hev.
  destruct ((run st w).1.1) as [[]|e] eqn:Hres.
  - destruct Hexit as (Hc1 & Hc2 & [(_ & -> & _)|(Hbreak & _)]).
    + rewrite Hc1, Hc2, Hp. repeat split; auto; [lia | now exists new |].
      apply take_ge. rewrite length_drop. lia.
    + rewrite Hdone in Hbreak by lia. discriminate.
  - exfalso. unfold _process_chunks in Hres. fold k n in Hres.
    destruct (loop (n - k) k st w) as [[ex st'] w'].
    simpl in Hdone. rewrite Hdone in Hres by lia. discriminate.
Qed.

(** In demo mode a call returns the canned answer, priced on the chunk's
    token estimate and 500 output tokens. *)
Lemma demo_attempt (price : ModelPricing.pricing) (t : nat)
    (chunk : ChunkInfo) :
  api_client E = NoClient ->
  ModelPricing.lookup ModelPricing.MODELS model = Some price ->
  try_call t chunk
  = Ok {| r_response := "[Demo] Processed chunk " +:+ pretty (index chunk);
          r_input_tokens := token_estimate chunk;
          r_output_tokens := 500;
          r_cost := ModelPricing.cost_formula price (token_estimate chunk) 500 |}.
Proof.
  intros Hc Hp. unfold attempt, _call_llm_api, priced,
    ModelPricing.estimate_cost.
  now rewrite Hc, Hp.
Qed.
End EngineMore.

Section DemoMode.
Import Trace LargeFileProcessor IntegratedProcessor.
Variables (E : env) (chunks : list ChunkInfo).
Variables (system_prompt user_prompt_template model : string).
Variable (max_output : Z).
Variable (price : ModelPricing.pricing).
Hypothesis (Hclient : api_client E = NoClient).
Hypothesis (Hprice : ModelPricing.lookup ModelPricing.MODELS model = Some price).
Hypothesis (Hflag : forall t, pause_flag E t = false).

Lemma demo_loop (count i : nat) (st : ProcessingState) (w : world) :
  (i + count <= length chunks)%nat ->
  results (process_loop E chunks system_prompt user_prompt_template model
             max_output count i st w).1.2
  = results st
    ++ zip_with
         (fun j c =>
            {| chunk_index := j;
               response := "[Demo] Processed chunk " +:+ pretty (index c);
               input_tokens := token_estimate c;
               output_tokens := 500;
               cost := ModelPricing.cost_formula price (token_estimate c) 500 |})
         (seq i count) (take count (drop i chunks)).
Proof.
  apply (loop_ind E chunks system_prompt user_prompt_template model
           max_output
           (fun count i st w out =>
              (i + count <= length chunks)%nat ->
              results out.1.2
              = results st
                ++ zip_with
                     (fun j c =>
                        {| chunk_index := j;
                           response :=
                             "[Demo] Processed chunk " +:+ pretty (index c);
                           input_tokens := token_estimate c;
                           output_tokens := 500;
                           cost := ModelPricing.cost_formula price
                                     (token_estimate c) 500 |})
                     (seq i count) (take count (drop i chunks))));
    clear count i st w.
  - intros i st w _. simpl. now rewrite app_nil_r.
  - intros count i st w Hf. rewrite Hflag in Hf. discriminate.
  - intros count i st w _ Hnone Hlen. apply lookup_ge_None in Hnone. lia.
  - intros count i st w chunk e _ _ Ha.
    rewrite (demo_attempt E system_prompt user_prompt_template model
               max_output price _ chunk Hclient Hprice) in Ha.
    discriminate.
  - intros count i st w chunk r _ Hc Ha next IH Hlen.
    rewrite (demo_attempt E system_prompt user_prompt_template model
               max_output price _ chunk Hclient Hprice) in Ha.
    injection Ha as <-.
    destruct (checkpoint_spec E i
                (record_result st i
                   (entry_of i
                      {| r_response :=
                           "[Demo] Processed chunk " +:+ pretty (index chunk);
                         r_input_tokens := token_estimate chunk;
                         r_output_tokens := 500;
                         r_cost := ModelPricing.cost_formula price
                                     (token_estimate chunk) 500 |}))
                (answered i chunk w))
      as (ck & _ & _ & Hres & _).
    fold next in Hres.
    rewrite IH by lia. rewrite Hres. simpl.
    rewrite (drop_S _ _ _ Hc). simpl. now rewrite <- app_assoc.
Qed.
End DemoMode.

(** X15: a call of [_process_chunks] writes the state file of its own
    content hash and nothing else: the files, the chunk cache and the
    states of other hashes are as before, and of the state only the count
    of processed chunks, the results, the total cost and [updated_at] can
    change. *)
Theorem engine_writes_only_its_state (E : env) (chunks : list ChunkInfo)
    (system_prompt user_prompt_template model : string) (max_output : Z)
    (st : ProcessingState) (w : world) :
  let out := IntegratedProcessor._process_chunks E chunks system_prompt
               user_prompt_template model max_output st w in
  files out.2 = files w
  /\ chunk_dir out.2 = chunk_dir w
  /\ (forall h, h <> file_hash st -> state_dir out.2 !! h = state_dir w !! h)
  /\ file_hash out.1.2 = file_hash st
  /\ file_path out.1.2 = file_path st
  /\ current_model out.1.2 = current_model st
  /\ created_at out.1.2 = created_at st.
Proof.
  intros out. unfold out, IntegratedProcessor._process_chunks.
  destruct (loop_frame E chunks system_prompt user_prompt_template model
              max_output (length chunks - processed_chunks st)
              (processed_chunks st) st w)
    as (Hf & Hc & Hs & Hh & Hp & Hm & Hcr).
  destruct (IntegratedProcessor.process_loop _ _ _ _ _ _ _ _ st w)
    as [[ex st'] w'].
  simpl in *.
  destruct ex; simpl; repeat split; auto;
    intros h Hne; (rewrite lookup_insert_ne by congruence); now apply Hs.
Qed.

(** X16: the total cost after a run is the total cost before it plus the
    costs of the entries the run appended, added one by one in the order
    of the entries; the entries that were there are kept in front. *)
Theorem total_cost_accumulates (E : env) (chunks : list ChunkInfo)
    (system_prompt user_prompt_template model : string) (max_output : Z)
    (st : ProcessingState) (w : world) :
  let out := IntegratedProcessor._process_chunks E chunks system_prompt
               user_prompt_template model max_output st w in
  let new := drop (length (results st)) (results out.1.2) in
  results out.1.2 = results st ++ new
  /\ total_cost out.1.2
     = fold_left PrimFloat.add (map cost new) (total_cost st).
Proof.
  intros out new. unfold new, out, IntegratedProcessor._process_chunks.
  destruct (loop_cost E chunks system_prompt user_prompt_template model
              max_output (length chunks - processed_chunks st)
              (processed_chunks st) st w)
    as (added & Hr & Hc).
  destruct (IntegratedProcessor.process_loop _ _ _ _ _ _ _ _ st w)
    as [[ex st'] w'].
  simpl in *.
  destruct ex; simpl; rewrite Hr, drop_app_length; auto.
Qed.

(** X17: on a state that counts as many processed chunks as the list
    has, or more, [_process_chunks] reads no flag and submits nothing: it
    saves the state once and returns. *)
Theorem finished_state_is_only_saved (E : env) (chunks : list ChunkInfo)
    (system_prompt user_prompt_template model : string) (max_output : Z)
    (st : ProcessingState) (w : world) :
  (length chunks <= processed_chunks st)%nat ->
  let out := IntegratedProcessor._process_chunks E chunks system_prompt
               user_prompt_template model max_output st w in
  out.1.1 = Ok tt
  /\ out.1.2 = set_updated_at st (now E (clock w))
  /\ since w out.2 = [EvSave out.1.2]
  /\ state_dir out.2 !! file_hash st = Some out.1.2.
Proof.
  intros Hlen out. unfold out, IntegratedProcessor._process_chunks.
  replace (length chunks - processed_chunks st)%nat with 0%nat by lia.
  simpl. repeat split.
  - now apply since_app.
  - apply lookup_insert_eq.
Qed.

(** X17 at a state with both chunks processed, the flag set. *)
Lemma finished_state_is_only_saved_witness :
  let E := Demo.demo_env Demo.always "y" NoClient in
  let st := Demo.started 2 [] in
  let w := Demo.disk [("doc.txt", "abc")] in
  (length Demo.two_chunks <= processed_chunks st)%nat
  /\ (IntegratedProcessor._process_chunks E Demo.two_chunks "system"
        "{chunk_text}" "claude-haiku-4" 1000 st w).1.1 = Ok tt.
Proof.
  intros E st w.
  assert (H : (length Demo.two_chunks <= processed_chunks st)%nat)
    by (vm_compute; lia).
  split; [exact H|].
  exact (proj1 (finished_state_is_only_saved E Demo.two_chunks "system"
                  "{chunk_text}" "claude-haiku-4" 1000 st w H)).
Defined.

(** X18: a run that returns normally (paused or not), followed by a run
    on the state it left in which the flag stays unset and every call
    succeeds: together they submit the chunks from the first one that was
    left to the last, each once and in order, and the state ends with all
    chunks processed.  The second run may have other prompts, another
    model and another client, and start in any world. *)
Theorem pause_then_resume_submits_each_chunk_once (E1 E2 : env)
    (chunks : list ChunkInfo)
    (system_prompt user_prompt_template model : string) (max_output : Z)
    (system_prompt' user_prompt_template' model' : string) (max_output' : Z)
    (st : ProcessingState) (w w1 : world) :
  (processed_chunks st <= length chunks)%nat ->
  let out1 := IntegratedProcessor._process_chunks E1 chunks system_prompt
                user_prompt_template model max_output st w in
  let out2 := IntegratedProcessor._process_chunks E2 chunks system_prompt'
                user_prompt_template' model' max_output' out1.1.2 w1 in
  out1.1.1 = Ok tt ->
  (forall t, pause_flag E2 t = false) ->
  (forall t chunk, In chunk chunks ->
     exists r, IntegratedProcessor.attempt E2 system_prompt'
                 user_prompt_template' model' max_output' t chunk = Ok r) ->
  let k := processed_chunks st in
  let n := length chunks in
  let submitted := Trace.calls (since w out1.2) ++ Trace.calls (since w1 out2.2) in
  state_dir out1.2 !! file_hash st = Some out1.1.2
  /\ out2.1.1 = Ok tt
  /\ map fst submitted = seq k (n - k)
  /\ map snd submitted = drop k chunks
  /\ processed_chunks out2.1.2 = n
  /\ map chunk_index (drop (length (results st)) (results out2.1.2))
     = seq k (n - k).
Proof.
  intros Hk out1 out2 Hok Hflag Hcalls k n submitted.
  destruct (run_has_shape E1 chunks system_prompt user_prompt_template model
              max_output st w Hk)
    as (m & new & evs & Hm & Hr & Hidx & Hp & Ht & Hev & Hsc & Hst & Hexit).
  fold out1 in Hr, Hp, Ht, Hev, Hst, Hexit. rewrite Hok in Hexit.
  destruct Hexit as (Hc1 & Hc2 & _).
  fold k in Hm, Hidx, Hp, Hc1, Hc2. fold n in Hm.
  assert (Hk1 : (processed_chunks out1.1.2 <= length chunks)%nat)
    by (rewrite Hp; fold n; lia).
  destruct (complete_run E2 chunks system_prompt' user_prompt_template'
              model' max_output' out1.1.2 w1 Hk1 Hflag Hcalls)
    as (Hres & Hproc & (new2 & Hr2 & Hidx2) & Hf2 & Hs2).
  fold out2 in Hres, Hproc, Hr2, Hf2, Hs2. fold n in Hproc, Hidx2, Hf2.
  rewrite Hp in Hidx2, Hf2, Hs2.
  unfold submitted. rewrite !map_app, Hev, Hc1, Hc2, Hf2, Hs2.
  split; [exact Hst|]. split; [exact Hres|]. split.
  { replace (n - k)%nat with (m + (n - (k + m)))%nat by lia.
    now rewrite seq_app. }
  split.
  { rewrite <- (take_drop m (drop k chunks)) at 2. now rewrite drop_drop. }
  split; [exact Hproc|].
  rewrite Hr2, Hr, <- app_assoc, drop_app_length, map_app, Hidx, Hidx2.
  replace (n - k)%nat with (m + (n - (k + m)))%nat by lia.
  now rewrite seq_app.
Qed.

(** X18 at a run paused before its first chunk and resumed with another model. *)
Lemma pause_then_resume_submits_each_chunk_once_witness :
  let E1 := Demo.demo_env Demo.always "y" NoClient in
  let E2 := Demo.demo_env Demo.never "y" NoClient in
  let st := Demo.started 0 [] in
  let w := Demo.disk [("doc.txt", "abc")] in
  let out1 := IntegratedProcessor._process_chunks E1 Demo.two_chunks "system"
                "{chunk_text}" "claude-haiku-4" 1000 st w in
  let out2 := IntegratedProcessor._process_chunks E2 Demo.two_chunks "system"
                "{chunk_text}" "gpt-4o" 500 out1.1.2 out1.2 in
  (processed_chunks st <= length Demo.two_chunks)%nat
  /\ out1.1.1 = Ok tt
  /\ Trace.calls (since w out1.2) = []
  /\ map fst (Trace.calls (since w out1.2) ++ Trace.calls (since out1.2 out2.2))
     = [0; 1]%nat.
Proof.
  intros E1 E2 st w out1 out2.
  assert (Hk : (processed_chunks st <= length Demo.two_chunks)%nat)
    by (vm_compute; lia).
  assert (Hok : out1.1.1 = Ok tt) by reflexivity.
  assert (Hflag : forall t, pause_flag E2 t = false) by reflexivity.
  assert (Hcalls : forall t chunk, In chunk Demo.two_chunks ->
            exists r, IntegratedProcessor.attempt E2 "system" "{chunk_text}"
                        "gpt-4o" 500 t chunk = Ok r)
    by (intros t chunk _; eexists; reflexivity).
  split; [exact Hk|]. split; [exact Hok|]. split; [reflexivity|].
  exact (proj1 (proj2 (proj2
           (pause_then_resume_submits_each_chunk_once E1 E2 Demo.two_chunks
              "system" "{chunk_text}" "claude-haiku-4" 1000
              "system" "{chunk_text}" "gpt-4o" 500 st w out1.2
              Hk Hok Hflag Hcalls)))).
Defined.

(** X19: demo mode (no API client), a model of the pricing table, the
    flag never set: the run returns normally with every chunk processed,
    and the entry it appends for chunk [j] carries the canned answer with
    the chunk's own index, the chunk's token estimate as input tokens, 500
    output tokens whatever [output_tokens] was asked for, and the table's
    price for these. *)
Theorem demo_run_records_every_chunk (E : env) (chunks : list ChunkInfo)
    (system_prompt user_prompt_template model : string) (max_output : Z)
    (price : ModelPricing.pricing) (st : ProcessingState) (w : world) :
  api_client E = NoClient ->
  ModelPricing.lookup ModelPricing.MODELS model = Some price ->
  (forall t, pause_flag E t = false) ->
  (processed_chunks st <= length chunks)%nat ->
  let k := processed_chunks st in
  let n := length chunks in
  let out := IntegratedProcessor._process_chunks E chunks system_prompt
               user_prompt_template model max_output st w in
  out.1.1 = Ok tt
  /\ processed_chunks out.1.2 = n
  /\ results out.1.2
     = results st
       ++ zip_with
            (fun j c =>
               {| chunk_index := j;
                  response := "[Demo] Processed chunk " +:+ pretty (index c);
                  input_tokens := token_estimate c;
                  output_tokens := 500;
                  cost := ModelPricing.cost_formula price (token_estimate c) 500 |})
            (seq k (n - k)) (drop k chunks)
  /\ map snd (Trace.calls (since w out.2)) = drop k chunks.
Proof.
  intros Hclient Hprice Hflag Hk k n out.
  assert (Hok : forall t chunk, In chunk chunks ->
            exists r, IntegratedProcessor.attempt E system_prompt
                        user_prompt_template model max_output t chunk = Ok r).
  { intros t chunk _. eexists.
    now apply (demo_attempt E system_prompt user_prompt_template model
                 max_output price). }
  destruct (complete_run E chunks system_prompt user_prompt_template model
              max_output st w Hk Hflag Hok) as (Hres & Hproc & _ & _ & Hs).
  fold out in Hres, Hproc, Hs.
  split; [exact Hres|]. split; [exact Hproc|]. split; [|exact Hs].
  pose proof (demo_loop E chunks system_prompt user_prompt_template model
                max_output price Hclient Hprice Hflag (n - k) k st w) as Hloop.
  unfold out, IntegratedProcessor._process_chunks. fold k n.
  destruct (IntegratedProcessor.process_loop _ _ _ _ _ _ (n - k) k st w)
    as [[ex st'] w'].
  simpl in Hloop.
  rewrite take_ge in Hloop by (rewrite length_drop; lia).
  destruct ex; simpl; apply Hloop; lia.
Qed.

(** X19 at a state with one chunk of two processed. *)
Lemma demo_run_records_every_chunk_witness :
  let E := Demo.demo_env Demo.never "y" NoClient in
  let st := Demo.started 1 [Demo.first_entry] in
  let w := Demo.disk [("doc.txt", "abc")] in
  let price := {| ModelPricing.input := 2.50; ModelPricing.output := 10.00 |}%float in
  api_client E = NoClient
  /\ ModelPricing.lookup ModelPricing.MODELS "gpt-4o" = Some price
  /\ (forall t, pause_flag E t = false)
  /\ (processed_chunks st <= length Demo.two_chunks)%nat
  /\ processed_chunks
       (IntegratedProcessor._process_chunks E Demo.two_chunks "system"
          "{chunk_text}" "gpt-4o" 1000 st w).1.2
     = length Demo.two_chunks.
Proof.
  intros E st w price.
  assert (Hc : api_client E = NoClient) by reflexivity.
  assert (Hp : ModelPricing.lookup ModelPricing.MODELS "gpt-4o" = Some price)
    by reflexivity.
  assert (Hf : forall t, pause_flag E t = false) by reflexivity.
  assert (Hk : (processed_chunks st <= length Demo.two_chunks)%nat)
    by (vm_compute; lia).
  split; [exact Hc|]. split; [exact Hp|]. split; [exact Hf|].
  split; [exact Hk|].
  exact (proj1 (proj2
           (demo_run_records_every_chunk E Demo.two_chunks "system"
              "{chunk_text}" "gpt-4o" 1000 price st w Hc Hp Hf Hk))).
Defined.

(** X20: with a client object that has neither [messages] nor [chat],
    [_call_llm_api] returns nothing and the engine fails on the first
    chunk it submits: the run raises ([TypeError], unless formatting the
    prompt raised first), records nothing and saves the state as it
    was. *)
Theorem client_without_interface_fails_first_chunk (E : env)
    (chunks : list ChunkInfo)
    (system_prompt user_prompt_template model : string) (max_output : Z)
    (st : ProcessingState) (w : world) (chunk : ChunkInfo) :
  api_client E = OtherClient ->
  pause_flag E (time w) = false ->
  chunks !! processed_chunks st = Some chunk ->
  let out := IntegratedProcessor._process_chunks E chunks system_prompt
               user_prompt_template model max_output st w in
  (exists e,
      out.1.1 = Raise e
      /\ (e = TypeError "'NoneType' object is not subscriptable"
          \/ exists text, text_content chunk = Some text
                          /\ format_template E user_prompt_template text
                             = Raise e))
  /\ results out.1.2 = results st
  /\ processed_chunks out.1.2 = processed_chunks st
  /\ total_cost out.1.2 = total_cost st
  /\ Trace.calls (since w out.2) = [(processed_chunks st, chunk)]
  /\ state_dir out.2 !! file_hash st = Some out.1.2.
Proof.
  intros Hclient Hflag Hchunk out.
  assert (Ha : exists e,
             IntegratedProcessor.attempt E system_prompt user_prompt_template
               model max_output (S (S (time w))) chunk = Raise e
             /\ (e = TypeError "'NoneType' object is not subscriptable"
                 \/ exists text, text_content chunk = Some text
                                 /\ format_template E user_prompt_template text
                                    = Raise e)).
  { unfold IntegratedProcessor.attempt, IntegratedProcessor._call_llm_api.
    rewrite Hclient.
    destruct (text_content chunk) as [text|]; [|eexists; split; eauto].
    destruct (truthy_str (Some text)); [|eexists; split; eauto].
    destruct (format_template E user_prompt_template text) as [s|e] eqn:Hfmt.
    - eexists; split; eauto.
    - exists e. split; [reflexivity|]. right. now exists text. }
  destruct Ha as (e & Ha & He).
  assert (Hcount : (length chunks - processed_chunks st
                    = S (length chunks - S (processed_chunks st)))%nat).
  { apply lookup_lt_Some in Hchunk. lia. }
  unfold out, IntegratedProcessor._process_chunks. rewrite Hcount.
  rewrite (loop_raised E chunks system_prompt user_prompt_template model
             max_output _ _ st w chunk e Hflag Hchunk Ha).
  simpl. split; [now exists e|]. repeat split.
  - erewrite since_app; [|simpl; rewrite <- !app_assoc; reflexivity].
    reflexivity.
  - apply lookup_insert_eq.
Qed.

(** X20 at a fresh state. *)
Lemma client_without_interface_fails_first_chunk_witness :
  let E := Demo.demo_env Demo.never "y" OtherClient in
  let st := Demo.started 0 [] in
  let w := Demo.disk [("doc.txt", "abc")] in
  let chunk := ChunkBuilder._finalize_chunk 0 ["abc"; "d"] [] 0 in
  api_client E = OtherClient
  /\ pause_flag E (time w) = false
  /\ Demo.two_chunks !! processed_chunks st = Some chunk
  /\ results (IntegratedProcessor._process_chunks E Demo.two_chunks "system"
                "{chunk_text}" "claude-haiku-4" 1000 st w).1.2
     = results st.
Proof.
  intros E st w chunk.
  assert (Hc : api_client E = OtherClient) by reflexivity.
  assert (Hf : pause_flag E (time w) = false) by reflexivity.
  assert (Hl : Demo.two_chunks !! processed_chunks st = Some chunk)
    by reflexivity.
  split; [exact Hc|]. split; [exact Hf|]. split; [exact Hl|].
  exact (proj1 (proj2
           (client_without_interface_fails_first_chunk E Demo.two_chunks
              "system" "{chunk_text}" "claude-haiku-4" 1000 st w chunk
              Hc Hf Hl))).
Defined.

(** X21: what a call through a real client returns is the provider's
    answer to one request that carries the model, the token limit and the
    system prompt as given, the formatted prompt (or the fixed image
    prompt when the chunk has no text) and the chunk's images; the token
    counts are the provider's and the cost is the table's price for
    them.  So a call can only succeed for a model of the table. *)
Theorem api_result_reports_provider_usage (E : env)
    (create : nat -> request -> result llm_response)
    (system_prompt user_prompt_template model : string) (max_output : Z)
    (t : nat) (chunk : ChunkInfo) (r : IntegratedProcessor.api_result) :
  api_client E = Anthropic create \/ api_client E = OpenAI create ->
  IntegratedProcessor.attempt E system_prompt user_prompt_template model
    max_output t chunk = Ok r ->
  exists req resp,
    create t req = Ok resp
    /\ req_model req = model
    /\ req_max_tokens req = max_output
    /\ req_system req = system_prompt
    /\ (if truthy_str (text_content chunk)
        then exists text, text_content chunk = Some text
                          /\ format_template E user_prompt_template text
                             = Ok (req_text req)
        else req_text req = "이미지를 분석해주세요.")
    /\ req_images req
       = match image_data chunk with
         | Some imgs => map img_data imgs
         | None => []
         end
    /\ IntegratedProcessor.r_response r = resp_text resp
    /\ IntegratedProcessor.r_input_tokens r = resp_input_tokens resp
    /\ IntegratedProcessor.r_output_tokens r = resp_output_tokens resp
    /\ ModelPricing.estimate_cost model (resp_input_tokens resp)
         (resp_output_tokens resp)
       = Ok (IntegratedProcessor.r_cost r)
    /\ In model ModelPricing.keys.
Proof.
  intros Hclient.
  unfold IntegratedProcessor.attempt, IntegratedProcessor._call_llm_api,
    IntegratedProcessor.priced.
  set (content :=
         match text_content chunk with
         | Some text =>
             if truthy_str (Some text)
             then format_template E user_prompt_template text
             else Ok "이미지를 분석해주세요."
         | None => Ok "이미지를 분석해주세요."
         end).
  assert (Hcontent : forall s, content = Ok s ->
            if truthy_str (text_content chunk)
            then exists text, text_content chunk = Some text
                              /\ format_template E user_prompt_template text
                                 = Ok s
            else s = "이미지를 분석해주세요.").
  { unfold content. intros s.
    destruct (text_content chunk) as [text|]; [|now intros [= <-]].
    destruct (truthy_str (Some text)); [|now intros [= <-]].
    intros H. now exists text. }
  assert (Hgoal : forall req_text',
            content = Ok req_text' ->
            match
              match create t {| req_model := model; req_max_tokens := max_output;
                                req_system := system_prompt;
                                req_text := req_text';
                                req_images :=
                                  match image_data chunk with
                                  | Some imgs => map img_data imgs
                                  | None => []
                                  end |} with
              | Ok r0 =>
                  match ModelPricing.estimate_cost model (resp_input_tokens r0)
                          (resp_output_tokens r0) with
                  | Ok c =>
                      Ok (Some {| IntegratedProcessor.r_response := resp_text r0;
                                  IntegratedProcessor.r_input_tokens :=
                                    resp_input_tokens r0;
                                  IntegratedProcessor.r_output_tokens :=
                                    resp_output_tokens r0;
                                  IntegratedProcessor.r_cost := c |})
                  | Raise e => Raise e
                  end
              | Raise e => Raise e
              end
            with
            | Ok (Some r0) => Ok r0
            | Ok None =>
                Raise (TypeError "'NoneType' object is not subscriptable")
            | Raise e => Raise e
            end = Ok r ->
            exists req resp,
              create t req = Ok resp
              /\ req_model req = model
              /\ req_max_tokens req = max_output
              /\ req_system req = system_prompt
              /\ (if truthy_str (text_content chunk)
                  then exists text, text_content chunk = Some text
                                    /\ format_template E user_prompt_template
                                         text = Ok (req_text req)
                  else req_text req = "이미지를 분석해주세요.")
              /\ req_images req
                 = match image_data chunk with
                   | Some imgs => map img_data imgs
                   | None => []
                   end
              /\ IntegratedProcessor.r_response r = resp_text resp
              /\ IntegratedProcessor.r_input_tokens r = resp_input_tokens resp
              /\ IntegratedProcessor.r_output_tokens r = resp_output_tokens resp
              /\ ModelPricing.estimate_cost model (resp_input_tokens resp)
                   (resp_output_tokens resp)
                 = Ok (IntegratedProcessor.r_cost r)
              /\ In model ModelPricing.keys).
  { intros s Hs.
    destruct (create t _) as [resp|e] eqn:Hcreate; [|discriminate].
    destruct (ModelPricing.estimate_cost model _ _) as [c|e] eqn:Hcost;
      [|discriminate].
    intros [= <-]. eexists _, resp. split; [exact Hcreate|]. simpl.
    repeat split; auto.
    - now apply Hcontent.
    - unfold ModelPricing.estimate_cost in Hcost.
      destruct (ModelPricing.lookup ModelPricing.MODELS model) eqn:Hl;
        [|discriminate].
      destruct (in_dec string_dec model ModelPricing.keys) as [Hin|Hout];
        [exact Hin|].
      apply lookup_None_iff in Hout. unfold ModelPricing.keys in Hout.
      congruence. }
  destruct Hclient as [-> | ->];
    (destruct content as [s|e]; [now apply Hgoal | discriminate]).
Qed.

(* --------------------------------------------------------------------- *)
(** *** [process_file] *)
(* --------------------------------------------------------------------- *)

Section ProcessFileFacts.
Import Trace LargeFileProcessor IntegratedProcessor.

Lemma since_refl (w : world) : since w w = [].
Proof. unfold since, time. apply drop_all. Qed.

Lemma estimate_remaining_cost_unknown (chunks : list ChunkInfo) (k : nat)
    (model : string) (out_tokens : Z) :
  ~ In model ModelPricing.keys ->
  estimate_remaining_cost chunks k model out_tokens
  = Raise (ModelPricing.unsupported model).
Proof.
  intros H. apply lookup_None_iff in H.
  unfold estimate_remaining_cost, ModelPricing.estimate_cost. now rewrite H.
Qed.

Lemma estimate_remaining_cost_known (chunks : list ChunkInfo) (k : nat)
    (model : string) (out_tokens : Z) :
  In model ModelPricing.keys ->
  exists info, estimate_remaining_cost chunks k model out_tokens = Ok info.
Proof.
  intros H. unfold estimate_remaining_cost, ModelPricing.estimate_cost.
  destruct (ModelPricing.lookup ModelPricing.MODELS model) eqn:Hl.
  - eexists. reflexivity.
  - apply lookup_None_iff in Hl. contradiction.
Qed.

(** [preprocess_and_chunk] writes the chunk cache and nothing else. *)
Lemma preprocess_frame (E : env) (file_path : string) (chunk_size overlap : Z)
    (w : world) :
  let w1 := (preprocess_and_chunk E file_path chunk_size overlap w).2 in
  files w1 = files w /\ state_dir w1 = state_dir w
  /\ history w1 = history w /\ clock w1 = clock w.
Proof.
  unfold preprocess_and_chunk.
  destruct (calculate_file_hash E w file_path); [|easy].
  destruct (chunk_dir w !! a); [easy|].
  destruct (DocumentPreprocessor.extract_content E w file_path); easy.
Qed.

(** Chunks come back only for a file that is there. *)
Lemma preprocess_failure_frame (E : env) (file_path : string)
    (chunk_size overlap : Z) (w : world) :
  (files w !! file_path = None ->
   preprocess_and_chunk E file_path chunk_size overlap w
   = (Raise (FileNotFoundError file_path), w))
  /\ (forall e w1,
        preprocess_and_chunk E file_path chunk_size overlap w = (Raise e, w1) ->
        w1 = w)
  /\ (forall chunks w1,
        files w !! file_path = None ->
        preprocess_and_chunk E file_path chunk_size overlap w
        <> (Ok chunks, w1)).
Proof.
  unfold preprocess_and_chunk, calculate_file_hash. repeat split.
  - intros ->. reflexivity.
  - intros e w1.
    destruct (files w !! file_path) as [content|]; [|now intros [= _ <-]].
    destruct (chunk_dir w !! md5 E content); [discriminate|].
    destruct (DocumentPreprocessor.extract_content E w file_path);
      [discriminate | now intros [= _ <-]].
  - intros chunks w1 ->. discriminate.
Qed.

(** [initialize_processing] with its default sizes always returns; it
    asks at most one question and saves at most one state, it submits
    nothing, a state comes back only after one of the two, and it raises
    only for a missing file or for a content that is not UTF-8. *)
Lemma initialize_returns (E : env) (file_path model : string) (w : world) :
  exists r w' evs,
    initialize_processing E file_path model w = Some (r, w')
    /\ files w' = files w
    /\ chunk_dir w' = chunk_dir w
    /\ history w' = history w ++ evs
    /\ calls evs = []
    /\ pause_checks evs = []
    /\ (forall st, r = Ok st -> evs <> [])
    /\ (forall e, r = Raise e ->
          state_dir w' = state_dir w
          /\ ((e = FileNotFoundError file_path /\ files w !! file_path = None)
              \/ (e = UnicodeDecodeError
                  /\ exists content, files w !! file_path = Some content
                                     /\ decode_utf8 E content = None))).
Proof.
  unfold initialize_processing, load_state, calculate_file_hash, create_chunks,
    read_text.
  destruct (files w !! file_path) as [content|] eqn:Hf.
  - destruct (state_dir w !! md5 E content) as [prior|].
    + destruct (String.eqb _ _).
      * eexists _, _, [_]. repeat split; try reflexivity; easy.
      * cbn [files log]. rewrite Hf.
        destruct (decode_utf8 E content) as [text|] eqn:Hd.
        -- destruct (create_chunks_text_returns text
                       LargeFileProcessor.default_chunk_size
                       LargeFileProcessor.default_overlap) as [chunks Hch];
             [reflexivity|].
           rewrite Hch. simpl. eexists _, _, [_; _].
           split; [reflexivity|]. split; [reflexivity|].
           split; [reflexivity|].
           split; [simpl; now rewrite <- app_assoc|].
           repeat split; easy.
        -- eexists _, _, [_].
           split; [reflexivity|]. split; [reflexivity|].
           split; [reflexivity|]. split; [reflexivity|].
           split; [reflexivity|]. split; [reflexivity|].
           split; [discriminate|].
           intros e [= <-]. split; [reflexivity|].
           right. split; [reflexivity|]. now exists content.
    + destruct (decode_utf8 E content) as [text|] eqn:Hd.
      * destruct (create_chunks_text_returns text
                    LargeFileProcessor.default_chunk_size
                    LargeFileProcessor.default_overlap) as [chunks Hch];
          [reflexivity|].
        rewrite Hch. simpl.
        eexists _, _, [_]. repeat split; try reflexivity; easy.
      * eexists _, _, []. simpl. rewrite app_nil_r.
        split; [reflexivity|]. split; [reflexivity|].
        split; [reflexivity|]. split; [reflexivity|].
        split; [reflexivity|]. split; [reflexivity|].
        split; [discriminate|].
        intros e [= <-]. split; [reflexivity|].
        right. split; [reflexivity|]. now exists content.
  - eexists _, _, []. simpl. rewrite app_nil_r.
    split; [reflexivity|]. split; [reflexivity|].
    split; [reflexivity|]. split; [reflexivity|].
    split; [reflexivity|]. split; [reflexivity|].
    split; [discriminate|].
    intros e [= <-]. split; [reflexivity|]. left. now split.
Qed.

Lemma finalize_single_text (content : string) :
  token_estimate (ChunkBuilder._finalize_chunk 0 [content] [] 0)
  = len content / 2.
Proof.
  unfold ChunkBuilder._finalize_chunk. simpl.
  destruct (String.eqb_spec content ""); simpl; [subst; reflexivity | lia].
Qed.
End ProcessFileFacts.

(** The number of windows of [create_chunks]: the length of the content
    divided by the step, rounded up. *)
Lemma create_chunks_count (content : string) (chunk_size overlap : Z)
    (chunks : list ChunkInfo) :
  overlap < chunk_size ->
  LargeFileProcessor.create_chunks_text content chunk_size overlap
  = Some chunks ->
  Z.of_nat (length chunks)
  = (len content + (chunk_size - overlap) - 1) / (chunk_size - overlap).
Proof.
  intros Hstep Hch.
  destruct (create_chunks_loop_chunks content chunk_size overlap _ 0 0%nat
              chunks Hch) as [Hall Hend].
  set (d := chunk_size - overlap) in *.
  assert (Hd : 0 < d) by (unfold d; lia).
  assert (Hlen : 0 <= len content) by (unfold len; lia).
  destruct (length chunks) as [|m] eqn:Hm.
  - simpl in *. symmetry. apply Z.div_small. lia.
  - destruct (lookup_lt_is_Some_2 chunks m) as [c Hc]; [lia|].
    destruct (Hall m c Hc) as (_ & _ & Hpos & _).
    apply (Z.div_unique _ _ _ (len content + d - 1 - d * Z.of_nat (S m)));
      [left; nia | lia].
Qed.

(** X22: [process_file] with a model that has no price raises before any
    chunk is submitted and before the pause flag is read.  When the file
    could be chunked, the error is either the unknown-model [ValueError]
    of the cost estimate, raised after [initialize_processing] has asked
    its question or written a state, or the [UnicodeDecodeError] of
    [initialize_processing] on a content that is not UTF-8, raised
    before any state is written. *)
Theorem unknown_model_stops_before_any_call (E : env)
    (file_path system_prompt user_prompt_template model : string)
    (max_output : Z) (auto_confirm : bool) (w : world) :
  ~ In model ModelPricing.keys ->
  exists e w',
    IntegratedProcessor.process_file E file_path system_prompt
      user_prompt_template model max_output auto_confirm w
    = Some (Raise e, w')
    /\ Trace.calls (since w w') = []
    /\ Trace.pause_checks (since w w') = []
    /\ files w' = files w
    /\ (forall chunks w1,
          IntegratedProcessor.preprocess_and_chunk E file_path
            IntegratedProcessor.default_chunk_size
            IntegratedProcessor.default_overlap w = (Ok chunks, w1) ->
          (e = ValueError ("지원하지 않는 모델: " +:+ model)
           /\ since w w' <> [])
          \/ (e = UnicodeDecodeError
              /\ state_dir w' = state_dir w
              /\ exists content, files w !! file_path = Some content
                                 /\ decode_utf8 E content = None)).
Proof.
  intros Hmodel. unfold IntegratedProcessor.process_file.
  pose proof (preprocess_frame E file_path
                IntegratedProcessor.default_chunk_size
                IntegratedProcessor.default_overlap w) as Hframe.
  pose proof (proj2 (proj2
                (preprocess_failure_frame E file_path
                   IntegratedProcessor.default_chunk_size
                   IntegratedProcessor.default_overlap w))) as Hfail.
  destruct (IntegratedProcessor.preprocess_and_chunk E file_path _ _ w)
    as [[chunks|e] w1] eqn:Hpre.
  - simpl in Hframe. destruct Hframe as (Hfiles & Hstates & Hhist & _).
    destruct (initialize_returns E file_path model w1)
      as (r & w2 & evs & Hinit & Hf2 & _ & Hh2 & Hcalls & Hchecks & Hne & Hraise).
    rewrite Hinit.
    assert (Hsince : since w w2 = evs).
    { apply since_app. now rewrite Hh2, Hhist. }
    destruct r as [st|e].
    + rewrite estimate_remaining_cost_unknown by assumption.
      eexists _, w2. split; [reflexivity|]. rewrite Hsince.
      repeat split; auto; try congruence.
      intros _ _ _. left. split; [reflexivity|]. now apply (Hne st).
    + exists e, w2. split; [reflexivity|]. rewrite Hsince.
      repeat split; auto; try congruence.
      intros _ _ _.
      destruct (Hraise e eq_refl) as (Hst & [(_ & Hnone) | (-> & content & Hc & Hd)]).
      * exfalso. rewrite Hfiles in Hnone.
        apply (Hfail chunks w1 Hnone). reflexivity.
      * right. split; [reflexivity|]. split; [congruence|].
        exists content. rewrite Hfiles in Hc. now split.
  - exists e, w1. split; [reflexivity|].
    simpl in Hframe. destruct Hframe as (Hfiles & _ & Hhist & _).
    assert (Hsince : since w w1 = []).
    { apply since_app. now rewrite Hhist, app_nil_r. }
    rewrite Hsince. repeat split; auto. discriminate.
Qed.

(** X22 at a model that is not in the table. *)
Lemma unknown_model_stops_before_any_call_witness :
  let E := Demo.demo_env Demo.never "y" NoClient in
  let w := Demo.disk [("doc.txt", "abc")] in
  ~ In "gpt-5" ModelPricing.keys
  /\ exists e w',
       IntegratedProcessor.process_file E "doc.txt" "system" "{chunk_text}"
         "gpt-5" 1000 true w = Some (Raise e, w')
       /\ Trace.calls (since w w') = [].
Proof.
  intros E w.
  assert (H : ~ In "gpt-5" ModelPricing.keys)
    by (vm_compute; intuition discriminate).
  split; [exact H|].
  destruct (unknown_model_stops_before_any_call E "doc.txt" "system"
              "{chunk_text}" "gpt-5" 1000 true w H)
    as (e & w' & Hrun & Hcalls & _).
  exists e, w'. split; [exact Hrun | exact Hcalls].
Defined.

(** X23: when the answer to the cost question of [process_file] reads [n]
    (in either case, white space around it ignored), no chunk is
    submitted and the pause flag is not read: the call returns the state
    that [initialize_processing] gave, or raises what preprocessing or
    initialisation raised. *)
Theorem declined_run_submits_nothing (E : env)
    (file_path system_prompt user_prompt_template model : string)
    (max_output : Z) (w : world) :
  In model ModelPricing.keys ->
  (forall t, (time w < t)%nat ->
             lower (IntegratedProcessor.strip (user_input E t)) = "n") ->
  exists r w',
    IntegratedProcessor.process_file E file_path system_prompt
      user_prompt_template model max_output false w = Some (r, w')
    /\ Trace.calls (since w w') = []
    /\ Trace.pause_checks (since w w') = []
    /\ files w' = files w
    /\ (forall state, r = Ok state ->
          exists w2,
            LargeFileProcessor.initialize_processing E file_path model
              (IntegratedProcessor.preprocess_and_chunk E file_path
                 IntegratedProcessor.default_chunk_size
                 IntegratedProcessor.default_overlap w).2
            = Some (Ok state, w2)
            /\ w' = log (EvInput (IntegratedProcessor.strip
                                    (user_input E (time w2)))) w2).
Proof.
  intros Hmodel Hanswer. unfold IntegratedProcessor.process_file.
  pose proof (preprocess_frame E file_path
                IntegratedProcessor.default_chunk_size
                IntegratedProcessor.default_overlap w) as Hframe.
  destruct (IntegratedProcessor.preprocess_and_chunk E file_path _ _ w)
    as [[chunks|e] w1] eqn:Hpre;
    simpl in Hframe; destruct Hframe as (Hfiles & _ & Hhist & _).
  - destruct (initialize_returns E file_path model w1)
      as (r & w2 & evs & Hinit & Hf2 & _ & Hh2 & Hcalls & Hchecks & Hne & _).
    rewrite Hinit.
    assert (Hsince : since w w2 = evs).
    { apply since_app. now rewrite Hh2, Hhist. }
    destruct r as [st|e].
    + destruct (estimate_remaining_cost_known chunks (processed_chunks st)
                  model max_output Hmodel) as [info ->].
      assert (Hlater : (time w < time w2)%nat).
      { unfold time. rewrite Hh2, Hhist, length_app.
        specialize (Hne st eq_refl). destruct evs; [contradiction|].
        simpl. lia. }
      rewrite (Hanswer _ Hlater). simpl.
      eexists _, _. split; [reflexivity|].
      erewrite (since_app w (log _ w2));
        [|simpl; rewrite Hh2, Hhist, <- app_assoc; reflexivity].
      rewrite calls_app, pause_checks_app, Hcalls, Hchecks. simpl.
      repeat split; [congruence|].
      intros state [= <-]. now exists w2.
    + eexists _, w2. split; [reflexivity|]. rewrite Hsince.
      repeat split; auto; [congruence | discriminate].
  - exists (Raise e), w1. split; [reflexivity|].
    assert (Hsince : since w w1 = []).
    { apply since_app. now rewrite Hhist, app_nil_r. }
    rewrite Hsince. repeat split; auto. discriminate.
Qed.

(** X23 at an answer with white space and an upper-case letter. *)
Lemma declined_run_submits_nothing_witness :
  let E := Demo.demo_env Demo.never " N " NoClient in
  let w := Demo.disk [("doc.txt", "abc")] in
  In "gpt-4o" ModelPricing.keys
  /\ (forall t, (time w < t)%nat ->
                lower (IntegratedProcessor.strip (user_input E t)) = "n")
  /\ exists r w',
       IntegratedProcessor.process_file E "doc.txt" "system" "{chunk_text}"
         "gpt-4o" 1000 false w = Some (r, w')
       /\ Trace.calls (since w w') = [].
Proof.
  intros E w.
  assert (Hm : In "gpt-4o" ModelPricing.keys)
    by (do 4 right; left; reflexivity).
  assert (Ha : forall t, (time w < t)%nat ->
                 lower (IntegratedProcessor.strip (user_input E t)) = "n")
    by (intros t _; reflexivity).
  split; [exact Hm|]. split; [exact Ha|].
  destruct (declined_run_submits_nothing E "doc.txt" "system" "{chunk_text}"
              "gpt-4o" 1000 w Hm Ha)
    as (r & w' & Hrun & Hcalls & _).
  exists r, w'. split; [exact Hrun | exact Hcalls].
Defined.

(** X24: [process_file] on a text file whose content decodes as UTF-8
    and that has neither a state nor cached chunks, in demo mode with a
    model of the table, the flag never set and the cost question skipped.
    The text is one chunk for the engine, whatever its length, so the
    state returned has one processed chunk and one result (the canned
    answer, half the length of the text as input tokens); its
    [total_chunks] is the number of windows of [create_chunks], the
    length of the text divided by 95000 and rounded up.  The two counts
    agree only for a text of 1 to 95000 characters. *)
Theorem text_file_demo_run (E : env)
    (path content text system_prompt user_prompt_template model : string)
    (max_output : Z) (price : ModelPricing.pricing) (w : world) :
  files w !! path = Some content ->
  decode_utf8 E content = Some text ->
  file_extension E path = Txt ->
  chunk_dir w !! md5 E content = None ->
  state_dir w !! md5 E content = None ->
  api_client E = NoClient ->
  ModelPricing.lookup ModelPricing.MODELS model = Some price ->
  (forall t, pause_flag E t = false) ->
  exists state w',
    IntegratedProcessor.process_file E path system_prompt
      user_prompt_template model max_output true w = Some (Ok state, w')
    /\ processed_chunks state = 1%nat
    /\ results state
       = [ {| chunk_index := 0; response := "[Demo] Processed chunk 0";
              input_tokens := len text / 2; output_tokens := 500;
              cost := ModelPricing.cost_formula price (len text / 2) 500 |} ]
    /\ total_cost state
       = (0 + ModelPricing.cost_formula price (len text / 2) 500)%float
    /\ Z.of_nat (total_chunks state) = (len text + 94999) / 95000
    /\ (processed_chunks state = total_chunks state
        <-> 1 <= len text <= 95000)
    /\ state_dir w' !! md5 E content = Some state
    /\ chunk_dir w' !! md5 E content
       = Some [ChunkBuilder._finalize_chunk 0 [text] [] 0]
    /\ Trace.calls (since w w')
       = [(0%nat, ChunkBuilder._finalize_chunk 0 [text] [] 0)].
Proof.
  intros Hf Hd Hext Hcache Hstate Hclient Hprice Hflag.
  destruct (create_chunks_text_returns text
              LargeFileProcessor.default_chunk_size
              LargeFileProcessor.default_overlap) as [windows Hw];
    [reflexivity|].
  assert (Hcount : Z.of_nat (length windows)
                   = (len text
                      + (LargeFileProcessor.default_chunk_size
                         - LargeFileProcessor.default_overlap) - 1)
                     / (LargeFileProcessor.default_chunk_size
                        - LargeFileProcessor.default_overlap))
    by (apply create_chunks_count; [reflexivity | exact Hw]).
  change (LargeFileProcessor.default_chunk_size
          - LargeFileProcessor.default_overlap) with 95000 in Hcount.
  replace (len text + 95000 - 1) with (len text + 94999) in Hcount by lia.
  assert (Hmodel : In model ModelPricing.keys).
  { destruct (in_dec string_dec model ModelPricing.keys) as [Hin|Hout];
      [exact Hin|].
    apply lookup_None_iff in Hout. unfold ModelPricing.keys in Hout.
    congruence. }
  set (chunk := ChunkBuilder._finalize_chunk 0 [text] [] 0).
  assert (Hidx : index chunk = 0%nat) by reflexivity.
  assert (Htok : token_estimate chunk = len text / 2)
    by apply finalize_single_text.
  unfold IntegratedProcessor.process_file,
    IntegratedProcessor.preprocess_and_chunk,
    LargeFileProcessor.calculate_file_hash,
    DocumentPreprocessor.extract_content,
    DocumentPreprocessor._extract_from_text.
  rewrite Hf, Hcache, Hext, (read_text_decoded E w path content text Hf Hd).
  rewrite single_text_unit_single_chunk.
  fold chunk.
  unfold LargeFileProcessor.initialize_processing,
    LargeFileProcessor.load_state, LargeFileProcessor.calculate_file_hash,
    LargeFileProcessor.create_chunks.
  cbn [files state_dir]. rewrite Hf, Hstate.
  match goal with
  | |- context [read_text E ?w1 path] =>
      rewrite (read_text_decoded E w1 path content text Hf Hd)
  end.
  rewrite Hw.
  cbn [LargeFileProcessor.save_state set_updated_at file_hash fst snd
       files state_dir chunk_dir clock history file_path total_chunks
       processed_chunks current_model total_cost results created_at
       updated_at].
  cbv zeta.
  destruct (estimate_remaining_cost_known [chunk] 0 model max_output Hmodel)
    as [info ->].
  unfold IntegratedProcessor._process_chunks.
  cbn [length].
  match goal with
  | |- context [IntegratedProcessor.process_loop _ _ _ _ _ _ _ _ ?st ?wi] =>
      set (st0 := st); set (w0 := wi)
  end.
  change (processed_chunks st0) with 0%nat.
  change (1 - 0)%nat with 1%nat.
  match goal with
  | |- context [IntegratedProcessor.process_loop _ _ _ _ _ _ 1 0 ?st ?w0] =>
      rewrite (loop_next E [chunk] system_prompt user_prompt_template model
                 max_output 0 0 st w0 chunk
                 {| IntegratedProcessor.r_response :=
                      "[Demo] Processed chunk " +:+ pretty (index chunk);
                    IntegratedProcessor.r_input_tokens := token_estimate chunk;
                    IntegratedProcessor.r_output_tokens := 500;
                    IntegratedProcessor.r_cost :=
                      ModelPricing.cost_formula price (token_estimate chunk)
                        500 |}
                 (Hflag _) eq_refl
                 (demo_attempt E system_prompt user_prompt_template model
                    max_output price _ chunk Hclient Hprice))
  end.
  rewrite Hidx, Htok.
  eexists _, _. split; [reflexivity|].
  cbn -[chunk Z.div len ModelPricing.cost_formula PrimFloat.add].
  rewrite Hcount.
  split; [reflexivity|]. split; [reflexivity|]. split; [reflexivity|].
  split; [reflexivity|]. split.
  { assert (Hlen : 0 <= len text) by (unfold len; lia).
    split.
    - intros Heq.
      assert (H1 : (len text + 94999) / 95000 = 1) by lia.
      clear - H1 Hlen.
      assert (95000 * ((len text + 94999) / 95000)
              <= len text + 94999) by (apply Z.mul_div_le; lia).
      assert (len text + 94999
              < 95000 * (Z.succ ((len text + 94999) / 95000)))
        by (apply Z.mul_succ_div_gt; lia).
      lia.
    - intros Hrange.
      assert (H1 : (len text + 94999) / 95000 = 1).
      { symmetry. apply (Z.div_unique _ _ _ (len text - 1)); lia. }
      lia. }
  split; [apply lookup_insert_eq|]. split; [apply lookup_insert_eq|].
  erewrite since_app; [|cbn [history]; rewrite <- !app_assoc; reflexivity].
  reflexivity.
Qed.

(** X30: [process_file] on a file whose content is not UTF-8 and that
    has no state file (a PDF or an office document on its first run)
    never submits a chunk: it raises, and when the document could be
    extracted and chunked the error is the [UnicodeDecodeError] of
    [create_chunks] in [initialize_processing]; no state is written, and
    only the chunk cache is left behind. *)
Theorem undecodable_file_is_never_processed (E : env)
    (path content system_prompt user_prompt_template model : string)
    (max_output : Z) (auto_confirm : bool) (w : world) :
  files w !! path = Some content ->
  decode_utf8 E content = None ->
  state_dir w !! md5 E content = None ->
  exists e w',
    IntegratedProcessor.process_file E path system_prompt
      user_prompt_template model max_output auto_confirm w
    = Some (Raise e, w')
    /\ Trace.calls (since w w') = []
    /\ since w w' = []
    /\ state_dir w' = state_dir w
    /\ files w' = files w
    /\ (forall chunks w1,
          IntegratedProcessor.preprocess_and_chunk E path
            IntegratedProcessor.default_chunk_size
            IntegratedProcessor.default_overlap w = (Ok chunks, w1) ->
          e = UnicodeDecodeError /\ w' = w1
          /\ chunk_dir w' !! md5 E content = Some chunks).
Proof.
  intros Hf Hd Hs. unfold IntegratedProcessor.process_file.
  pose proof (preprocess_frame E path
                IntegratedProcessor.default_chunk_size
                IntegratedProcessor.default_overlap w) as Hframe.
  assert (Hcache : forall chunks w1,
            IntegratedProcessor.preprocess_and_chunk E path
              IntegratedProcessor.default_chunk_size
              IntegratedProcessor.default_overlap w = (Ok chunks, w1) ->
            chunk_dir w1 !! md5 E content = Some chunks).
  { unfold IntegratedProcessor.preprocess_and_chunk,
      LargeFileProcessor.calculate_file_hash.
    rewrite Hf. intros chunks w1.
    destruct (chunk_dir w !! md5 E content) as [cached|] eqn:Hc.
    - now intros [= <- <-].
    - destruct (DocumentPreprocessor.extract_content E w path);
        [|discriminate].
      intros [= <- <-]. apply lookup_insert_eq. }
  destruct (IntegratedProcessor.preprocess_and_chunk E path _ _ w)
    as [[chunks|e] w1] eqn:Hpre;
    simpl in Hframe; destruct Hframe as (Hfiles & Hstates & Hhist & _).
  - unfold LargeFileProcessor.initialize_processing,
      LargeFileProcessor.load_state, LargeFileProcessor.calculate_file_hash,
      LargeFileProcessor.create_chunks.
    rewrite Hfiles, Hf, Hstates, Hs.
    assert (Hf1 : files w1 !! path = Some content) by now rewrite Hfiles.
    rewrite (read_text_undecodable E w1 path content Hf1 Hd).
    exists UnicodeDecodeError, w1. split; [reflexivity|].
    assert (Hsince : since w w1 = []).
    { apply since_app. now rewrite Hhist, app_nil_r. }
    rewrite Hsince. split; [reflexivity|]. split; [reflexivity|].
    split; [exact Hstates|]. split; [exact Hfiles|].
    intros chunks' w1' [= <- <-]. split; [reflexivity|].
    split; [reflexivity|]. now apply Hcache.
  - exists e, w1. split; [reflexivity|].
    assert (Hsince : since w w1 = []).
    { apply since_app. now rewrite Hhist, app_nil_r. }
    rewrite Hsince. repeat split; auto; discriminate.
Qed.

(** X30 at a PDF of one page whose bytes are not UTF-8. *)
Lemma undecodable_file_is_never_processed_witness :
  let w := Demo.disk [("scan.pdf", Demo.not_utf8)] in
  let page := ChunkBuilder._finalize_chunk 0 ["page one"] [] 0 in
  files w !! "scan.pdf" = Some Demo.not_utf8
  /\ decode_utf8 Demo.pdf_env Demo.not_utf8 = None
  /\ state_dir w !! md5 Demo.pdf_env Demo.not_utf8 = None
  /\ (IntegratedProcessor.preprocess_and_chunk Demo.pdf_env "scan.pdf"
        IntegratedProcessor.default_chunk_size
        IntegratedProcessor.default_overlap w).1 = Ok [page]
  /\ exists e w',
       IntegratedProcessor.process_file Demo.pdf_env "scan.pdf" "system"
         "{chunk_text}" "claude-haiku-4" 1000 true w = Some (Raise e, w')
       /\ e = UnicodeDecodeError
       /\ state_dir w' = state_dir w.
Proof.
  intros w page.
  assert (Hf : files w !! "scan.pdf" = Some Demo.not_utf8) by reflexivity.
  assert (Hd : decode_utf8 Demo.pdf_env Demo.not_utf8 = None) by reflexivity.
  assert (Hs : state_dir w !! md5 Demo.pdf_env Demo.not_utf8 = None)
    by reflexivity.
  assert (Hpre : IntegratedProcessor.preprocess_and_chunk Demo.pdf_env
                   "scan.pdf" IntegratedProcessor.default_chunk_size
                   IntegratedProcessor.default_overlap w
                 = (Ok [page],
                    (IntegratedProcessor.preprocess_and_chunk Demo.pdf_env
                       "scan.pdf" IntegratedProcessor.default_chunk_size
                       IntegratedProcessor.default_overlap w).2))
    by reflexivity.
  split; [exact Hf|]. split; [exact Hd|]. split; [exact Hs|].
  split; [now rewrite Hpre|].
  destruct (undecodable_file_is_never_processed Demo.pdf_env "scan.pdf"
              Demo.not_utf8 "system" "{chunk_text}" "claude-haiku-4" 1000
              true w Hf Hd Hs)
    as (e & w' & Hrun & _ & _ & Hst & _ & Hchunked).
  exists e, w'. split; [exact Hrun|]. split; [|exact Hst].
  exact (proj1 (Hchunked _ _ Hpre)).
Defined.

(* --------------------------------------------------------------------- *)
(** *** The command line *)
(* --------------------------------------------------------------------- *)

(** X25: [resume] does nothing without a saved state for the content of
    the file, and raises [FileNotFoundError] for a missing file.  With a
    saved state and a [--model] other than the saved one it raises the
    [ValueError] of [change_model], whose object has no current state:
    nothing is submitted and nothing is written. *)
Theorem resume_with_other_model_raises (H : CLIProcessor.host) (E : env)
    (args : CLIProcessor.resume_args) (w : world) :
  (files w !! CLIProcessor.arg_file args = None ->
   CLIProcessor.resume H E args w
   = (CLIProcessor.Raised (FileNotFoundError (CLIProcessor.arg_file args)), w))
  /\ (forall content,
        files w !! CLIProcessor.arg_file args = Some content ->
        state_dir w !! md5 E content = None ->
        CLIProcessor.resume H E args w = (CLIProcessor.Returned, w))
  /\ (forall content state new_model,
        files w !! CLIProcessor.arg_file args = Some content ->
        state_dir w !! md5 E content = Some state ->
        CLIProcessor.arg_model args = Some new_model ->
        new_model <> "" ->
        new_model <> current_model state ->
        CLIProcessor.resume H E args w
        = (CLIProcessor.Raised
             (ValueError "처리 상태가 초기화되지 않았습니다."), w)).
Proof.
  unfold CLIProcessor.resume, LargeFileProcessor.load_state,
    LargeFileProcessor.calculate_file_hash.
  repeat split.
  - intros ->. reflexivity.
  - intros content -> ->. reflexivity.
  - intros content state new_model -> -> -> Hne Hother. simpl.
    destruct (String.eqb_spec new_model ""); [contradiction|].
    destruct (String.eqb_spec new_model (current_model state));
      [contradiction|].
    reflexivity.
Qed.

(** X25 at the resume with another model that the help text shows. *)
Lemma resume_with_other_model_raises_witness :
  let E := Demo.demo_env Demo.never "y" NoClient in
  let args := DemoCLI.resume_doc (Some "gpt-4o-mini") None in
  let state := Demo.started 1 [Demo.first_entry] in
  files DemoCLI.interrupted !! CLIProcessor.arg_file args = Some "abc"
  /\ state_dir DemoCLI.interrupted !! md5 E "abc" = Some state
  /\ CLIProcessor.arg_model args = Some "gpt-4o-mini"
  /\ "gpt-4o-mini" <> ""
  /\ "gpt-4o-mini" <> current_model state
  /\ CLIProcessor.resume DemoCLI.laptop E args DemoCLI.interrupted
     = (CLIProcessor.Raised
          (ValueError "처리 상태가 초기화되지 않았습니다."),
        DemoCLI.interrupted).
Proof.
  intros E args state.
  assert (Hf : files DemoCLI.interrupted !! CLIProcessor.arg_file args
               = Some "abc") by reflexivity.
  assert (Hs : state_dir DemoCLI.interrupted !! md5 E "abc" = Some state)
    by reflexivity.
  assert (Hm : CLIProcessor.arg_model args = Some "gpt-4o-mini")
    by reflexivity.
  assert (Hne : "gpt-4o-mini" <> "") by discriminate.
  assert (Ho : "gpt-4o-mini" <> current_model state) by discriminate.
  split; [exact Hf|]. split; [exact Hs|]. split; [exact Hm|].
  split; [exact Hne|]. split; [exact Ho|].
  exact (proj2 (proj2 (resume_with_other_model_raises DemoCLI.laptop E args
                         DemoCLI.interrupted))
           "abc" state "gpt-4o-mini" Hf Hs Hm Hne Ho).
Defined.

(** X26: [resume] without a change of model, on a file whose state and
    chunks an earlier run left, with the flag never set and every call
    succeeding: it submits the chunks from the first unprocessed one to
    the last, each once, with the saved model and the client that
    [_setup_api_client] returned, leaves a state with every chunk
    processed in the state file, and writes the export when [--output]
    names a path. *)
Theorem resume_completes_saved_run (H : CLIProcessor.host) (E : env)
    (args : CLIProcessor.resume_args) (w : world) (content : string)
    (state : ProcessingState) (chunks : list ChunkInfo) (cl : client) :
  files w !! CLIProcessor.arg_file args = Some content ->
  state_dir w !! md5 E content = Some state ->
  chunk_dir w !! md5 E content = Some chunks ->
  (CLIProcessor.arg_model args = None
   \/ CLIProcessor.arg_model args = Some ""
   \/ CLIProcessor.arg_model args = Some (current_model state)) ->
  CLIProcessor._setup_api_client H (CLIProcessor.arg_api args)
    (CLIProcessor.arg_api_key args) = CLIProcessor.Client cl ->
  (processed_chunks state <= length chunks)%nat ->
  (forall t, pause_flag E t = false) ->
  (forall t chunk, In chunk chunks ->
     exists r,
       IntegratedProcessor.attempt (CLIProcessor.with_client E cl)
         (CLIProcessor.or_else (CLIProcessor.arg_system_prompt args)
            CLIProcessor.default_system_prompt)
         (CLIProcessor.or_else (CLIProcessor.arg_prompt args)
            CLIProcessor.default_prompt)
         (current_model state) (CLIProcessor.arg_max_output args) t chunk
       = Ok r) ->
  let k := processed_chunks state in
  let n := length chunks in
  exists final w',
    CLIProcessor.resume H E args w = (CLIProcessor.Returned, w')
    /\ map fst (Trace.calls (since w w')) = seq k (n - k)
    /\ map snd (Trace.calls (since w w')) = drop k chunks
    /\ state_dir w' !! file_hash state = Some final
    /\ processed_chunks final = n
    /\ (exists new, results final = results state ++ new
                    /\ map chunk_index new = seq k (n - k))
    /\ match CLIProcessor.arg_output args with
       | Some path =>
           if String.eqb path "" then files w' = files w
           else files w' = <[path := CLIProcessor.export_json H final]> (files w)
       | None => files w' = files w
       end.
Proof.
  intros Hf Hs Hc Hmodel Hsetup Hk Hflag Hok k n.
  unfold CLIProcessor.resume, LargeFileProcessor.load_state,
    LargeFileProcessor.calculate_file_hash.
  rewrite Hf, Hs.
  assert (Hsame :
            match CLIProcessor.arg_model args with
            | Some m =>
                if truthy_str (Some m)
                   && negb (String.eqb m (current_model state))
                then ProcessorObject.change_model E None m w
                else (Ok state, w)
            | None => (Ok state, w)
            end = (Ok state, w)).
  { destruct Hmodel as [-> | [-> | ->]]; [reflexivity | reflexivity |].
    rewrite String.eqb_refl. simpl. now rewrite andb_false_r. }
  rewrite Hsame, Hsetup.
  unfold IntegratedProcessor.preprocess_and_chunk,
    LargeFileProcessor.calculate_file_hash.
  cbn [CLIProcessor.with_client md5]. rewrite Hf, Hc.
  set (E' := CLIProcessor.with_client E cl).
  set (sp := CLIProcessor.or_else (CLIProcessor.arg_system_prompt args)
               CLIProcessor.default_system_prompt).
  set (tpl := CLIProcessor.or_else (CLIProcessor.arg_prompt args)
                CLIProcessor.default_prompt).
  destruct (complete_run E' chunks sp tpl (current_model state)
              (CLIProcessor.arg_max_output args) state w Hk Hflag Hok)
    as (Hres & Hproc & Hnew & Hfst & Hsnd).
  destruct (run_has_shape E' chunks sp tpl (current_model state)
              (CLIProcessor.arg_max_output args) state w Hk)
    as (_ & _ & _ & _ & _ & _ & _ & _ & _ & _ & Hst & _).
  destruct (run_frame E' chunks sp tpl (current_model state)
              (CLIProcessor.arg_max_output args) state w) as (Hfiles & _).
  destruct (IntegratedProcessor._process_chunks E' chunks sp tpl
              (current_model state) (CLIProcessor.arg_max_output args)
              state w) as [[res final] w'].
  simpl in Hres, Hproc, Hnew, Hfst, Hsnd, Hst, Hfiles. subst res.
  destruct (CLIProcessor.arg_output args) as [path|].
  - simpl. destruct (String.eqb_spec path ""); simpl.
    + exists final, w'. repeat split; auto.
    + exists final, (CLIProcessor.export_results H final path w').
      split; [reflexivity|]. simpl. rewrite Hfiles.
      repeat split; auto.
  - exists final, w'. repeat split; auto.
Qed.

(** X26 at an interrupted run of two chunks, without a key: demo mode. *)
Lemma resume_completes_saved_run_witness :
  let E := Demo.demo_env Demo.never "y" OtherClient in
  let args := DemoCLI.resume_doc None (Some "out.json") in
  let state := Demo.started 1 [Demo.first_entry] in
  files DemoCLI.interrupted !! CLIProcessor.arg_file args = Some "abc"
  /\ state_dir DemoCLI.interrupted !! md5 E "abc" = Some state
  /\ chunk_dir DemoCLI.interrupted !! md5 E "abc" = Some Demo.two_chunks
  /\ CLIProcessor._setup_api_client DemoCLI.laptop (CLIProcessor.arg_api args)
       (CLIProcessor.arg_api_key args) = CLIProcessor.Client NoClient
  /\ (processed_chunks state <= length Demo.two_chunks)%nat
  /\ exists final w',
       CLIProcessor.resume DemoCLI.laptop E args DemoCLI.interrupted
       = (CLIProcessor.Returned, w')
       /\ map fst (Trace.calls (since DemoCLI.interrupted w')) = [1%nat]
       /\ processed_chunks final = 2%nat
       /\ files w' !! "out.json"
          = Some (CLIProcessor.export_json DemoCLI.laptop final).
Proof.
  intros E args state.
  assert (Hf : files DemoCLI.interrupted !! CLIProcessor.arg_file args
               = Some "abc") by reflexivity.
  assert (Hs : state_dir DemoCLI.interrupted !! md5 E "abc" = Some state)
    by reflexivity.
  assert (Hc : chunk_dir DemoCLI.interrupted !! md5 E "abc"
               = Some Demo.two_chunks) by reflexivity.
  assert (Hm : CLIProcessor.arg_model args = None
               \/ CLIProcessor.arg_model args = Some ""
               \/ CLIProcessor.arg_model args = Some (current_model state))
    by (left; reflexivity).
  assert (Hsetup : CLIProcessor._setup_api_client DemoCLI.laptop
                     (CLIProcessor.arg_api args) (CLIProcessor.arg_api_key args)
                   = CLIProcessor.Client NoClient) by reflexivity.
  assert (Hk : (processed_chunks state <= length Demo.two_chunks)%nat)
    by (vm_compute; lia).
  assert (Hflag : forall t, pause_flag E t = false) by reflexivity.
  assert (Hok : forall t chunk, In chunk Demo.two_chunks ->
            exists r,
              IntegratedProcessor.attempt (CLIProcessor.with_client E NoClient)
                (CLIProcessor.or_else (CLIProcessor.arg_system_prompt args)
                   CLIProcessor.default_system_prompt)
                (CLIProcessor.or_else (CLIProcessor.arg_prompt args)
                   CLIProcessor.default_prompt)
                (current_model state) (CLIProcessor.arg_max_output args)
                t chunk = Ok r)
    by (intros t chunk _; eexists; reflexivity).
  split; [exact Hf|]. split; [exact Hs|]. split; [exact Hc|].
  split; [exact Hsetup|]. split; [exact Hk|].
  destruct (resume_completes_saved_run DemoCLI.laptop E args
              DemoCLI.interrupted "abc" state Demo.two_chunks NoClient
              Hf Hs Hc Hm Hsetup Hk Hflag Hok)
    as (final & w' & Hrun & Hfst & _ & _ & Hproc & _ & Hout).
  exists final, w'. split; [exact Hrun|]. split; [exact Hfst|].
  split; [exact Hproc|].
  cbn [CLIProcessor.arg_output DemoCLI.resume_doc args] in Hout.
  change (String.eqb "out.json" "") with false in Hout. cbv iota in Hout.
  rewrite Hout. apply lookup_insert_eq.
Defined.

Section StatusFacts.
Import CLIProcessor.

Lemma status_loop_fails_iff (states : list ProcessingState) :
  (status_loop states = ZeroDivisionError
   <-> exists st, In st states /\ total_chunks st = 0%nat)
  /\ (status_loop states = Returned
      <-> forall st, In st states -> total_chunks st <> 0%nat).
Proof.
  induction states as [|st rest [IHf IHr]]; simpl.
  - split; split.
    + discriminate.
    + intros (st & [] & _).
    + intros _ st [].
    + reflexivity.
  - unfold progress. destruct (Nat.eqb_spec (total_chunks st) 0) as [Hz|Hnz].
    + split; split.
      * intros _. exists st. auto.
      * reflexivity.
      * discriminate.
      * intros Hall. exfalso. apply (Hall st); auto.
    + rewrite IHf, IHr. split; split.
      * intros (st' & Hin & Hz). exists st'. auto.
      * intros (st' & [<- | Hin] & Hz); [contradiction|]. now exists st'.
      * intros Hall st' [<- | Hin]; auto.
      * intros Hall st' Hin. apply Hall. auto.
Qed.
End StatusFacts.

(** X27: [status] raises [ZeroDivisionError] exactly when some state
    file records a total of zero chunks, and returns normally exactly
    when none does. *)
Theorem status_fails_on_empty_total (w : world) :
  (CLIProcessor.status w = CLIProcessor.ZeroDivisionError
   <-> exists h state, state_dir w !! h = Some state
                       /\ total_chunks state = 0%nat)
  /\ (CLIProcessor.status w = CLIProcessor.Returned
      <-> forall h state, state_dir w !! h = Some state ->
                          total_chunks state <> 0%nat).
Proof.
  unfold CLIProcessor.status.
  destruct (status_loop_fails_iff (map snd (map_to_list (state_dir w))))
    as [Hf Hr].
  rewrite Hf, Hr. split; split.
  - intros (st & Hin & Hz). apply in_map_iff in Hin as ([h st'] & <- & Hin).
    apply list_elem_of_In, elem_of_map_to_list in Hin. now exists h, st'.
  - intros (h & st & Hl & Hz). exists st. split; [|exact Hz].
    apply in_map_iff. exists (h, st). split; [reflexivity|].
    now apply list_elem_of_In, elem_of_map_to_list.
  - intros Hall h st Hl. apply Hall. apply in_map_iff. exists (h, st).
    split; [reflexivity|]. now apply list_elem_of_In, elem_of_map_to_list.
  - intros Hall st Hin. apply in_map_iff in Hin as ([h st'] & <- & Hin).
    apply list_elem_of_In, elem_of_map_to_list in Hin. now apply (Hall h).
Qed.

(** X24 at a text of eight characters. *)
Lemma text_file_demo_run_witness :
  let E := Demo.demo_env Demo.never "y" NoClient in
  let w := Demo.disk [("doc.txt", "abcdefgh")] in
  let price := {| ModelPricing.input := 2.50; ModelPricing.output := 10.00 |}%float in
  files w !! "doc.txt" = Some "abcdefgh"
  /\ decode_utf8 E "abcdefgh" = Some "abcdefgh"
  /\ file_extension E "doc.txt" = Txt
  /\ chunk_dir w !! md5 E "abcdefgh" = None
  /\ state_dir w !! md5 E "abcdefgh" = None
  /\ api_client E = NoClient
  /\ ModelPricing.lookup ModelPricing.MODELS "gpt-4o" = Some price
  /\ (forall t, pause_flag E t = false)
  /\ exists state w',
       IntegratedProcessor.process_file E "doc.txt" "system" "{chunk_text}"
         "gpt-4o" 1000 true w = Some (Ok state, w')
       /\ processed_chunks state = 1%nat
       /\ Z.of_nat (total_chunks state) = 1.
Proof.
  intros E w price.
  assert (Hf : files w !! "doc.txt" = Some "abcdefgh") by reflexivity.
  assert (Hd : decode_utf8 E "abcdefgh" = Some "abcdefgh") by reflexivity.
  assert (He : file_extension E "doc.txt" = Txt) by reflexivity.
  assert (Hc : chunk_dir w !! md5 E "abcdefgh" = None) by reflexivity.
  assert (Hs : state_dir w !! md5 E "abcdefgh" = None) by reflexivity.
  assert (Ha : api_client E = NoClient) by reflexivity.
  assert (Hp : ModelPricing.lookup ModelPricing.MODELS "gpt-4o" = Some price)
    by reflexivity.
  assert (Hflag : forall t, pause_flag E t = false) by reflexivity.
  split; [exact Hf|]. split; [exact Hd|]. split; [exact He|].
  split; [exact Hc|]. split; [exact Hs|]. split; [exact Ha|].
  split; [exact Hp|]. split; [exact Hflag|].
  destruct (text_file_demo_run E "doc.txt" "abcdefgh" "abcdefgh" "system"
              "{chunk_text}" "gpt-4o" 1000 price w Hf Hd He Hc Hs Ha Hp Hflag)
    as (state & w' & Hrun & Hproc & _ & _ & Htotal & _).
  exists state, w'. split; [exact Hrun|]. split; [exact Hproc|].
  rewrite Htotal. reflexivity.
Defined.

(** X29 at a state with one chunk of two processed. *)
Lemma results_invariant_kept_witness :
  let E := Demo.demo_env Demo.never "y" NoClient in
  let st := Demo.started 1 [Demo.first_entry] in
  let w := Demo.disk [("doc.txt", "abc")] in
  let out := IntegratedProcessor._process_chunks E Demo.two_chunks "system"
               "{chunk_text}" "claude-haiku-4" 1000 st w in
  (processed_chunks st <= length Demo.two_chunks)%nat
  /\ map chunk_index (results st) = seq 0 (processed_chunks st)
  /\ map chunk_index (results out.1.2) = seq 0 (processed_chunks out.1.2).
Proof.
  intros E st w out.
  assert (Hk : (processed_chunks st <= length Demo.two_chunks)%nat)
    by (vm_compute; lia).
  assert (Hinv : map chunk_index (results st) = seq 0 (processed_chunks st))
    by reflexivity.
  split; [exact Hk|]. split; [exact Hinv|].
  exact (proj1 (results_invariant_kept E Demo.two_chunks "system"
                  "{chunk_text}" "claude-haiku-4" 1000 st w Hk Hinv)).
Defined.

(** X28 at a model without price, one chunk of two processed. *)
Lemma failed_run_stops_at_failing_chunk_witness :
  let E := Demo.demo_env Demo.never "y" NoClient in
  let st := Demo.started 1 [Demo.first_entry] in
  let w := Demo.disk [("doc.txt", "abc")] in
  let e := ValueError ("지원하지 않는 모델: " +:+ "no-such-model") in
  let out := IntegratedProcessor._process_chunks E Demo.two_chunks "system"
               "{chunk_text}" "no-such-model" 1000 st w in
  (processed_chunks st <= length Demo.two_chunks)%nat
  /\ out.1.1 = Raise e
  /\ (processed_chunks st <= processed_chunks out.1.2 < length Demo.two_chunks)%nat.
Proof.
  intros E st w e out.
  assert (Hk : (processed_chunks st <= length Demo.two_chunks)%nat)
    by (vm_compute; lia).
  assert (Hres : out.1.1 = Raise e) by reflexivity.
  split; [exact Hk|]. split; [exact Hres|].
  exact (proj1 (failed_run_stops_at_failing_chunk E Demo.two_chunks "system"
                  "{chunk_text}" "no-such-model" 1000 st w e Hk Hres)).
Defined.

(** X10 at a file without state, and at one whose content is the byte
    0xff. *)
Lemma initialize_without_prior_state_witness :
  let E := Demo.demo_env Demo.never "y" NoClient in
  let w := Demo.disk [("doc.txt", "abc"); ("scan.pdf", Demo.not_utf8)] in
  (files w !! "doc.txt" = Some "abc"
   /\ state_dir w !! md5 E "abc" = None
   /\ decode_utf8 E "abc" = Some "abc"
   /\ exists (chunks : list ChunkInfo) fresh w',
        LargeFileProcessor.initialize_processing E "doc.txt" "gpt-4o" w
        = Some (Ok fresh, w')
        /\ total_chunks fresh = length chunks
        /\ processed_chunks fresh = 0%nat)
  /\ (files w !! "scan.pdf" = Some Demo.not_utf8
      /\ state_dir w !! md5 E Demo.not_utf8 = None
      /\ decode_utf8 E Demo.not_utf8 = None
      /\ LargeFileProcessor.initialize_processing E "scan.pdf" "gpt-4o" w
         = Some (Raise UnicodeDecodeError, w)).
Proof.
  intros E w. split.
  - assert (Hf : files w !! "doc.txt" = Some "abc") by reflexivity.
    assert (Hs : state_dir w !! md5 E "abc" = None) by reflexivity.
    assert (Hd : decode_utf8 E "abc" = Some "abc") by reflexivity.
    split; [exact Hf|]. split; [exact Hs|]. split; [exact Hd|].
    destruct (proj1 (initialize_without_prior_state E "doc.txt" "gpt-4o" "abc"
                       w Hf Hs) "abc" Hd)
      as (chunks & fresh & w' & _ & Hinit & Htotal & Hproc & _).
    exists chunks, fresh, w'. split; [exact Hinit|]. split; [exact Htotal|].
    exact Hproc.
  - assert (Hf : files w !! "scan.pdf" = Some Demo.not_utf8) by reflexivity.
    assert (Hs : state_dir w !! md5 E Demo.not_utf8 = None) by reflexivity.
    assert (Hd : decode_utf8 E Demo.not_utf8 = None) by reflexivity.
    split; [exact Hf|]. split; [exact Hs|]. split; [exact Hd|].
    exact (proj2 (initialize_without_prior_state E "scan.pdf" "gpt-4o"
                    Demo.not_utf8 w Hf Hs) Hd).
Defined.

(** X21 at a client that answers every request the same way. *)
Lemma api_result_reports_provider_usage_witness :
  let create := fun (_ : nat) (_ : request) =>
                  Ok {| resp_text := "ok"; resp_input_tokens := 10;
                        resp_output_tokens := 5 |} in
  let E := Demo.demo_env Demo.never "y" (Anthropic create) in
  let chunk := ChunkBuilder._finalize_chunk 0 ["abc"] [] 0 in
  let r := {| IntegratedProcessor.r_response := "ok";
              IntegratedProcessor.r_input_tokens := 10;
              IntegratedProcessor.r_output_tokens := 5;
              IntegratedProcessor.r_cost :=
                ModelPricing.cost_formula
                  {| ModelPricing.input := 2.50; ModelPricing.output := 10.00 |}
                  10 5 |} in
  (api_client E = Anthropic create \/ api_client E = OpenAI create)
  /\ IntegratedProcessor.attempt E "system" "{chunk_text}" "gpt-4o" 1000 0 chunk
     = Ok r
  /\ exists req resp,
       create 0%nat req = Ok resp
       /\ req_model req = "gpt-4o"
       /\ IntegratedProcessor.r_input_tokens r = resp_input_tokens resp.
Proof.
  intros create E chunk r.
  assert (Hc : api_client E = Anthropic create \/ api_client E = OpenAI create)
    by (left; reflexivity).
  assert (Ha : IntegratedProcessor.attempt E "system" "{chunk_text}" "gpt-4o"
                 1000 0 chunk = Ok r) by reflexivity.
  split; [exact Hc|]. split; [exact Ha|].
  destruct (api_result_reports_provider_usage E create "system" "{chunk_text}"
              "gpt-4o" 1000 0 chunk r Hc Ha)
    as (req & resp & Hcreate & Hmodel & _ & _ & _ & _ & _ & Hin & _).
  exists req, resp. split; [exact Hcreate|]. split; [exact Hmodel | exact Hin].
Defined.
